(** * The session lifecycle engine of the study bot (main.py)

    A shallow embedding of the in-memory registries, the user statistics
    rollup, the session operations and the countdown timers of [main.py],
    followed by the properties the specification states about them.

    Conventions of the embedding.
    - The module-level dictionaries [group_sessions], [user_profiles],
      [active_sessions] and [bot_stats], together with the tasks handed to
      the asyncio event loop, form one record [World]; every [async def]
      is a function that takes the world and returns the new one.
    - A handler runs from its first line to its last without another
      handler in between: interleavings at [await] points are not part of
      the model.
    - [datetime.now()] is a whole number of seconds supplied by the caller;
      one handler invocation sees one instant.
    - Calls to the Telegram API only matter through what the program does
      with their result: [bot.get_chat] is an oracle, the outcome of a
      permission check or of sending a message is an argument of the
      handler.  Message texts and keyboards are not modelled. *)

From stdpp Require Import base gmap list strings pretty.
From Stdlib Require Import Ascii ZArith Lia.

#[local] Open Scope Z_scope.

(** ** Data model *)

Inductive UserStatus := ACTIVE | INACTIVE | BANNED.

(** The object aiogram returns for a user or a chat, as far as the program
    reads it ([id], [username], [first_name], [last_name]). *)
Record User := mkUser {
  tg_id : Z;
  tg_username : option string;
  tg_first_name : string;
  tg_last_name : option string
}.

(** [UserProfile.study_stats] *)
Record StudyStats := mkStudyStats {
  total_sessions : Z;
  total_time : Z;
  completed_sessions : Z;
  last_session : option Z
}.

(** [UserProfile.preferences] *)
Record Preferences := mkPreferences {
  notifications : bool;
  motivation_messages : bool;
  language : string
}.

Record UserProfile := mkUserProfile {
  user_id : Z;
  username : option string;
  first_name : string;
  last_name : option string;
  join_date : Z;
  status : UserStatus;
  study_stats : StudyStats;
  achievements : list string;
  preferences : Preferences
}.

(** One value of [StudySession.participants] *)
Record Participant := mkParticipant {
  name : string;
  join_time : Z;
  active : bool
}.

(** [StudySession.stats] *)
Record SessionStats := mkSessionStats {
  joins : Z;
  leaves : Z;
  extensions : Z;
  completions : Z
}.

(** Which coroutine a timer task runs. *)
Inductive TimerKind := PrivateTimer | GroupTimer.

(** An [asyncio.Task] made by [asyncio.create_task]: the coroutine, its
    argument, and whether [done()] holds. *)
Record Task := mkTask {
  task_coro : TimerKind;
  task_arg : string;
  task_done : bool
}.

(** [participants] is a Python dict that the program iterates over, so the
    insertion order is kept: an association list whose keys are pairwise
    distinct.  [timer_task] is a handle into the event loop's task list.
    [start_time] is a reading of the loop clock that nothing reads back. *)
Record StudySession := mkStudySession {
  session_id : string;
  chat_id : Z;
  creator_id : Z;
  creator_name : string;
  participants : list (Z * Participant);
  message_id : option Z;
  start_time : Z;
  time_left : Z;
  is_active : bool;
  is_pinned : bool;
  last_update : Z;
  stats : SessionStats;
  timer_task : option nat
}.

(** [bot_stats] (its [start_time] entry is written once and never read). *)
Record BotStats := mkBotStats {
  bot_total_sessions : Z;
  active_users : Z;
  total_participations : Z
}.

Record World := mkWorld {
  group_sessions : gmap string StudySession;
  user_profiles : gmap Z UserProfile;
  active_sessions : gmap Z string;
  bot_stats : BotStats;
  tasks : list Task
}.

(** The state of the module right after import. *)
Definition initial_world : World :=
  mkWorld ∅ ∅ ∅ (mkBotStats 0 0 0) [].

(** *** Field updates *)

Definition set_study_stats (f : StudyStats → StudyStats) (p : UserProfile) : UserProfile :=
  mkUserProfile (user_id p) (username p) (first_name p) (last_name p) (join_date p)
    (status p) (f (study_stats p)) (achievements p) (preferences p).

Definition set_achievements (f : list string → list string) (p : UserProfile) : UserProfile :=
  mkUserProfile (user_id p) (username p) (first_name p) (last_name p) (join_date p)
    (status p) (study_stats p) (f (achievements p)) (preferences p).

Definition set_participants (ps : list (Z * Participant)) (s : StudySession) : StudySession :=
  mkStudySession (session_id s) (chat_id s) (creator_id s) (creator_name s) ps
    (message_id s) (start_time s) (time_left s) (is_active s) (is_pinned s)
    (last_update s) (stats s) (timer_task s).

Definition set_message_id (m : option Z) (s : StudySession) : StudySession :=
  mkStudySession (session_id s) (chat_id s) (creator_id s) (creator_name s) (participants s)
    m (start_time s) (time_left s) (is_active s) (is_pinned s)
    (last_update s) (stats s) (timer_task s).

Definition set_time_left (t : Z) (s : StudySession) : StudySession :=
  mkStudySession (session_id s) (chat_id s) (creator_id s) (creator_name s) (participants s)
    (message_id s) (start_time s) t (is_active s) (is_pinned s)
    (last_update s) (stats s) (timer_task s).

Definition set_is_active (b : bool) (s : StudySession) : StudySession :=
  mkStudySession (session_id s) (chat_id s) (creator_id s) (creator_name s) (participants s)
    (message_id s) (start_time s) (time_left s) b (is_pinned s)
    (last_update s) (stats s) (timer_task s).

Definition set_is_pinned (b : bool) (s : StudySession) : StudySession :=
  mkStudySession (session_id s) (chat_id s) (creator_id s) (creator_name s) (participants s)
    (message_id s) (start_time s) (time_left s) (is_active s) b
    (last_update s) (stats s) (timer_task s).

Definition set_last_update (t : Z) (s : StudySession) : StudySession :=
  mkStudySession (session_id s) (chat_id s) (creator_id s) (creator_name s) (participants s)
    (message_id s) (start_time s) (time_left s) (is_active s) (is_pinned s)
    t (stats s) (timer_task s).

Definition set_stats (st : SessionStats) (s : StudySession) : StudySession :=
  mkStudySession (session_id s) (chat_id s) (creator_id s) (creator_name s) (participants s)
    (message_id s) (start_time s) (time_left s) (is_active s) (is_pinned s)
    (last_update s) st (timer_task s).

Definition set_timer_task (t : option nat) (s : StudySession) : StudySession :=
  mkStudySession (session_id s) (chat_id s) (creator_id s) (creator_name s) (participants s)
    (message_id s) (start_time s) (time_left s) (is_active s) (is_pinned s)
    (last_update s) (stats s) t.

Definition set_group_sessions (g : gmap string StudySession) (w : World) : World :=
  mkWorld g (user_profiles w) (active_sessions w) (bot_stats w) (tasks w).

Definition set_user_profiles (u : gmap Z UserProfile) (w : World) : World :=
  mkWorld (group_sessions w) u (active_sessions w) (bot_stats w) (tasks w).

Definition set_active_sessions (a : gmap Z string) (w : World) : World :=
  mkWorld (group_sessions w) (user_profiles w) a (bot_stats w) (tasks w).

Definition set_bot_stats (b : BotStats) (w : World) : World :=
  mkWorld (group_sessions w) (user_profiles w) (active_sessions w) b (tasks w).

Definition set_tasks (t : list Task) (w : World) : World :=
  mkWorld (group_sessions w) (user_profiles w) (active_sessions w) (bot_stats w) t.

(** A write through the reference [session = group_sessions[session_id]]. *)
Definition update_session (sid : string) (f : StudySession → StudySession) (w : World) : World :=
  set_group_sessions (alter f sid (group_sessions w)) w.

(** ** Python built-ins the handlers use *)

(** Truth value of an [Optional[str]]: [None] and the empty string are
    false. *)
Definition truthy (o : option string) : bool :=
  match o with
  | Some s => negb (String.eqb s "")
  | None => false
  end.

(** [dict.__contains__] and [del d[k]] guarded by it. *)
Definition py_in `{Countable K} {V} (k : K) (d : gmap K V) : bool :=
  bool_decide (is_Some (d !! k)).

Definition del_if_present `{Countable K} {V} (k : K) (d : gmap K V) : gmap K V :=
  if py_in k d then delete k d else d.

(** Keys of a dict kept as an association list, and membership in it. *)
Definition keys {V} (d : list (Z * V)) : list Z := d.*1.

Definition has_key {V} (k : Z) (d : list (Z * V)) : bool :=
  bool_decide (k ∈ keys d).

(** [s.split(sep, maxsplit)] for a one-character separator; [maxsplit] is
    [None] when the argument is left out. *)
Fixpoint split_from (sep : ascii) (maxsplit : option nat) (acc : string) (s : string)
    : list string :=
  match s with
  | EmptyString => [String.rev acc]
  | String c rest =>
      if Ascii.eqb c sep then
        match maxsplit with
        | Some O => [String.rev acc +:+ s]
        | Some (S n) => String.rev acc :: split_from sep (Some n) EmptyString rest
        | None => String.rev acc :: split_from sep None EmptyString rest
        end
      else split_from sep maxsplit (String c acc) rest
  end.

Definition split (sep : ascii) (maxsplit : option nat) (s : string) : list string :=
  split_from sep maxsplit EmptyString s.

Definition underscore : ascii := "_"%char.

(** A decimal literal with an optional sign, the instance of [int] used in
    the examples. *)
Definition digit_value (c : ascii) : option Z :=
  let n := Z.of_N (N_of_ascii c) in
  if (48 <=? n) && (n <=? 57) then Some (n - 48) else None.

Fixpoint digits_value (acc : Z) (s : string) : option Z :=
  match s with
  | EmptyString => Some acc
  | String c rest =>
      match digit_value c with
      | Some d => digits_value (10 * acc + d) rest
      | None => None
      end
  end.

Definition decimal (s : string) : option Z :=
  match s with
  | EmptyString => None
  | String c rest =>
      if Ascii.eqb c "-"%char then
        match rest with
        | EmptyString => None
        | _ => Z.opp <$> digits_value 0 rest
        end
      else if Ascii.eqb c "+"%char then
        match rest with
        | EmptyString => None
        | _ => digits_value 0 rest
        end
      else digits_value 0 s
  end.

(** ** Helpers *)

Definition get_display_name (user : User) : string :=
  if truthy (tg_username user) then "@" +:+ default "" (tg_username user)
  else if truthy (tg_last_name user)
       then tg_first_name user +:+ " " +:+ default "" (tg_last_name user)
       else tg_first_name user.

(** [rnd] is the value drawn by [random.randint(1000, 9999)]. *)
Definition generate_session_id (now rnd : Z) (chat : Z) : string :=
  "session_" +:+ pretty chat +:+ "_" +:+ pretty now +:+ "_" +:+ pretty rnd.

(** ** The engine *)

(** What [get_user_profile] hands back: the profile object stored under a
    key of [user_profiles], or a fresh object that no table refers to. *)
Inductive ProfileRef :=
  | Stored (key : Z)
  | Detached (p : UserProfile).

Definition read_profile (r : ProfileRef) (w : World) : option UserProfile :=
  match r with
  | Stored k => user_profiles w !! k
  | Detached p => Some p
  end.

(** An in-place mutation of the object behind a reference. *)
Definition mutate_profile (f : UserProfile → UserProfile) (r : ProfileRef) (w : World)
    : ProfileRef * World :=
  match r with
  | Stored k => (Stored k, set_user_profiles (alter f k (user_profiles w)) w)
  | Detached p => (Detached (f p), w)
  end.

Definition fresh_study_stats : StudyStats := mkStudyStats 0 0 0 None.

Definition default_preferences : Preferences := mkPreferences true true "ar".

(** The profile [get_user_profile] builds when [bot.get_chat] raises. *)
Definition placeholder_profile (now uid : Z) : UserProfile :=
  mkUserProfile uid None "مستخدم" None now ACTIVE fresh_study_stats [] default_preferences.

(** The body of [update_user_stats] once the profile is at hand. *)
Definition bump_study_stats (now session_duration : Z) (st : StudyStats) : StudyStats :=
  mkStudyStats (total_sessions st + 1) (total_time st + session_duration)
    (if 50 * 60 <=? session_duration then completed_sessions st + 1
     else completed_sessions st)
    (Some now).

Definition award_first_completion (a : list string) : list string :=
  if bool_decide ("first_completion" ∈ a) then a else a ++ ["first_completion"].

Definition record_participation (now session_duration : Z) (p : UserProfile) : UserProfile :=
  let p1 := set_study_stats (bump_study_stats now session_duration) p in
  if 50 * 60 <=? session_duration then set_achievements award_first_completion p1 else p1.

Section Engine.

(** [bot.get_chat]: [None] stands for a raised exception. *)
Variable get_chat : Z → option User.

(** *** User management *)

Definition create_user_profile (now : Z) (user : User) (w : World) : ProfileRef * World :=
  let profile :=
    mkUserProfile (tg_id user) (tg_username user) (tg_first_name user) (tg_last_name user)
      now ACTIVE fresh_study_stats [] default_preferences in
  let w1 := set_user_profiles (<[tg_id user := profile]> (user_profiles w)) w in
  let b := bot_stats w1 in
  let w2 := set_bot_stats
              (mkBotStats (bot_total_sessions b) (active_users b + 1) (total_participations b))
              w1 in
  (Stored (tg_id user), w2).

Definition get_user_profile (now uid : Z) (w : World) : ProfileRef * World :=
  if negb (py_in uid (user_profiles w)) then
    match get_chat uid with
    | Some user => create_user_profile now user w
    | None => (Detached (placeholder_profile now uid), w)
    end
  else (Stored uid, w).

(** [update_user_stats], returning also the reference it wrote through so
    that the final state of the object can be observed. *)
Definition update_user_stats_ref (now uid session_duration : Z) (w : World)
    : ProfileRef * World :=
  let '(profile, w1) := get_user_profile now uid w in
  mutate_profile (record_participation now session_duration) profile w1.

Definition update_user_stats (now uid session_duration : Z) (w : World) : World :=
  (update_user_stats_ref now uid session_duration w).2.

(** *** Session management *)

Definition create_study_session (now loop_time rnd : Z) (chat : Z) (creator : User) (w : World)
    : StudySession * World :=
  let sid := generate_session_id now rnd chat in
  let session :=
    mkStudySession sid chat (tg_id creator) (get_display_name creator) []
      None loop_time (55 * 60) true false now (mkSessionStats 0 0 0 0) None in
  let w1 := set_group_sessions (<[sid := session]> (group_sessions w)) w in
  let w2 := set_active_sessions (<[chat := sid]> (active_sessions w1)) w1 in
  let b := bot_stats w2 in
  let w3 := set_bot_stats
              (mkBotStats (bot_total_sessions b + 1) (active_users b) (total_participations b))
              w2 in
  (session, w3).

Definition get_active_session (chat : Z) (w : World) : option StudySession :=
  match active_sessions w !! chat with
  | Some sid => group_sessions w !! sid
  | None => None
  end.

(** [timer_task and not timer_task.done()] *)
Definition timer_live (h : option nat) (w : World) : bool :=
  match h with
  | Some i =>
      match tasks w !! i with
      | Some t => negb (task_done t)
      | None => false
      end
  | None => false
  end.

(** [task.cancel()]: the sleeping coroutine is resumed with
    [CancelledError], which its [except Exception] does not catch, and
    the task is done. *)
Definition cancel (i : nat) (w : World) : World :=
  set_tasks (alter (λ t, mkTask (task_coro t) (task_arg t) true) i (tasks w)) w.

(** The loop of [end_session] over the participants. *)
Definition rollup (now session_duration : Z) (users : list Z) (w : World) : World :=
  foldl (λ acc uid, update_user_stats now uid session_duration acc) w users.

Definition end_session (now : Z) (sid : string) (w : World) : option StudySession * World :=
  match group_sessions w !! sid with
  | Some session =>
      let w1 := update_session sid (set_is_active false) w in
      let w2 := match timer_task session with
                | Some i => if timer_live (Some i) w1 then cancel i w1 else w1
                | None => w1
                end in
      let w3 := set_active_sessions
                  (del_if_present (chat_id session) (active_sessions w2)) w2 in
      let w4 := rollup now (55 * 60 - time_left session) (keys (participants session)) w3 in
      (group_sessions w4 !! sid, w4)
  | None => (None, w)
  end.

(** *** Timers *)

(** [asyncio.create_task(coro(arg))]: the new task joins the loop and its
    handle is returned. *)
Definition create_task (coro : TimerKind) (arg : string) (w : World) : nat * World :=
  (length (tasks w), set_tasks (tasks w ++ [mkTask coro arg false]) w).

(** The coroutine of task [i] returns. *)
Definition finish (i : nat) (w : World) : World :=
  set_tasks (alter (λ t, mkTask (task_coro t) (task_arg t) true) i (tasks w)) w.

Definition end_private_session_automatically (sid : string) (w : World) : World :=
  match group_sessions w !! sid with
  | None => w
  | Some session =>
      let w1 := update_session sid (set_is_active false) w in
      set_active_sessions (del_if_present (chat_id session) (active_sessions w1)) w1
  end.

Definition end_group_session_automatically (sid : string) (w : World) : World :=
  match group_sessions w !! sid with
  | None => w
  | Some session =>
      let w1 := update_session sid (set_is_active false) w in
      set_active_sessions (del_if_present (chat_id session) (active_sessions w1)) w1
  end.

(** One turn of the [while True] loop of [private_session_timer], run by
    task [i] when its [asyncio.sleep(60)] is over. *)
Definition private_session_timer (now : Z) (i : nat) (sid : string) (w : World) : World :=
  match group_sessions w !! sid with
  | None => finish i w
  | Some session =>
      if negb (is_active session) then finish i w
      else
        let w1 := update_session sid
                    (λ s, set_last_update now (set_time_left (time_left s - 60) s)) w in
        if time_left session - 60 <=? 0
        then finish i (end_private_session_automatically sid w1)
        else w1
  end.

(** The same for [group_session_timer]. *)
Definition group_session_timer (now : Z) (i : nat) (sid : string) (w : World) : World :=
  match group_sessions w !! sid with
  | None => finish i w
  | Some session =>
      if negb (is_active session) then finish i w
      else
        let w1 := update_session sid
                    (λ s, set_last_update now (set_time_left (time_left s - 60) s)) w in
        if time_left session - 60 <=? 0
        then finish i (end_group_session_automatically sid w1)
        else w1
  end.

(** The event loop wakes task [i]; a task that is done, or a handle that
    names no task, does nothing. *)
Definition wake (now : Z) (i : nat) (w : World) : World :=
  match tasks w !! i with
  | Some t =>
      if task_done t then w
      else match task_coro t with
           | PrivateTimer => private_session_timer now i (task_arg t) w
           | GroupTimer => group_session_timer now i (task_arg t) w
           end
  | None => w
  end.

(** A tick interval goes by: every task of the loop is woken once. *)
Definition tick (now : Z) (w : World) : World :=
  foldl (λ acc i, wake now i acc) w (seq 0 (length (tasks w))).

(** *** Handlers *)

Inductive ChatMemberStatus := CREATOR | ADMINISTRATOR | MEMBER | RESTRICTED | LEFT | KICKED.

(** [member.status in [ADMINISTRATOR, CREATOR]] *)
Definition is_admin (st : ChatMemberStatus) : bool :=
  match st with
  | ADMINISTRATOR | CREATOR => true
  | _ => false
  end.

(** What [/startsession] did.  [Started sid] says that the checks were
    passed and [create_study_session] stored the session [sid]; it says
    nothing about the announcement: when [answer_photo] raises, the
    handler answers with an error message and the session stays stored. *)
Inductive StartOutcome :=
  | StartNotAdmin
  | StartCheckFailed
  | RoomAlreadyActive (existing : StudySession)
  | Started (sid : string).

(** [/startsession] in a group.  [member] is the answer of
    [bot.get_chat_member] ([None]: it raised), [sent] the id of the
    message made by [answer_photo] ([None]: it raised), [pin_ok] whether
    pinning it went through. *)
Definition start_session_group (now loop_time rnd : Z) (chat : Z) (from_user : User)
    (member : option ChatMemberStatus) (sent : option Z) (pin_ok : bool) (w : World)
    : StartOutcome * World :=
  match member with
  | None => (StartCheckFailed, w)
  | Some st =>
      if negb (is_admin st) then (StartNotAdmin, w)
      else
        match get_active_session chat w with
        | Some active_session => (RoomAlreadyActive active_session, w)
        | None =>
            let '(session, w1) := create_study_session now loop_time rnd chat from_user w in
            let sid := session_id session in
            match sent with
            | Some mid =>
                let w2 := update_session sid (set_message_id (Some mid)) w1 in
                let w3 := if pin_ok then update_session sid (set_is_pinned true) w2 else w2 in
                (Started sid, w3)
            | None => (Started sid, w1)
            end
        end
  end.

(** The "start session" button.  [chat_type] and [chat] describe the chat
    of the message, [edit_ok] tells whether [edit_text] went through. *)
Definition start_session_info (now loop_time rnd : Z) (chat_type : string) (chat : Z)
    (user : User) (edit_ok : bool) (w : World) : World :=
  if bool_decide (chat_type ∈ ["group"; "supergroup"]) then w
  else
    let sid := generate_session_id now rnd chat in
    let session :=
      mkStudySession sid chat (tg_id user) (get_display_name user)
        [(tg_id user, mkParticipant (get_display_name user) now true)]
        None loop_time (55 * 60) true false now (mkSessionStats 1 0 0 0) None in
    let w1 := set_group_sessions (<[sid := session]> (group_sessions w)) w in
    let w2 := set_active_sessions (<[chat := sid]> (active_sessions w1)) w1 in
    let b := bot_stats w2 in
    let w3 := set_bot_stats
                (mkBotStats (bot_total_sessions b + 1) (active_users b) (total_participations b))
                w2 in
    if edit_ok then
      let '(h, w4) := create_task PrivateTimer sid w3 in
      update_session sid (set_timer_task (Some h)) w4
    else w3.

Inductive JoinOutcome :=
  | JoinError
  | SessionNotFound
  | SessionEnded
  | AlreadyJoined
  | Joined (participant_count : nat).

(** The "join" button; [data] is [callback_query.data], [user] is
    [callback_query.from_user].  The outcome is the answer the handler
    chooses. *)
Definition join_session (now : Z) (data : string) (user : User) (w : World)
    : JoinOutcome * World :=
  match split underscore (Some 1%nat) data !! 1%nat with
  | None => (JoinError, w)
  | Some sid =>
      match group_sessions w !! sid with
      | None => (SessionNotFound, w)
      | Some session =>
          if negb (is_active session) then (SessionEnded, w)
          else if has_key (tg_id user) (participants session) then (AlreadyJoined, w)
          else
            let w1 := update_session sid
                        (λ s, set_participants
                                (participants s ++
                                 [(tg_id user, mkParticipant (get_display_name user) now true)])
                                s) w in
            let w2 := update_session sid
                        (λ s, set_stats
                                (mkSessionStats (joins (stats s) + 1) (leaves (stats s))
                                   (extensions (stats s)) (completions (stats s)))
                                s) w1 in
            let b := bot_stats w2 in
            let w3 := set_bot_stats
                        (mkBotStats (bot_total_sessions b) (active_users b)
                           (total_participations b + 1))
                        w2 in
            let participant_count := S (length (participants session)) in
            let w4 :=
              if (3 <=? participant_count)%nat && negb (timer_live (timer_task session) w3)
              then
                let '(h, w') := create_task GroupTimer sid w3 in
                update_session sid (set_timer_task (Some h)) w'
              else w3 in
            (Joined participant_count, w4)
      end
  end.

(** [int(...)]: [None] stands for [ValueError]. *)
Variable int : string → option Z.

Inductive ExtendOutcome :=
  | ExtendError
  | ExtendNotYours
  | ExtendNotFound
  | Extended.

(** The "extend" button. *)
Definition extend_session (data : string) (from_user : User) (w : World)
    : ExtendOutcome * World :=
  let data_parts := split underscore None data in
  match data_parts !! 2%nat with
  | None => (ExtendError, w)
  | Some sid =>
      match data_parts !! 3%nat ≫= int with
      | None => (ExtendError, w)
      | Some uid =>
          if negb (tg_id from_user =? uid) then (ExtendNotYours, w)
          else if negb (py_in sid (group_sessions w)) then (ExtendNotFound, w)
          else
            let w1 := update_session sid (set_time_left (55 * 60)) w in
            let w2 := update_session sid
                        (λ s, set_stats
                                (mkSessionStats (joins (stats s)) (leaves (stats s))
                                   (extensions (stats s) + 1) (completions (stats s)))
                                s) w1 in
            (Extended, w2)
      end
  end.

Inductive EndUserOutcome :=
  | EndUserError
  | EndUserNotYours
  | EndUserConfirmed.

(** The "end my session" button. *)
Definition end_session_user (data : string) (from_user : User) (w : World)
    : EndUserOutcome * World :=
  let data_parts := split underscore None data in
  match data_parts !! 3%nat with
  | None => (EndUserError, w)
  | Some _ =>
      match data_parts !! 4%nat ≫= int with
      | None => (EndUserError, w)
      | Some uid =>
          if negb (tg_id from_user =? uid) then (EndUserNotYours, w)
          else (EndUserConfirmed, w)
      end
  end.

Inductive EndOutcome :=
  | EndError
  | EndNotAdmin
  | EndCheckFailed
  | EndNotFound
  | Ended (session : StudySession).

(** The "end session" button of a group. *)
Definition end_session_callback (now : Z) (data : string) (member : option ChatMemberStatus)
    (w : World) : EndOutcome * World :=
  match split underscore (Some 2%nat) data !! 2%nat with
  | None => (EndError, w)
  | Some sid =>
      match member with
      | None => (EndCheckFailed, w)
      | Some st =>
          if negb (is_admin st) then (EndNotAdmin, w)
          else
            match end_session now sid w with
            | (Some session, w1) => (Ended session, w1)
            | (None, w1) => (EndNotFound, w1)
            end
      end
  end.

(** What [session_status] puts on the screen. *)
Record StatusView := mkStatusView {
  shown_time_left : Z;
  shown_participant_count : nat;
  shown_active : bool;
  shown_last_update : Z;
  shown_participants : list string
}.

(** The "session status" button; [None] when the session is unknown. *)
Definition session_status (data : string) (w : World) : option StatusView :=
  sid ← split underscore (Some 2%nat) data !! 2%nat;
  session ← group_sessions w !! sid;
  Some (mkStatusView (time_left session) (length (participants session))
          (is_active session) (last_update session)
          (name <$> (participants session).*2)).

End Engine.

(** ** Display of a time *)

(** [f"{n:02d}"] *)
Definition pad2 (n : Z) : string :=
  let s := pretty n in
  if (String.length s <? 2)%nat then "0" +:+ s else s.

Definition format_time (seconds : Z) : string :=
  let minutes := seconds `div` 60 in
  let secs := seconds `mod` 60 in
  if 60 <=? minutes then
    let hours := minutes `div` 60 in
    let mins := minutes `mod` 60 in
    pad2 hours +:+ ":" +:+ pad2 mins +:+ ":" +:+ pad2 secs
  else pad2 minutes +:+ ":" +:+ pad2 secs.

(** Reading a displayed time back: the seconds that [MM:SS] or [HH:MM:SS]
    stands for. *)
Definition read_time (s : string) : option Z :=
  match split ":"%char None s with
  | [m; sec] =>
      m' ← decimal m; sec' ← decimal sec; Some (60 * m' + sec')
  | [h; m; sec] =>
      h' ← decimal h; m' ← decimal m; sec' ← decimal sec;
      Some (3600 * h' + 60 * m' + sec')
  | _ => None
  end.

(** ** Sample data for the examples *)

Definition alice : User := mkUser 11 (Some "alice") "Alice" None.
Definition bob : User := mkUser 12 None "Bob" (Some "Stone").
Definition carol : User := mkUser 13 None "Carol" None.
Definition dave : User := mkUser 14 None "Dave" None.

(** A [bot.get_chat] that knows the three users above. *)
Definition directory (uid : Z) : option User :=
  if uid =? 11 then Some alice
  else if uid =? 12 then Some bob
  else if uid =? 13 then Some carol
  else None.

(** A [bot.get_chat] that always raises. *)
Definition unreachable_directory (uid : Z) : option User := None.

(** The group of the examples, the session an administrator opens in it at
    second 1000, and the callback data of its buttons. *)
Definition room : Z := -100.

Definition room_sid : string := generate_session_id 1000 1234 room.

Definition world_opened : World :=
  (start_session_group 1000 0 1234 room alice (Some ADMINISTRATOR) (Some 55) true
     initial_world).2.

Definition world_joined1 : World :=
  (join_session 1010 ("join_" +:+ room_sid) alice world_opened).2.

Definition world_joined2 : World :=
  (join_session 1020 ("join_" +:+ room_sid) bob world_joined1).2.

Definition world_joined3 : World :=
  (join_session 1030 ("join_" +:+ room_sid) carol world_joined2).2.

(** The record of that session once Alice, Bob and Carol have joined. *)
Definition session_joined3 : StudySession :=
  mkStudySession room_sid room 11 "@alice"
    [(11, mkParticipant "@alice" 1010 true);
     (12, mkParticipant "Bob Stone" 1020 true);
     (13, mkParticipant "Carol" 1030 true)]
    (Some 55) 0 3300 true true 1000 (mkSessionStats 3 0 0 0) (Some 0%nat).

(** A user in a private chat (the chat id of a private chat is the id of
    the user), the session the "start session" button opens there at second
    5000, and the one a second press opens a minute later. *)
Definition dana : User := mkUser 42 None "Dana" None.

Definition private_sid : string := generate_session_id 5000 4321 42.

Definition private_sid2 : string := generate_session_id 5060 8765 42.

Definition world_private : World :=
  start_session_info 5000 0 4321 "private" 42 dana true initial_world.

Definition world_private2 : World :=
  start_session_info 5060 60 8765 "private" 42 dana true world_private.

(** [n] tick intervals go by, the first one ending at [now]. *)
Fixpoint ticks (now : Z) (n : nat) (w : World) : World :=
  match n with
  | O => w
  | S m => ticks (now + 60) m (tick now w)
  end.

(** ** Notions used in the statements *)

(** The "join" button with callback data [data] is pressed once per entry
    of [presses], each entry giving the instant and the user object of the
    press; the answers are collected in order. *)
Fixpoint join_repeatedly (data : string) (presses : list (Z * User)) (w : World)
    : list JoinOutcome * World :=
  match presses with
  | [] => ([], w)
  | (now, user) :: rest =>
      let '(o, w1) := join_session now data user w in
      let '(os, w2) := join_repeatedly data rest w1 in
      (o :: os, w2)
  end.

(** [bot.get_chat] answers with the chat whose id was asked for. *)
Definition answers_for_the_id_asked (get_chat : Z → option User) : Prop :=
  ∀ u usr, get_chat u = Some usr → tg_id usr = u.

(** Ending session [sid] at [now] and once more at [now']: the second call
    returns what the first returned and changes nothing. *)
Definition second_end_is_silent (get_chat : Z → option User) (now now' : Z) (sid : string)
    (w : World) : Prop :=
  let first := end_session get_chat now sid w in
  let second := end_session get_chat now' sid first.2 in
  second.1 = first.1 ∧ second.2 = first.2.

(** Whether the join that makes the participant count [n] starts a timer
    for a session whose handle is [h]. *)
Definition spawns_timer (n : nat) (h : option nat) (w : World) : bool :=
  (3 <=? n)%nat && negb (timer_live h w).

(** The record of a session after [user] has joined it at [now]. *)
Definition joined_record (now : Z) (user : User) (s : StudySession) (w : World) : StudySession :=
  set_timer_task
    (if spawns_timer (S (length (participants s))) (timer_task s) w
     then Some (length (tasks w)) else timer_task s)
    (set_stats
       (mkSessionStats (joins (stats s) + 1) (leaves (stats s)) (extensions (stats s))
          (completions (stats s)))
       (set_participants
          (participants s ++ [(tg_id user, mkParticipant (get_display_name user) now true)])
          s)).

(** What a termination of session [sid], whose record was [s], leaves
    behind: the room is out of the active index, the record is still
    there with [is_active] false and nothing else changed, the other
    records are untouched, and a status query by id shows an ended
    session. *)
Definition index_cleared_record_kept (sid : string) (s : StudySession) (w w' : World) : Prop :=
  active_sessions w' !! chat_id s = None ∧
  group_sessions w' !! sid = Some (set_is_active false s) ∧
  (∀ sid', sid' ≠ sid → group_sessions w' !! sid' = group_sessions w !! sid') ∧
  (∀ data, split underscore (Some 2%nat) data !! 2%nat = Some sid →
           ∃ v, session_status data w' = Some v ∧ shown_active v = false).

(** ** Runs of the bot *)

(** What makes the state move: the handlers above, a look-up of the
    presser's profile (which is all that [start_handler] and
    [show_user_stats] do to the state), and the wake-up of a timer task. *)
Inductive Event :=
  | StartCommand (now loop_time rnd chat : Z) (from_user : User)
      (member : option ChatMemberStatus) (sent : option Z) (pin_ok : bool)
  | StartButton (now loop_time rnd : Z) (chat_type : string) (chat : Z) (user : User)
      (edit_ok : bool)
  | JoinButton (now : Z) (data : string) (user : User)
  | ExtendButton (data : string) (from_user : User)
  | EndUserButton (data : string) (from_user : User)
  | EndButton (now : Z) (data : string) (member : option ChatMemberStatus)
  | ProfileLookup (now uid : Z)
  | TimerWakes (now : Z) (i : nat).

Definition handle (get_chat : Z → option User) (int : string → option Z) (e : Event)
    (w : World) : World :=
  match e with
  | StartCommand now loop_time rnd chat from_user member sent pin_ok =>
      (start_session_group now loop_time rnd chat from_user member sent pin_ok w).2
  | StartButton now loop_time rnd chat_type chat user edit_ok =>
      start_session_info now loop_time rnd chat_type chat user edit_ok w
  | JoinButton now data user => (join_session now data user w).2
  | ExtendButton data from_user => (extend_session int data from_user w).2
  | EndUserButton data from_user => (end_session_user int data from_user w).2
  | EndButton now data member => (end_session_callback get_chat now data member w).2
  | ProfileLookup now uid => (get_user_profile get_chat now uid w).2
  | TimerWakes now i => wake now i w
  end.

(** The assumption on the clock and the random numbers under which the
    runs are studied: an id drawn by [generate_session_id] is not in use. *)
Definition draws_unused_id (e : Event) (w : World) : Prop :=
  match e with
  | StartCommand now _ rnd chat _ _ _ _ =>
      group_sessions w !! generate_session_id now rnd chat = None
  | StartButton now _ rnd _ chat _ _ =>
      group_sessions w !! generate_session_id now rnd chat = None
  | _ => True
  end.

(** [reaches w0 w]: some run of the bot leads from [w0] to [w]. *)
Inductive reaches (get_chat : Z → option User) (int : string → option Z) (w0 : World)
    : World → Prop :=
  | reaches_refl : reaches get_chat int w0 w0
  | reaches_step (w : World) (e : Event) :
      reaches get_chat int w0 w →
      draws_unused_id e w →
      reaches get_chat int w0 (handle get_chat int e w).

Definition reachable (get_chat : Z → option User) (int : string → option Z) (w : World)
    : Prop :=
  reaches get_chat int initial_world w.

(** What every record of a run satisfies: it is stored under its own id,
    no user is listed twice, and the countdown is a whole number of minutes
    between 0 and 55, positive while the session is active. *)
Definition record_ok (sid : string) (s : StudySession) : Prop :=
  session_id s = sid ∧
  NoDup (keys (participants s)) ∧
  ∃ k, time_left s = 60 * k ∧ 0 ≤ k ≤ 55 ∧ (is_active s = true → 0 < k).

(** The timer handle of a record names a task of the loop that counts this
    session down, a group timer only with three participants or more. *)
Definition timer_ok (w : World) (sid : string) (s : StudySession) : Prop :=
  ∀ i, timer_task s = Some i →
       ∃ t, tasks w !! i = Some t ∧ task_arg t = sid ∧
            (task_coro t = GroupTimer → (3 ≤ length (participants s))%nat).

Definition session_ok (w : World) (sid : string) (s : StudySession) : Prop :=
  record_ok sid s ∧ timer_ok w sid s.

(** A task that is not done is the timer of an active session. *)
Definition task_ok (w : World) (i : nat) (t : Task) : Prop :=
  task_done t = false →
  ∃ s, group_sessions w !! task_arg t = Some s ∧ timer_task s = Some i ∧ is_active s = true.

(** An entry of the active index names an active session of that chat. *)
Definition index_ok (w : World) (chat : Z) (sid : string) : Prop :=
  ∃ s, group_sessions w !! sid = Some s ∧ chat_id s = chat ∧ is_active s = true.

Record sound_world (w : World) : Prop := mk_sound_world {
  sessions_ok : ∀ sid s, group_sessions w !! sid = Some s → session_ok w sid s;
  tasks_ok : ∀ i t, tasks w !! i = Some t → task_ok w i t;
  indexes_ok : ∀ chat sid, active_sessions w !! chat = Some sid → index_ok w chat sid
}.

(** How the record of a session can differ after a step from what it was
    before: its identity is the same, participants were only added at the
    end, an ended session is still ended, and the timer handle is the old
    one or names a group timer for this session. *)
Definition record_evolves (w' : World) (sid : string) (s s' : StudySession) : Prop :=
  session_id s' = session_id s ∧
  chat_id s' = chat_id s ∧
  creator_id s' = creator_id s ∧
  creator_name s' = creator_name s ∧
  (∃ more, participants s' = participants s ++ more) ∧
  (is_active s = false → is_active s' = false) ∧
  (timer_task s' = timer_task s ∨
   ∃ i, timer_task s' = Some i ∧ tasks w' !! i = Some (mkTask GroupTimer sid false)).

(** How the tasks of the loop can differ after a step: each is still there
    under its handle, with its coroutine and argument, and done if it was
    done. *)
Definition tasks_evolve (w w' : World) : Prop :=
  ∀ i t, tasks w !! i = Some t →
         ∃ t', tasks w' !! i = Some t' ∧ task_coro t' = task_coro t ∧
               task_arg t' = task_arg t ∧ (task_done t = true → task_done t' = true).

(** Session [sid] exists and its timer, if it has one, is a group timer. *)
Definition group_timed (w : World) (sid : string) : Prop :=
  ∃ s, group_sessions w !! sid = Some s ∧
       ∀ i t, timer_task s = Some i → tasks w !! i = Some t → task_coro t = GroupTimer.

(** Whether the character [c] occurs in [s]. *)
Fixpoint contains (c : ascii) (s : string) : bool :=
  match s with
  | EmptyString => false
  | String a rest => Ascii.eqb a c || contains c rest
  end.

(** The stored profile [update_user_stats] works on for user [u]: the one
    in the table, or the one made from the answer of [bot.get_chat]; none
    when the user is unknown and [bot.get_chat] raises. *)
Definition stored_profile (get_chat : Z → option User) (now u : Z) (w : World)
    : option UserProfile :=
  match user_profiles w !! u with
  | Some p => Some p
  | None =>
      (λ user, mkUserProfile (tg_id user) (tg_username user) (tg_first_name user)
                 (tg_last_name user) now ACTIVE fresh_study_stats [] default_preferences)
      <$> get_chat u
  end.

(** Task [i] is woken [n] times in a row, a minute apart. *)
Fixpoint wakes (now : Z) (i : nat) (n : nat) (w : World) : World :=
  match n with
  | O => w
  | S m => wakes (now + 60) i m (wake now i w)
  end.

(** What every stored profile of a run satisfies. *)
Definition profile_ok (u : Z) (p : UserProfile) : Prop :=
  user_id p = u ∧
  status p = ACTIVE ∧
  preferences p = default_preferences ∧
  0 ≤ completed_sessions (study_stats p) ≤ total_sessions (study_stats p) ∧
  3000 * completed_sessions (study_stats p) ≤ total_time (study_stats p) ∧
  total_time (study_stats p) ≤ 3300 * total_sessions (study_stats p) ∧
  (completed_sessions (study_stats p) = 0 ∧ achievements p = [] ∨
   0 < completed_sessions (study_stats p) ∧ achievements p = ["first_completion"]).

(** The counters of [bot_stats] agree with the tables. *)
Definition counters_ok (w : World) : Prop :=
  bot_total_sessions (bot_stats w) = Z.of_nat (size (group_sessions w)) ∧
  active_users (bot_stats w) = Z.of_nat (size (user_profiles w)).

(** *** The ways a record changes *)

(** The record after its owner's "extend", and after one minute was taken
    off by its timer. *)
Definition extended_record (s : StudySession) : StudySession :=
  set_stats
    (mkSessionStats (joins (stats s)) (leaves (stats s)) (extensions (stats s) + 1)
       (completions (stats s)))
    (set_time_left (55 * 60) s).

Definition ticked_record (now : Z) (s : StudySession) : StudySession :=
  set_last_update now (set_time_left (time_left s - 60) s).

(** One step of a run takes the record [s] of a session to one of these. *)
Inductive record_step (w : World) (s : StudySession) : StudySession → Prop :=
  | step_same : record_step w s s
  | step_join (now : Z) (user : User) :
      is_active s = true → tg_id user ∉ keys (participants s) →
      record_step w s (joined_record now user s w)
  | step_extend : record_step w s (extended_record s)
  | step_end : record_step w s (set_is_active false s)
  | step_tick (now : Z) :
      is_active s = true → 0 < time_left s - 60 →
      record_step w s (ticked_record now s)
  | step_timeout (now : Z) :
      is_active s = true → time_left s - 60 ≤ 0 →
      record_step w s (set_is_active false (ticked_record now s)).

(** The records the two start handlers leave under a new id. *)
Inductive born (sid : string) : StudySession → Prop :=
  | born_in_group (now loop_time rnd chat : Z) (from_user : User) (sent : option Z)
      (pinned : bool) :
      sid = generate_session_id now rnd chat →
      born sid
        (mkStudySession sid chat (tg_id from_user) (get_display_name from_user) []
           sent loop_time (55 * 60) true pinned now (mkSessionStats 0 0 0 0) None)
  | born_in_private (now loop_time rnd chat : Z) (user : User) (h : option nat) :
      sid = generate_session_id now rnd chat →
      born sid
        (mkStudySession sid chat (tg_id user) (get_display_name user)
           [(tg_id user, mkParticipant (get_display_name user) now true)]
           None loop_time (55 * 60) true false now (mkSessionStats 1 0 0 0) h).

(** An administrator ends the room's session by hand at second 4330. *)
Definition world_closed : World :=
  handle directory decimal
    (EndButton 4330 ("end_session_" +:+ room_sid) (Some ADMINISTRATOR)) world_joined3.

Definition session_closed : StudySession := set_is_active false session_joined3.

(** ** Facts about the built-ins and the registries *)

Lemma py_in_true `{Countable K} {V} (k : K) (d : gmap K V) (v : V) :
  d !! k = Some v → py_in k d = true.
Proof. intros Hk. unfold py_in. rewrite Hk. by apply bool_decide_eq_true. Qed.

Lemma py_in_false `{Countable K} {V} (k : K) (d : gmap K V) :
  d !! k = None → py_in k d = false.
Proof.
  intros Hk. unfold py_in. rewrite Hk. apply bool_decide_eq_false. by intros [? ?].
Qed.

Lemma del_if_present_delete `{Countable K} {V} (k : K) (d : gmap K V) :
  del_if_present k d = delete k d.
Proof.
  unfold del_if_present. destruct (d !! k) as [v|] eqn:Hk.
  - by rewrite (py_in_true _ _ _ Hk).
  - rewrite (py_in_false _ _ Hk). symmetry. by apply delete_id.
Qed.

Lemma has_key_true {V} (k : Z) (d : list (Z * V)) : has_key k d = true ↔ k ∈ keys d.
Proof. unfold has_key. apply bool_decide_eq_true. Qed.

Lemma has_key_false {V} (k : Z) (d : list (Z * V)) : has_key k d = false ↔ k ∉ keys d.
Proof. unfold has_key. apply bool_decide_eq_false. Qed.

Lemma keys_snoc {V} (d : list (Z * V)) (k : Z) (v : V) : keys (d ++ [(k, v)]) = keys d ++ [k].
Proof. unfold keys. by rewrite fmap_app. Qed.

(** ** The statistics rollup *)

Lemma award_first_completion_NoDup (a : list string) :
  NoDup a → NoDup (award_first_completion a).
Proof.
  intros Ha. unfold award_first_completion. case_bool_decide as Hin; [done|].
  apply NoDup_app. split_and!; [done | | apply NoDup_singleton].
  intros x Hx Hx'. apply list_elem_of_singleton in Hx'. by subst.
Qed.

Lemma award_first_completion_elem (a : list string) :
  "first_completion" ∈ award_first_completion a.
Proof.
  unfold award_first_completion. case_bool_decide as Hin; [done|].
  apply elem_of_app. right. by apply list_elem_of_singleton.
Qed.

Lemma record_participation_stats (now e : Z) (p : UserProfile) :
  study_stats (record_participation now e p) = bump_study_stats now e (study_stats p).
Proof. unfold record_participation. by destruct (50 * 60 <=? e). Qed.

Lemma record_participation_achievements (now e : Z) (p : UserProfile) :
  achievements (record_participation now e p) =
  if 50 * 60 <=? e then award_first_completion (achievements p) else achievements p.
Proof. unfold record_participation. by destruct (50 * 60 <=? e). Qed.

Lemma record_participation_identity (now e : Z) (p : UserProfile) :
  user_id (record_participation now e p) = user_id p ∧
  join_date (record_participation now e p) = join_date p ∧
  status (record_participation now e p) = status p ∧
  preferences (record_participation now e p) = preferences p.
Proof. unfold record_participation. by destruct (50 * 60 <=? e). Qed.

(** The scenario of the specification, run on the code: one call with 3000
    seconds for a user who is not known yet. *)
Example update_user_stats_first_completion :
  user_profiles (update_user_stats directory 500 11 3000 initial_world) !! 11 =
  Some (mkUserProfile 11 (Some "alice") "Alice" None 500 ACTIVE
          (mkStudyStats 1 3000 1 (Some 500)) ["first_completion"] default_preferences).
Proof. reflexivity. Qed.

(** *** How [update_user_stats] changes the world *)

Lemma get_user_profile_known (get_chat : Z → option User) (now u : Z) (w : World)
    (p : UserProfile) :
  user_profiles w !! u = Some p →
  get_user_profile get_chat now u w = (Stored u, w).
Proof. intros Hu. unfold get_user_profile. by rewrite (py_in_true _ _ _ Hu). Qed.

Lemma get_user_profile_lookup_failure (get_chat : Z → option User) (now u : Z) (w : World) :
  user_profiles w !! u = None → get_chat u = None →
  get_user_profile get_chat now u w = (Detached (placeholder_profile now u), w).
Proof. intros Hu Hc. unfold get_user_profile. by rewrite (py_in_false _ _ Hu), Hc. Qed.

Lemma update_user_stats_known (get_chat : Z → option User) (now u e : Z) (w : World)
    (p : UserProfile) :
  user_profiles w !! u = Some p →
  update_user_stats get_chat now u e w =
  set_user_profiles (<[u := record_participation now e p]> (user_profiles w)) w.
Proof.
  intros Hu. unfold update_user_stats, update_user_stats_ref.
  rewrite (get_user_profile_known _ _ _ _ _ Hu). simpl. f_equal.
  apply map_eq. intros k. destruct (decide (k = u)) as [->|Hne].
  - by rewrite lookup_alter_eq, lookup_insert_eq, Hu.
  - by rewrite lookup_alter_ne, lookup_insert_ne.
Qed.

Lemma update_user_stats_lookup_failure (get_chat : Z → option User) (now u e : Z) (w : World) :
  user_profiles w !! u = None → get_chat u = None →
  update_user_stats get_chat now u e w = w.
Proof.
  intros Hu Hc. unfold update_user_stats, update_user_stats_ref.
  by rewrite (get_user_profile_lookup_failure _ _ _ _ Hu Hc).
Qed.

(** The statistics rollup never touches the session registries or the
    tasks. *)
Lemma update_user_stats_frame (get_chat : Z → option User) (now u e : Z) (w : World) :
  group_sessions (update_user_stats get_chat now u e w) = group_sessions w ∧
  active_sessions (update_user_stats get_chat now u e w) = active_sessions w ∧
  tasks (update_user_stats get_chat now u e w) = tasks w.
Proof.
  unfold update_user_stats, update_user_stats_ref, get_user_profile.
  destruct (negb (py_in u (user_profiles w))); [|done].
  by destruct (get_chat u).
Qed.

Lemma rollup_frame (get_chat : Z → option User) (now e : Z) (users : list Z) (w : World) :
  group_sessions (rollup get_chat now e users w) = group_sessions w ∧
  active_sessions (rollup get_chat now e users w) = active_sessions w ∧
  tasks (rollup get_chat now e users w) = tasks w.
Proof.
  unfold rollup. revert w. induction users as [|u users IH]; intros w; [done|].
  simpl. destruct (IH (update_user_stats get_chat now u e w)) as (-> & -> & ->).
  apply update_user_stats_frame.
Qed.

Lemma rollup_cons (get_chat : Z → option User) (now e u : Z) (users : list Z) (w : World) :
  rollup get_chat now e (u :: users) w =
  rollup get_chat now e users (update_user_stats get_chat now u e w).
Proof. done. Qed.

(** C10, evaluated on the code at a user whom [bot.get_chat] cannot
    resolve: the placeholder profile is handed out but not stored, the
    statistics recorded through [update_user_stats] leave no trace, and the
    next [get_user_profile] builds a new placeholder with empty
    statistics. *)
Theorem get_user_profile_placeholder_is_not_stored :
  get_user_profile unreachable_directory 100 7 initial_world
    = (Detached (placeholder_profile 100 7), initial_world) ∧
  update_user_stats unreachable_directory 200 7 3000 initial_world = initial_world ∧
  user_profiles (update_user_stats unreachable_directory 200 7 3000 initial_world) !! 7 = None ∧
  (let w := update_user_stats unreachable_directory 200 7 3000 initial_world in
   ∃ p, get_user_profile unreachable_directory 300 7 w = (Detached p, w) ∧
        total_sessions (study_stats p) = 0 ∧ total_time (study_stats p) = 0).
Proof.
  split_and!; try reflexivity.
  exists (placeholder_profile 300 7). by split_and!.
Qed.

(** The sibling path: when [bot.get_chat] answers, the new profile is
    stored under the id of the answer, and a profile that is stored is the
    one every later call returns. *)
Lemma get_user_profile_created_is_stored (get_chat : Z → option User) (now u : Z) (w : World)
    (usr : User) :
  user_profiles w !! u = None → get_chat u = Some usr →
  ∃ w1, get_user_profile get_chat now u w = (Stored (tg_id usr), w1) ∧
        is_Some (user_profiles w1 !! tg_id usr).
Proof.
  intros Hu Hc. unfold get_user_profile. rewrite (py_in_false _ _ Hu), Hc. simpl.
  eexists. split; [done|]. simpl. rewrite lookup_insert_eq. eauto.
Qed.

(** ** Termination *)

Lemma update_session_lookup (sid : string) (f : StudySession → StudySession) (w : World) :
  group_sessions (update_session sid f w) !! sid = f <$> group_sessions w !! sid.
Proof. unfold update_session. simpl. apply lookup_alter_eq. Qed.

Lemma update_session_lookup_ne (sid sid' : string) (f : StudySession → StudySession)
    (w : World) :
  sid ≠ sid' →
  group_sessions (update_session sid f w) !! sid' = group_sessions w !! sid'.
Proof. intros Hne. unfold update_session. simpl. by apply lookup_alter_ne. Qed.

(** The world [end_session] reaches before it rolls up the statistics. *)
Lemma end_session_found (get_chat : Z → option User) (now : Z) (sid : string) (w : World)
    (s : StudySession) :
  group_sessions w !! sid = Some s →
  ∃ w3,
    end_session get_chat now sid w =
      (Some (set_is_active false s),
       rollup get_chat now (55 * 60 - time_left s) (keys (participants s)) w3) ∧
    group_sessions w3 = alter (set_is_active false) sid (group_sessions w) ∧
    active_sessions w3 = delete (chat_id s) (active_sessions w) ∧
    user_profiles w3 = user_profiles w ∧
    bot_stats w3 = bot_stats w ∧
    tasks w3 = match timer_task s with
               | Some i => if timer_live (Some i) w
                           then alter (λ t, mkTask (task_coro t) (task_arg t) true) i (tasks w)
                           else tasks w
               | None => tasks w
               end.
Proof.
  intros Hs. unfold end_session. rewrite Hs.
  set (w1 := update_session sid (set_is_active false) w).
  set (w2 := match timer_task s with
             | Some i => if timer_live (Some i) w1 then cancel i w1 else w1
             | None => w1
             end).
  set (w3 := set_active_sessions (del_if_present (chat_id s) (active_sessions w2)) w2).
  assert (Hg2 : group_sessions w2 = alter (set_is_active false) sid (group_sessions w)).
  { subst w2. destruct (timer_task s) as [i|]; [|done].
    by destruct (timer_live (Some i) w1). }
  assert (Ha2 : active_sessions w2 = active_sessions w).
  { subst w2. destruct (timer_task s) as [i|]; [|done].
    by destruct (timer_live (Some i) w1). }
  exists w3. split_and!.
  - f_equal.
    destruct (rollup_frame get_chat now (55 * 60 - time_left s) (keys (participants s)) w3)
      as (-> & _ & _).
    subst w3. simpl. by rewrite Hg2, lookup_alter_eq, Hs.
  - by subst w3.
  - subst w3. simpl. by rewrite del_if_present_delete, Ha2.
  - subst w3 w2. destruct (timer_task s) as [i|]; [|done].
    by destruct (timer_live (Some i) w1).
  - subst w3 w2. destruct (timer_task s) as [i|]; [|done].
    by destruct (timer_live (Some i) w1).
  - subst w3 w2. destruct (timer_task s) as [i|]; [|done].
    change (timer_live (Some i) w) with (timer_live (Some i) w1).
    by destruct (timer_live (Some i) w1).
Qed.

Lemma end_session_unknown (get_chat : Z → option User) (now : Z) (sid : string) (w : World) :
  group_sessions w !! sid = None → end_session get_chat now sid w = (None, w).
Proof. intros Hs. unfold end_session. by rewrite Hs. Qed.

Lemma end_group_session_automatically_found (sid : string) (w : World) (s : StudySession) :
  group_sessions w !! sid = Some s →
  end_group_session_automatically sid w =
  mkWorld (alter (set_is_active false) sid (group_sessions w)) (user_profiles w)
    (delete (chat_id s) (active_sessions w)) (bot_stats w) (tasks w).
Proof.
  intros Hs. unfold end_group_session_automatically. rewrite Hs.
  unfold set_active_sessions, update_session. simpl. by rewrite del_if_present_delete.
Qed.

Lemma end_private_session_automatically_found (sid : string) (w : World) (s : StudySession) :
  group_sessions w !! sid = Some s →
  end_private_session_automatically sid w =
  mkWorld (alter (set_is_active false) sid (group_sessions w)) (user_profiles w)
    (delete (chat_id s) (active_sessions w)) (bot_stats w) (tasks w).
Proof.
  intros Hs. unfold end_private_session_automatically. rewrite Hs.
  unfold set_active_sessions, update_session. simpl. by rewrite del_if_present_delete.
Qed.

Lemma index_cleared_record_kept_intro (sid : string) (s : StudySession) (w w' : World) :
  group_sessions w !! sid = Some s →
  group_sessions w' = alter (set_is_active false) sid (group_sessions w) →
  active_sessions w' = delete (chat_id s) (active_sessions w) →
  index_cleared_record_kept sid s w w'.
Proof.
  intros Hs Hg Ha. unfold index_cleared_record_kept. split_and!.
  - rewrite Ha. apply lookup_delete_eq.
  - by rewrite Hg, lookup_alter_eq, Hs.
  - intros sid' Hne. rewrite Hg. by apply lookup_alter_ne.
  - intros data Hdata. unfold session_status. rewrite Hdata. simpl.
    rewrite Hg, lookup_alter_eq, Hs. simpl. eauto.
Qed.

(** *** Callback data *)

Lemma rev_app_append (a b s : string) :
  String.rev_app a b +:+ s = String.rev_app a (b +:+ s).
Proof. revert b. induction a as [|c a IH]; intros b; simpl; [done|]. by rewrite IH. Qed.

Lemma split_from_exhausted (sep : ascii) (acc s : string) :
  split_from sep (Some 0%nat) acc s = [String.rev acc +:+ s].
Proof.
  revert acc. induction s as [|c s IH]; intros acc; simpl.
  - unfold String.rev. rewrite rev_app_append. done.
  - destruct (Ascii.eqb c sep); [done|]. rewrite IH. unfold String.rev.
    by rewrite !rev_app_append.
Qed.

Lemma split_join_data (sid : string) :
  split underscore (Some 1%nat) ("join_" +:+ sid) !! 1%nat = Some sid.
Proof. unfold split. simpl. by rewrite split_from_exhausted. Qed.

Lemma split_end_session_data (sid : string) :
  split underscore (Some 2%nat) ("end_session_" +:+ sid) !! 2%nat = Some sid.
Proof. unfold split. simpl. by rewrite split_from_exhausted. Qed.

Lemma split_session_status_data (sid : string) :
  split underscore (Some 2%nat) ("session_status_" +:+ sid) !! 2%nat = Some sid.
Proof. unfold split. simpl. by rewrite split_from_exhausted. Qed.

(** C9.  Ending a session, by hand or by timeout, removes its room from
    [active_sessions] and keeps its record in [group_sessions]: the record
    is found by id with [is_active] false and is otherwise the same, the
    other records are untouched, and a later status query by id resolves
    and shows an ended session. *)
Theorem termination_keeps_the_record
    (get_chat : Z → option User) (now : Z) (sid : string) (w : World) (s : StudySession) :
  group_sessions w !! sid = Some s →
  index_cleared_record_kept sid s w (end_session get_chat now sid w).2 ∧
  index_cleared_record_kept sid s w (end_group_session_automatically sid w) ∧
  index_cleared_record_kept sid s w (end_private_session_automatically sid w) ∧
  ∃ v, session_status ("session_status_" +:+ sid) (end_session get_chat now sid w).2 = Some v ∧
       shown_active v = false.
Proof.
  intros Hs.
  destruct (end_session_found get_chat now sid w s Hs) as (w3 & Hend & Hg & Ha & _).
  destruct (rollup_frame get_chat now (55 * 60 - time_left s) (keys (participants s)) w3)
    as (Hrg & Hra & _).
  assert (Hmanual : index_cleared_record_kept sid s w (end_session get_chat now sid w).2).
  { rewrite Hend. simpl. apply index_cleared_record_kept_intro; [done| |].
    - by rewrite Hrg.
    - by rewrite Hra. }
  split_and!; [done| | |].
  - rewrite (end_group_session_automatically_found sid w s Hs).
    by apply index_cleared_record_kept_intro.
  - rewrite (end_private_session_automatically_found sid w s Hs).
    by apply index_cleared_record_kept_intro.
  - destruct Hmanual as (_ & _ & _ & Hstatus). apply Hstatus.
    apply split_session_status_data.
Qed.

Lemma termination_keeps_the_record_witness :
  group_sessions world_joined3 !! room_sid = Some session_joined3 ∧
  index_cleared_record_kept room_sid session_joined3 world_joined3
    (end_session directory 2000 room_sid world_joined3).2.
Proof.
  assert (H : group_sessions world_joined3 !! room_sid = Some session_joined3)
    by (vm_compute; reflexivity).
  split; [exact H|].
  exact (proj1 (termination_keeps_the_record directory 2000 room_sid world_joined3
                  session_joined3 H)).
Defined.

(** ** Joining *)

Lemma alter_as_insert `{Countable K} {V} (f : V → V) (k : K) (m : gmap K V) (v : V) :
  m !! k = Some v → alter f k m = <[k := f v]> m.
Proof.
  intros Hk. apply map_eq. intros j. destruct (decide (j = k)) as [->|Hne].
  - by rewrite lookup_alter_eq, lookup_insert_eq, Hk.
  - by rewrite lookup_alter_ne, lookup_insert_ne.
Qed.

Lemma join_session_unknown (now : Z) (data : string) (user : User) (w : World) (sid : string) :
  split underscore (Some 1%nat) data !! 1%nat = Some sid →
  group_sessions w !! sid = None →
  join_session now data user w = (SessionNotFound, w).
Proof. intros Hd Hs. unfold join_session. by rewrite Hd, Hs. Qed.

Lemma join_session_ended (now : Z) (data : string) (user : User) (w : World) (sid : string)
    (s : StudySession) :
  split underscore (Some 1%nat) data !! 1%nat = Some sid →
  group_sessions w !! sid = Some s →
  is_active s = false →
  join_session now data user w = (SessionEnded, w).
Proof. intros Hd Hs Ha. unfold join_session. by rewrite Hd, Hs, Ha. Qed.

Lemma join_session_already (now : Z) (data : string) (user : User) (w : World) (sid : string)
    (s : StudySession) :
  split underscore (Some 1%nat) data !! 1%nat = Some sid →
  group_sessions w !! sid = Some s →
  is_active s = true →
  tg_id user ∈ keys (participants s) →
  join_session now data user w = (AlreadyJoined, w).
Proof.
  intros Hd Hs Ha Hin. unfold join_session. rewrite Hd, Hs, Ha. simpl.
  by rewrite (proj2 (has_key_true _ _) Hin).
Qed.

(** The whole effect of a join that goes through. *)
Lemma join_session_joined (now : Z) (data : string) (user : User) (w : World) (sid : string)
    (s : StudySession) :
  split underscore (Some 1%nat) data !! 1%nat = Some sid →
  group_sessions w !! sid = Some s →
  is_active s = true →
  tg_id user ∉ keys (participants s) →
  join_session now data user w =
  (Joined (S (length (participants s))),
   mkWorld (<[sid := joined_record now user s w]> (group_sessions w))
     (user_profiles w) (active_sessions w)
     (mkBotStats (bot_total_sessions (bot_stats w)) (active_users (bot_stats w))
        (total_participations (bot_stats w) + 1))
     (if spawns_timer (S (length (participants s))) (timer_task s) w
      then tasks w ++ [mkTask GroupTimer sid false] else tasks w)).
Proof.
  intros Hd Hs Ha Hin. unfold join_session. rewrite Hd, Hs, Ha. cbn [negb].
  rewrite (proj2 (has_key_false _ _) Hin). cbv zeta. f_equal.
  unfold joined_record, spawns_timer.
  match goal with |- context [timer_live ?h ?w'] =>
    change (timer_live h w') with (timer_live (timer_task s) w) end.
  destruct ((3 <=? S (length (participants s)))%nat && negb (timer_live (timer_task s) w)).
  - unfold create_task, update_session, set_bot_stats, set_tasks, set_group_sessions. simpl.
    f_equal. rewrite !(alter_as_insert _ _ _ _ Hs).
    rewrite (alter_as_insert _ sid _ _ (lookup_insert_eq _ _ _)), insert_insert_eq.
    rewrite (alter_as_insert _ sid _ _ (lookup_insert_eq _ _ _)), insert_insert_eq.
    done.
  - unfold update_session, set_bot_stats, set_group_sessions. simpl.
    f_equal. rewrite !(alter_as_insert _ _ _ _ Hs).
    rewrite (alter_as_insert _ sid _ _ (lookup_insert_eq _ _ _)), insert_insert_eq.
    done.
Qed.

Lemma join_repeatedly_already (data : string) (presses : list (Z * User)) (w : World)
    (sid : string) (s : StudySession) (uid : Z) :
  split underscore (Some 1%nat) data !! 1%nat = Some sid →
  group_sessions w !! sid = Some s →
  is_active s = true →
  uid ∈ keys (participants s) →
  Forall (λ press, tg_id press.2 = uid) presses →
  join_repeatedly data presses w = (replicate (length presses) AlreadyJoined, w).
Proof.
  intros Hd Hs Ha Hin Hall. induction Hall as [|[now user] presses Hu _ IH]; [done|].
  simpl in *. subst uid.
  by rewrite (join_session_already now data user w sid s Hd Hs Ha Hin), IH.
Qed.

(** C6.  On an active session that a user is not part of, the first press
    of the join button by that user inserts the participant and is answered
    [Joined]; however often the same user id presses it again, every later
    press is answered [AlreadyJoined] and leaves the whole state, hence the
    participant count, [stats.joins] and [total_participations], as the
    first press left it. *)
Theorem join_is_idempotent
    (now : Z) (user : User) (presses : list (Z * User)) (data : string) (w : World)
    (sid : string) (s : StudySession) :
  split underscore (Some 1%nat) data !! 1%nat = Some sid →
  group_sessions w !! sid = Some s →
  is_active s = true →
  tg_id user ∉ keys (participants s) →
  Forall (λ press, tg_id press.2 = tg_id user) presses →
  let w1 := (join_session now data user w).2 in
  join_repeatedly data ((now, user) :: presses) w =
    (Joined (S (length (participants s))) :: replicate (length presses) AlreadyJoined, w1) ∧
  ∃ s1, group_sessions w1 !! sid = Some s1 ∧
        keys (participants s1) = keys (participants s) ++ [tg_id user] ∧
        length (participants s1) = S (length (participants s)) ∧
        joins (stats s1) = joins (stats s) + 1 ∧
        total_participations (bot_stats w1) = total_participations (bot_stats w) + 1.
Proof.
  intros Hd Hs Ha Hin Hall w1.
  pose proof (join_session_joined now data user w sid s Hd Hs Ha Hin) as Hj.
  assert (Hs1 : group_sessions w1 !! sid = Some (joined_record now user s w)).
  { subst w1. rewrite Hj. simpl. apply lookup_insert_eq. }
  assert (Hk : keys (participants (joined_record now user s w))
               = keys (participants s) ++ [tg_id user]).
  { unfold joined_record, keys. simpl. by rewrite fmap_app. }
  split.
  - simpl. destruct (join_session now data user w) as [o w'] eqn:Hjoin.
    subst w1. simpl in Hs1 |- *. injection Hj as -> Hw'.
    rewrite (join_repeatedly_already data presses w' sid (joined_record now user s w)
               (tg_id user) Hd Hs1); [done|done| |done].
    rewrite Hk. apply elem_of_app. right. by apply list_elem_of_singleton.
  - exists (joined_record now user s w). split_and!; [done|done| | |].
    + unfold joined_record. simpl. rewrite length_app. simpl. lia.
    + done.
    + subst w1. by rewrite Hj.
Qed.

Lemma join_is_idempotent_witness :
  join_repeatedly ("join_" +:+ room_sid) [(1030, carol); (1040, carol); (1050, carol)]
    world_joined2 =
  ([Joined 3; AlreadyJoined; AlreadyJoined], world_joined3).
Proof.
  assert (Hd : split underscore (Some 1%nat) ("join_" +:+ room_sid) !! 1%nat = Some room_sid)
    by apply split_join_data.
  assert (Hs : group_sessions world_joined2 !! room_sid =
               Some (mkStudySession room_sid room 11 "@alice"
                       [(11, mkParticipant "@alice" 1010 true);
                        (12, mkParticipant "Bob Stone" 1020 true)]
                       (Some 55) 0 3300 true true 1000 (mkSessionStats 2 0 0 0) None))
    by (vm_compute; reflexivity).
  refine (proj1 (join_is_idempotent 1030 carol [(1040, carol); (1050, carol)]
                   ("join_" +:+ room_sid) world_joined2 room_sid _ Hd Hs _ _ _)).
  - reflexivity.
  - simpl. intros Hin. repeat (apply elem_of_cons in Hin as [Hin|Hin]; [discriminate|]).
    by apply elem_of_nil in Hin.
  - repeat constructor.
Defined.

(** ** Extending and ending from a private chat *)

(** [extend_session] has no look at [is_active]: whenever the callback data
    names a session of the registry and the presser, the countdown is reset
    and the extension counted. *)
Lemma extend_session_found (int : string → option Z) (data : string) (from_user : User)
    (w : World) (sid : string) (s : StudySession) :
  split underscore None data !! 2%nat = Some sid →
  split underscore None data !! 3%nat ≫= int = Some (tg_id from_user) →
  group_sessions w !! sid = Some s →
  extend_session int data from_user w =
  (Extended,
   set_group_sessions
     (<[sid := set_stats
                 (mkSessionStats (joins (stats s)) (leaves (stats s))
                    (extensions (stats s) + 1) (completions (stats s)))
                 (set_time_left (55 * 60) s)]> (group_sessions w)) w).
Proof.
  intros Hsid Huid Hs. unfold extend_session. cbv zeta. rewrite Hsid, Huid.
  rewrite Z.eqb_refl, (py_in_true _ _ _ Hs). cbn [negb].
  f_equal. unfold update_session, set_group_sessions. simpl. f_equal.
  rewrite (alter_as_insert _ _ _ _ Hs).
  by rewrite (alter_as_insert _ sid _ _ (lookup_insert_eq _ _ _)), insert_insert_eq.
Qed.

(** Whatever the callback data and whoever presses, [end_session_user]
    leaves the world as it is. *)
Lemma end_session_user_changes_nothing (int : string → option Z) (data : string)
    (from_user : User) (w : World) :
  (end_session_user int data from_user w).2 = w.
Proof.
  unfold end_session_user. cbv zeta.
  destruct (split underscore None data !! 3%nat); [|done].
  destruct (split underscore None data !! 4%nat ≫= int); [|done].
  by destruct (negb (tg_id from_user =? _)).
Qed.

(** C4, evaluated on the code: Dana starts a private session and presses
    "end my session" at once.  The handler confirms the end, and the
    session is still active, the chat still maps to it, its timer is still
    live and no statistics were recorded for Dana. *)
Theorem end_session_user_does_not_end_the_session :
  let data := "end_session_user_" +:+ private_sid +:+ "_42" in
  ∃ s,
    end_session_user decimal data dana world_private = (EndUserConfirmed, world_private) ∧
    group_sessions world_private !! private_sid = Some s ∧
    is_active s = true ∧
    active_sessions world_private !! 42 = Some private_sid ∧
    timer_live (timer_task s) world_private = true ∧
    user_profiles world_private !! 42 = None.
Proof.
  eexists. split; [vm_compute; reflexivity|].
  split; [vm_compute; reflexivity|].
  split_and!; reflexivity.
Qed.

(** ** Starting sessions *)

(** The group command does look for an active session first. *)
Lemma start_session_group_refuses (now loop_time rnd chat : Z) (from_user : User)
    (st : ChatMemberStatus) (sent : option Z) (pin_ok : bool) (w : World)
    (existing : StudySession) :
  is_admin st = true →
  get_active_session chat w = Some existing →
  start_session_group now loop_time rnd chat from_user (Some st) sent pin_ok w =
  (RoomAlreadyActive existing, w).
Proof. intros Hst Hact. unfold start_session_group. by rewrite Hst, Hact. Qed.

(** C3, evaluated on the code: Dana presses the private "start session"
    button twice, a minute apart.  The second press does not look for the
    session of the first: both records are active for the same chat, each
    with a live timer, and the active index only knows the second. *)
Theorem start_session_info_opens_a_second_session :
  ∃ s1 s2,
    get_active_session 42 world_private = Some s1 ∧
    group_sessions world_private2 !! private_sid = Some s1 ∧
    group_sessions world_private2 !! private_sid2 = Some s2 ∧
    private_sid ≠ private_sid2 ∧
    chat_id s1 = 42 ∧ chat_id s2 = 42 ∧
    is_active s1 = true ∧ is_active s2 = true ∧
    timer_live (timer_task s1) world_private2 = true ∧
    timer_live (timer_task s2) world_private2 = true ∧
    active_sessions world_private2 !! 42 = Some private_sid2.
Proof.
  eexists _, _. split; [vm_compute; reflexivity|].
  split; [vm_compute; reflexivity|].
  split; [vm_compute; reflexivity|].
  split; [by vm_compute|].
  split_and!; reflexivity.
Qed.

(** ** Automatic termination *)

Lemma finish_keeps_user_profiles (i : nat) (w : World) :
  user_profiles (finish i w) = user_profiles w ∧ bot_stats (finish i w) = bot_stats w.
Proof. done. Qed.

(** Neither of the two automatic endings rolls up statistics. *)
Lemma automatic_end_keeps_user_profiles (sid : string) (w : World) :
  user_profiles (end_group_session_automatically sid w) = user_profiles w ∧
  user_profiles (end_private_session_automatically sid w) = user_profiles w.
Proof.
  unfold end_group_session_automatically, end_private_session_automatically.
  by destruct (group_sessions w !! sid).
Qed.

(** No wake-up of a timer task writes to [user_profiles]. *)
Lemma wake_keeps_user_profiles (now : Z) (i : nat) (w : World) :
  user_profiles (wake now i w) = user_profiles w.
Proof.
  unfold wake. destruct (tasks w !! i) as [t|]; [|done].
  destruct (task_done t); [done|].
  destruct (task_coro t).
  - unfold private_session_timer. destruct (group_sessions w !! task_arg t) as [s|]; [|done].
    destruct (negb (is_active s)); [done|].
    destruct (time_left s - 60 <=? 0); [|done].
    rewrite (proj1 (finish_keeps_user_profiles _ _)).
    by rewrite (proj2 (automatic_end_keeps_user_profiles _ _)).
  - unfold group_session_timer. destruct (group_sessions w !! task_arg t) as [s|]; [|done].
    destruct (negb (is_active s)); [done|].
    destruct (time_left s - 60 <=? 0); [|done].
    rewrite (proj1 (finish_keeps_user_profiles _ _)).
    by rewrite (proj1 (automatic_end_keeps_user_profiles _ _)).
Qed.

Lemma tick_keeps_user_profiles (now : Z) (w : World) :
  user_profiles (tick now w) = user_profiles w.
Proof.
  unfold tick. generalize (seq 0 (length (tasks w))). intros l. revert w.
  induction l as [|i l IH]; intros w; [done|].
  simpl. rewrite IH. apply wake_keeps_user_profiles.
Qed.

Lemma ticks_keep_user_profiles (now : Z) (n : nat) (w : World) :
  user_profiles (ticks now n w) = user_profiles w.
Proof.
  revert now w. induction n as [|n IH]; intros now w; [done|].
  simpl. rewrite IH. apply tick_keeps_user_profiles.
Qed.

(** C1, evaluated on the code: the session of the room runs with Alice,
    Bob and Carol, and 55 tick intervals go by.  After 54 of them the
    session is active with 60 seconds left; the 55th ends it by timeout
    with [time_left = 0] and clears the active index, and no profile has
    been written for any participant, whereas ending the same session by
    hand gives each of the three a profile with [total_sessions = 1]. *)
Theorem automatic_end_records_no_statistics :
  let timed_out := ticks 1090 55 world_joined3 in
  let ended_by_hand := (end_session directory 4330 room_sid world_joined3).2 in
  (∃ s, group_sessions (ticks 1090 54 world_joined3) !! room_sid = Some s ∧
        is_active s = true ∧ time_left s = 60) ∧
  (∃ s, group_sessions timed_out !! room_sid = Some s ∧
        is_active s = false ∧ time_left s = 0 ∧
        keys (participants s) = [11; 12; 13]) ∧
  active_sessions timed_out !! room = None ∧
  user_profiles timed_out = ∅ ∧
  (∀ u, u ∈ [11; 12; 13] →
        ∃ p, user_profiles ended_by_hand !! u = Some p ∧
             total_sessions (study_stats p) = 1).
Proof.
  split_and!.
  - eexists. split; [vm_compute; reflexivity|]. by split.
  - eexists. split; [vm_compute; reflexivity|]. by split_and!.
  - vm_compute; reflexivity.
  - by rewrite ticks_keep_user_profiles.
  - intros u Hu.
    repeat (apply elem_of_cons in Hu as [->|Hu];
            [eexists; split; [vm_compute; reflexivity|reflexivity]|]).
    by apply elem_of_nil in Hu.
Qed.

(** ** Ending twice *)

Lemma directory_answers_for_the_id_asked : answers_for_the_id_asked directory.
Proof.
  intros u usr. unfold directory.
  destruct (u =? 11) eqn:H1; [intros [= <-]; simpl; lia|].
  destruct (u =? 12) eqn:H2; [intros [= <-]; simpl; lia|].
  destruct (u =? 13) eqn:H3; [intros [= <-]; simpl; lia|].
  done.
Qed.

Lemma update_user_stats_other (get_chat : Z → option User) (now u' e : Z) (w : World) (u : Z) :
  answers_for_the_id_asked get_chat → u' ≠ u →
  user_profiles (update_user_stats get_chat now u' e w) !! u = user_profiles w !! u.
Proof.
  intros Hsound Hne. unfold update_user_stats, update_user_stats_ref, get_user_profile.
  destruct (py_in u' (user_profiles w)); simpl.
  - by rewrite lookup_alter_ne.
  - destruct (get_chat u') as [usr|] eqn:Hc; simpl; [|done].
    rewrite (Hsound _ _ Hc). by rewrite lookup_alter_ne, lookup_insert_ne.
Qed.

Lemma rollup_other (get_chat : Z → option User) (now e : Z) (users : list Z) (w : World)
    (u : Z) :
  answers_for_the_id_asked get_chat → u ∉ users →
  user_profiles (rollup get_chat now e users w) !! u = user_profiles w !! u.
Proof.
  intros Hsound. revert w. induction users as [|u' users IH]; intros w Hnin; [done|].
  rewrite rollup_cons, IH.
  - apply update_user_stats_other; [done|]. intros ->. apply Hnin. by left.
  - intros Hin. apply Hnin. by right.
Qed.



(** C2, evaluated on the code: the session of the room, with Alice, Bob
    and Carol in it, is ended at second 2000 and once more at second 2100,
    by [end_session] or by an administrator pressing the end button twice.
    The second end is not silent: [end_session] guards the cancelling of
    the timer and the removal from the active index against a repeated
    call, but not the rollup, which runs again, so that Alice's
    [total_sessions] is 1 after the first end and 2 after the second. *)
Theorem second_end_is_not_silent :
  ¬ second_end_is_silent directory 2000 2100 room_sid world_joined3 ∧
  (∃ p,
     user_profiles (end_session directory 2000 room_sid world_joined3).2 !! 11 = Some p ∧
     total_sessions (study_stats p) = 1) ∧
  (∃ p,
     user_profiles
       (end_session directory 2100 room_sid
          (end_session directory 2000 room_sid world_joined3).2).2 !! 11 = Some p ∧
     total_sessions (study_stats p) = 2) ∧
  (∃ p,
     user_profiles
       (end_session_callback directory 2100 ("end_session_" +:+ room_sid)
          (Some ADMINISTRATOR)
          (end_session_callback directory 2000 ("end_session_" +:+ room_sid)
             (Some ADMINISTRATOR) world_joined3).2).2 !! 11 = Some p ∧
     total_sessions (study_stats p) = 2).
Proof.
  split_and!.
  - intros [_ Heq].
    apply (f_equal (λ w, total_sessions ∘ study_stats <$> user_profiles w !! 11)) in Heq.
    vm_compute in Heq. discriminate.
  - eexists. split; [vm_compute; reflexivity|reflexivity].
  - eexists. split; [vm_compute; reflexivity|reflexivity].
  - eexists. split; [vm_compute; reflexivity|reflexivity].
Qed.



(** ** Soundness of the runs *)

#[local] Abbreviation mark_done := (λ t : Task, mkTask (task_coro t) (task_arg t) true).

Lemma sound_initial_world : sound_world initial_world.
Proof. by split; intros ? ?; simpl. Qed.

(** Writes to [user_profiles] and [bot_stats] do not matter. *)
Lemma sound_frame (w w' : World) :
  group_sessions w' = group_sessions w →
  active_sessions w' = active_sessions w →
  tasks w' = tasks w →
  sound_world w → sound_world w'.
Proof.
  intros Hg Ha Ht [Hs Htk Hix]. split.
  - intros sid s. rewrite Hg. intros Hl. destruct (Hs sid s Hl) as [Hr Htm].
    split; [done|]. unfold timer_ok. by rewrite Ht.
  - intros i t. rewrite Ht. intros Hl. unfold task_ok. rewrite Hg. by apply Htk.
  - intros chat sid. rewrite Ha. intros Hl. unfold index_ok. rewrite Hg. by apply Hix.
Qed.

(** A write to one record that keeps its handle, its chat and its
    [is_active]. *)
Lemma sound_update_session (w : World) (sid : string) (s s' : StudySession) :
  sound_world w →
  group_sessions w !! sid = Some s →
  session_ok w sid s' →
  timer_task s' = timer_task s →
  is_active s' = is_active s →
  chat_id s' = chat_id s →
  sound_world (set_group_sessions (<[sid := s']> (group_sessions w)) w).
Proof.
  intros [Hs Htk Hix] Hl Hok Ht Ha Hc. split; simpl.
  - intros sid0 s0. destruct (decide (sid = sid0)) as [<-|Hne].
    + rewrite lookup_insert_eq. by intros [= <-].
    + rewrite lookup_insert_ne by done. apply Hs.
  - intros i t Hi Hlive. simpl. destruct (Htk i t Hi Hlive) as (s0 & Hs0 & Ht0 & Ha0).
    destruct (decide (sid = task_arg t)) as [Heq|Hne].
    + exists s'. rewrite <- Heq in Hs0. rewrite <- Heq, lookup_insert_eq.
      assert (s0 = s) as -> by congruence. by rewrite Ht, Ha.
    + exists s0. by rewrite lookup_insert_ne.
  - intros chat sid0 Hc0. unfold index_ok. simpl.
    destruct (Hix chat sid0 Hc0) as (s0 & Hs0 & Hch & Ha0).
    destruct (decide (sid = sid0)) as [<-|Hne].
    + exists s'. rewrite lookup_insert_eq.
      assert (s0 = s) as -> by congruence. by rewrite Hc, Ha.
    + exists s0. by rewrite lookup_insert_ne.
Qed.

(** A new record under an unused id, entered into the active index. *)
Lemma sound_fresh (w : World) (sid : string) (s : StudySession) :
  sound_world w →
  group_sessions w !! sid = None →
  record_ok sid s →
  timer_task s = None →
  is_active s = true →
  sound_world (mkWorld (<[sid := s]> (group_sessions w)) (user_profiles w)
                 (<[chat_id s := sid]> (active_sessions w)) (bot_stats w) (tasks w)).
Proof.
  intros [Hs Htk Hix] Hnew Hr Ht Ha. split; simpl.
  - intros sid0 s0. destruct (decide (sid = sid0)) as [<-|Hne].
    + rewrite lookup_insert_eq. intros [= <-]. split; [done|].
      intros i Hi. congruence.
    + rewrite lookup_insert_ne by done. apply Hs.
  - intros i t Hi Hlive. simpl. destruct (Htk i t Hi Hlive) as (s0 & Hs0 & Ht0 & Ha0).
    exists s0. rewrite lookup_insert_ne; [done|]. intros ->. congruence.
  - intros chat sid0. destruct (decide (chat_id s = chat)) as [<-|Hne].
    + rewrite lookup_insert_eq. intros [= <-]. exists s. simpl. by rewrite lookup_insert_eq.
    + rewrite lookup_insert_ne by done. intros Hc0.
      destruct (Hix chat sid0 Hc0) as (s0 & Hs0 & Hch & Ha0).
      exists s0. simpl. rewrite lookup_insert_ne; [done|]. intros ->. congruence.
Qed.

(** A session without a live timer gets a new task as its timer. *)
Lemma sound_spawn (w : World) (sid : string) (s s' : StudySession) (coro : TimerKind) :
  sound_world w →
  group_sessions w !! sid = Some s →
  timer_live (timer_task s) w = false →
  record_ok sid s' →
  is_active s' = true →
  chat_id s' = chat_id s →
  timer_task s' = Some (length (tasks w)) →
  (coro = GroupTimer → (3 ≤ length (participants s'))%nat) →
  sound_world (mkWorld (<[sid := s']> (group_sessions w)) (user_profiles w)
                 (active_sessions w) (bot_stats w) (tasks w ++ [mkTask coro sid false])).
Proof.
  intros [Hs Htk Hix] Hl Hdead Hr Ha Hc Ht Hq. split; simpl.
  - intros sid0 s0. destruct (decide (sid = sid0)) as [<-|Hne].
    + rewrite lookup_insert_eq. intros [= <-]. split; [done|].
      intros i Hi. rewrite Ht in Hi. injection Hi as <-.
      eexists. split; [apply list_lookup_middle; done|]. done.
    + rewrite lookup_insert_ne by done. intros Hs0.
      destruct (Hs sid0 s0 Hs0) as [Hr0 Ht0]. split; [done|].
      intros i Hi. destruct (Ht0 i Hi) as (t & Hti & Harg & Hco).
      exists t. split; [by apply lookup_app_l_Some|done].
  - intros i t Hi Hlive. simpl. apply lookup_snoc_Some in Hi as [[Hlt Hi]|[-> <-]].
    + destruct (Htk i t Hi Hlive) as (s0 & Hs0 & Ht0 & Ha0).
      destruct (decide (sid = task_arg t)) as [Heq|Hne].
      * exfalso. rewrite <- Heq in Hs0. assert (s0 = s) as -> by congruence.
        unfold timer_live in Hdead. rewrite Ht0, Hi, Hlive in Hdead. done.
      * exists s0. by rewrite lookup_insert_ne.
    + exists s'. simpl. by rewrite lookup_insert_eq.
  - intros chat sid0 Hc0. unfold index_ok. simpl.
    destruct (Hix chat sid0 Hc0) as (s0 & Hs0 & Hch & Ha0).
    destruct (decide (sid = sid0)) as [<-|Hne].
    + exists s'. rewrite lookup_insert_eq.
      assert (s0 = s) as -> by congruence. by rewrite Hc.
    + exists s0. by rewrite lookup_insert_ne.
Qed.

(** A session ends: its record turns inactive, its chat leaves the active
    index, and its timer, if it was live, is marked done. *)
Lemma sound_terminate (w : World) (sid : string) (s s' : StudySession) (ts' : list Task) :
  sound_world w →
  group_sessions w !! sid = Some s →
  record_ok sid s' →
  is_active s' = false →
  timer_task s' = timer_task s →
  participants s' = participants s →
  (ts' = tasks w ∧ timer_live (timer_task s) w = false) ∨
  (∃ i, timer_task s = Some i ∧ ts' = alter mark_done i (tasks w)) →
  sound_world (mkWorld (<[sid := s']> (group_sessions w)) (user_profiles w)
                 (delete (chat_id s) (active_sessions w)) (bot_stats w) ts').
Proof.
  intros [Hs Htk Hix] Hl Hr Ha Ht Hp Hts.
  assert (Hkeep : ∀ i t, tasks w !! i = Some t →
            ∃ t', ts' !! i = Some t' ∧ task_arg t' = task_arg t ∧
                  task_coro t' = task_coro t).
  { intros i t Hi. destruct Hts as [[-> _]|(i0 & _ & ->)]; [by exists t|].
    destruct (decide (i0 = i)) as [->|Hne].
    - exists (mark_done t). by rewrite list_lookup_alter_eq, Hi.
    - exists t. by rewrite list_lookup_alter_ne. }
  assert (Hlive : ∀ j t', ts' !! j = Some t' → task_done t' = false →
            tasks w !! j = Some t' ∧ task_arg t' ≠ sid).
  { intros j t' Hj Hnd. destruct Hts as [[-> Hdead]|(i0 & Hi0 & ->)].
    - split; [done|]. intros Harg.
      destruct (Htk j t' Hj Hnd) as (s0 & Hs0 & Ht0 & _).
      rewrite Harg in Hs0. assert (s0 = s) as -> by congruence.
      unfold timer_live in Hdead. by rewrite Ht0, Hj, Hnd in Hdead.
    - destruct (decide (i0 = j)) as [->|Hne].
      + rewrite list_lookup_alter_eq in Hj. destruct (tasks w !! j); [|done].
        simpl in Hj. injection Hj as <-. done.
      + rewrite list_lookup_alter_ne in Hj by done. split; [done|]. intros Harg.
        destruct (Htk j t' Hj Hnd) as (s0 & Hs0 & Ht0 & _).
        rewrite Harg in Hs0. assert (s0 = s) as -> by congruence. congruence. }
  split; simpl.
  - intros sid0 s0. destruct (decide (sid = sid0)) as [<-|Hne].
    + rewrite lookup_insert_eq. intros [= <-]. split; [done|].
      intros i Hi. simpl. rewrite Ht in Hi.
      destruct (Hs sid s Hl) as [_ Htm]. destruct (Htm i Hi) as (t & Hti & Harg & Hco).
      destruct (Hkeep i t Hti) as (t' & Hti' & Harg' & Hco').
      exists t'. rewrite Hp, Harg', Hco'. done.
    + rewrite lookup_insert_ne by done. intros Hs0.
      destruct (Hs sid0 s0 Hs0) as [Hr0 Htm]. split; [done|].
      intros i Hi. simpl. destruct (Htm i Hi) as (t & Hti & Harg & Hco).
      destruct (Hkeep i t Hti) as (t' & Hti' & Harg' & Hco').
      exists t'. rewrite Harg', Hco'. done.
  - intros j t' Hj Hnd. simpl. destruct (Hlive j t' Hj Hnd) as [Hj' Harg].
    destruct (Htk j t' Hj' Hnd) as (s0 & Hs0 & Ht0 & Ha0).
    exists s0. by rewrite lookup_insert_ne.
  - intros chat sid0 Hc0. unfold index_ok. simpl.
    apply lookup_delete_Some in Hc0 as [Hne Hc0].
    destruct (Hix chat sid0 Hc0) as (s0 & Hs0 & Hch & Ha0).
    exists s0. rewrite lookup_insert_ne; [done|]. intros <-.
    assert (s0 = s) as -> by congruence. done.
Qed.

Lemma sound_join_session (now : Z) (data : string) (user : User) (w : World) :
  sound_world w → sound_world (join_session now data user w).2.
Proof.
  intros Hw.
  destruct (split underscore (Some 1%nat) data !! 1%nat) as [sid|] eqn:Hd;
    [|by unfold join_session; rewrite Hd].
  destruct (group_sessions w !! sid) as [s|] eqn:Hs;
    [|by rewrite (join_session_unknown now data user w sid Hd Hs)].
  destruct (is_active s) eqn:Ha;
    [|by rewrite (join_session_ended now data user w sid s Hd Hs Ha)].
  destruct (decide (tg_id user ∈ keys (participants s))) as [Hin|Hin];
    [by rewrite (join_session_already now data user w sid s Hd Hs Ha Hin)|].
  rewrite (join_session_joined now data user w sid s Hd Hs Ha Hin). cbn [snd].
  destruct (sessions_ok w Hw sid s Hs) as [(Hid & Hnd & Htime) Htm].
  assert (Hr : record_ok sid (joined_record now user s w)).
  { split_and!; [done| |done].
    unfold joined_record, keys. simpl. rewrite fmap_app. apply NoDup_app.
    split_and!; [done| |apply NoDup_singleton].
    intros x Hx Hx'. apply list_elem_of_singleton in Hx'. simpl in Hx'. by subst. }
  assert (Hlen : length (participants (joined_record now user s w))
                 = S (length (participants s))).
  { unfold joined_record. simpl. rewrite length_app. simpl. lia. }
  destruct (spawns_timer (S (length (participants s))) (timer_task s) w) eqn:Hsp.
  - apply andb_true_iff in Hsp as [Hq Hdead]. apply negb_true_iff in Hdead.
    eapply (sound_frame
              (mkWorld (<[sid := joined_record now user s w]> (group_sessions w))
                 (user_profiles w) (active_sessions w) (bot_stats w)
                 (tasks w ++ [mkTask GroupTimer sid false])));
      [done|done|done|].
    apply (sound_spawn w sid s (joined_record now user s w) GroupTimer); try done.
    + unfold joined_record, spawns_timer. by rewrite Hq, Hdead.
    + intros _. rewrite Hlen. by apply Nat.leb_le.
  - eapply (sound_frame (set_group_sessions
                           (<[sid := joined_record now user s w]> (group_sessions w)) w));
      [done|done|done|].
    apply (sound_update_session w sid s); try done.
    split; [done|]. intros i Hi.
    assert (Hi' : timer_task s = Some i).
    { unfold joined_record in Hi. by rewrite Hsp in Hi. }
    destruct (Htm i Hi') as (t & Hti & Harg & Hco).
    exists t. split_and!; [done|done|]. intros Hg. rewrite Hlen. specialize (Hco Hg). lia.
    unfold joined_record. by rewrite Hsp.
Qed.

Lemma sound_extend_session (int : string → option Z) (data : string) (from_user : User)
    (w : World) :
  sound_world w → sound_world (extend_session int data from_user w).2.
Proof.
  intros Hw. unfold extend_session. cbv zeta.
  destruct (split underscore None data !! 2%nat) as [sid|] eqn:Hsid; [|done].
  destruct (split underscore None data !! 3%nat ≫= int) as [uid|] eqn:Huid; [|done].
  destruct (tg_id from_user =? uid) eqn:Hu; [|done]. cbn [negb].
  destruct (group_sessions w !! sid) as [s|] eqn:Hs;
    [|by rewrite (py_in_false _ _ Hs)].
  rewrite (py_in_true _ _ _ Hs). cbn [negb snd].
  unfold update_session. simpl.
  rewrite (alter_as_insert _ _ _ _ Hs).
  rewrite (alter_as_insert _ sid _ _ (lookup_insert_eq _ _ _)), insert_insert_eq.
  apply (sound_update_session w sid s); try done.
  destruct (sessions_ok w Hw sid s Hs) as [(Hid & Hnd & Htime) Htm].
  split; [|done]. split_and!; [done|done|]. exists 55. simpl. lia.
Qed.

Lemma sound_end_session (get_chat : Z → option User) (now : Z) (sid : string) (w : World) :
  sound_world w → sound_world (end_session get_chat now sid w).2.
Proof.
  intros Hw. destruct (group_sessions w !! sid) as [s|] eqn:Hs;
    [|by rewrite (end_session_unknown get_chat now sid w Hs)].
  destruct (end_session_found get_chat now sid w s Hs)
    as (w3 & -> & Hg & Ha & _ & _ & Ht). cbn [snd].
  destruct (rollup_frame get_chat now (55 * 60 - time_left s) (keys (participants s)) w3)
    as (Hrg & Hra & Hrt).
  destruct (sessions_ok w Hw sid s Hs) as [(Hid & Hnd & k & Hk & Hrange & _) Htm].
  eapply (sound_frame
            (mkWorld (<[sid := set_is_active false s]> (group_sessions w)) (user_profiles w)
               (delete (chat_id s) (active_sessions w)) (bot_stats w) (tasks w3))).
  - rewrite Hrg, Hg. simpl. by apply alter_as_insert.
  - by rewrite Hra, Ha.
  - by rewrite Hrt.
  - apply (sound_terminate w sid s); try done.
    + split; [done|]. split; [done|]. exists k. split; [done|]. split; [done|done].
    + rewrite Ht. destruct (timer_task s) as [i|]; [|by left].
      destruct (timer_live (Some i) w) eqn:Hlive; [right; by exists i|by left].
Qed.

Lemma sound_end_session_callback (get_chat : Z → option User) (now : Z) (data : string)
    (member : option ChatMemberStatus) (w : World) :
  sound_world w → sound_world (end_session_callback get_chat now data member w).2.
Proof.
  intros Hw. unfold end_session_callback.
  destruct (split underscore (Some 2%nat) data !! 2%nat) as [sid|]; [|done].
  destruct member as [st|]; [|done].
  destruct (negb (is_admin st)); [done|].
  pose proof (sound_end_session get_chat now sid w Hw) as Hend.
  by destruct (end_session get_chat now sid w) as [[session|] w1].
Qed.

Lemma sound_get_user_profile (get_chat : Z → option User) (now uid : Z) (w : World) :
  sound_world w → sound_world (get_user_profile get_chat now uid w).2.
Proof.
  intros Hw. unfold get_user_profile.
  destruct (negb (py_in uid (user_profiles w))); [|done].
  destruct (get_chat uid) as [usr|]; [|done].
  by apply (sound_frame w).
Qed.

Lemma alter_missing `{Countable K} {V} (f : V → V) (k : K) (m : gmap K V) :
  m !! k = None → alter f k m = m.
Proof.
  intros Hk. apply map_eq. intros j. destruct (decide (j = k)) as [->|Hne].
  - by rewrite lookup_alter_eq, Hk.
  - by rewrite lookup_alter_ne.
Qed.

Lemma alter_alter_as_insert `{Countable K} {V} (f g : V → V) (k : K) (m : gmap K V) (v : V) :
  m !! k = Some v → alter f k (alter g k m) = <[k := f (g v)]> m.
Proof.
  intros Hk. rewrite (alter_as_insert g _ _ _ Hk).
  by rewrite (alter_as_insert f k _ _ (lookup_insert_eq _ _ _)), insert_insert_eq.
Qed.

(** A write through [update_session] that keeps what the invariants look
    at. *)
Lemma sound_alter_session (w : World) (sid : string) (f : StudySession → StudySession) :
  sound_world w →
  (∀ s, group_sessions w !! sid = Some s →
        session_ok w sid (f s) ∧ timer_task (f s) = timer_task s ∧
        is_active (f s) = is_active s ∧ chat_id (f s) = chat_id s) →
  sound_world (update_session sid f w).
Proof.
  intros Hw Hf. unfold update_session.
  destruct (group_sessions w !! sid) as [s|] eqn:Hs.
  - rewrite (alter_as_insert _ _ _ _ Hs). destruct (Hf s eq_refl) as (Hok & Ht & Ha & Hc).
    by apply (sound_update_session w sid s).
  - rewrite (alter_missing _ _ _ Hs). by apply (sound_frame w).
Qed.

Lemma sound_start_session_group (now loop_time rnd chat : Z) (from_user : User)
    (member : option ChatMemberStatus) (sent : option Z) (pin_ok : bool) (w : World) :
  sound_world w →
  group_sessions w !! generate_session_id now rnd chat = None →
  sound_world (start_session_group now loop_time rnd chat from_user member sent pin_ok w).2.
Proof.
  intros Hw Hnew. unfold start_session_group.
  destruct member as [st|]; [|done].
  destruct (negb (is_admin st)); [done|].
  destruct (get_active_session chat w); [done|].
  unfold create_study_session. cbv zeta.
  set (sid := generate_session_id now rnd chat) in *.
  set (session := mkStudySession sid chat (tg_id from_user) (get_display_name from_user) []
                    None loop_time (55 * 60) true false now (mkSessionStats 0 0 0 0) None).
  match goal with |- context [set_bot_stats ?b ?w0] => set (w1 := set_bot_stats b w0) end.
  assert (Hw1 : sound_world w1).
  { apply (sound_frame
             (mkWorld (<[sid := session]> (group_sessions w)) (user_profiles w)
                (<[chat_id session := sid]> (active_sessions w)) (bot_stats w) (tasks w)));
      [done|done|done|].
    apply sound_fresh; try done.
    split; [done|]. split; [apply NoDup_nil_2|]. exists 55. simpl. lia. }
  assert (Hcosmetic : ∀ (f : StudySession → StudySession) w',
            sound_world w' →
            (∀ s, session_id (f s) = session_id s ∧ participants (f s) = participants s ∧
                  time_left (f s) = time_left s ∧ is_active (f s) = is_active s ∧
                  timer_task (f s) = timer_task s ∧ chat_id (f s) = chat_id s) →
            sound_world (update_session sid f w')).
  { intros f w' Hw' Hf. apply sound_alter_session; [done|]. intros s Hs.
    destruct (Hf s) as (Hf1 & Hf2 & Hf3 & Hf4 & Hf5 & Hf6).
    destruct (sessions_ok w' Hw' sid s Hs) as [(Hid & Hnd & Htime) Htm].
    split_and!; try done. split.
    - unfold record_ok. by rewrite Hf1, Hf2, Hf3, Hf4.
    - unfold timer_ok. by rewrite Hf5, Hf2. }
  simpl. destruct sent as [mid|]; [|done]. simpl.
  destruct pin_ok.
  - apply Hcosmetic; [|done]. by apply Hcosmetic.
  - by apply Hcosmetic.
Qed.

Lemma sound_start_session_info (now loop_time rnd : Z) (chat_type : string) (chat : Z)
    (user : User) (edit_ok : bool) (w : World) :
  sound_world w →
  group_sessions w !! generate_session_id now rnd chat = None →
  sound_world (start_session_info now loop_time rnd chat_type chat user edit_ok w).
Proof.
  intros Hw Hnew. unfold start_session_info.
  destruct (bool_decide (chat_type ∈ ["group"; "supergroup"])); [done|]. cbv zeta.
  set (sid := generate_session_id now rnd chat) in *.
  set (session := mkStudySession sid chat (tg_id user) (get_display_name user)
                    [(tg_id user, mkParticipant (get_display_name user) now true)]
                    None loop_time (55 * 60) true false now (mkSessionStats 1 0 0 0) None).
  match goal with |- context [set_bot_stats ?b ?w0] => set (w3 := set_bot_stats b w0) end.
  assert (Hr : record_ok sid session).
  { split; [done|]. split; [apply NoDup_singleton|]. exists 55. simpl. lia. }
  assert (Hw3 : sound_world w3).
  { apply (sound_frame
             (mkWorld (<[sid := session]> (group_sessions w)) (user_profiles w)
                (<[chat_id session := sid]> (active_sessions w)) (bot_stats w) (tasks w)));
      [done|done|done|].
    by apply sound_fresh. }
  destruct edit_ok; [|done].
  unfold create_task, update_session. simpl.
  rewrite (alter_as_insert _ sid _ _ (lookup_insert_eq _ _ _)).
  apply (sound_spawn w3 sid session (set_timer_task (Some (length (tasks w))) session)
           PrivateTimer); try done.
  subst w3. simpl. apply lookup_insert_eq.
Qed.

(** The two timer coroutines do the same to the state. *)
Lemma private_session_timer_as_group (now : Z) (i : nat) (sid : string) (w : World) :
  private_session_timer now i sid w = group_session_timer now i sid w.
Proof. reflexivity. Qed.

(** What a wake-up of a live timer does to a sound world: a minute is
    taken off, and the session that reaches zero is ended. *)
Lemma wake_live (now : Z) (i : nat) (w : World) (t : Task) :
  sound_world w →
  tasks w !! i = Some t →
  task_done t = false →
  ∃ s, group_sessions w !! task_arg t = Some s ∧
       timer_task s = Some i ∧ is_active s = true ∧
       wake now i w =
       let s1 := set_last_update now (set_time_left (time_left s - 60) s) in
       if time_left s - 60 <=? 0
       then mkWorld (<[task_arg t := set_is_active false s1]> (group_sessions w))
              (user_profiles w) (delete (chat_id s) (active_sessions w)) (bot_stats w)
              (alter mark_done i (tasks w))
       else set_group_sessions (<[task_arg t := s1]> (group_sessions w)) w.
Proof.
  intros Hw Hi Hlive. destruct (tasks_ok w Hw i t Hi Hlive) as (s & Hs & Ht & Ha).
  exists s. split_and!; [done|done|done|].
  unfold wake. rewrite Hi, Hlive.
  assert (Hbody : group_session_timer now i (task_arg t) w =
            let s1 := set_last_update now (set_time_left (time_left s - 60) s) in
            if time_left s - 60 <=? 0
            then mkWorld (<[task_arg t := set_is_active false s1]> (group_sessions w))
                   (user_profiles w) (delete (chat_id s) (active_sessions w)) (bot_stats w)
                   (alter mark_done i (tasks w))
            else set_group_sessions (<[task_arg t := s1]> (group_sessions w)) w).
  { unfold group_session_timer. rewrite Hs, Ha. cbn [negb]. cbv zeta.
    destruct (time_left s - 60 <=? 0).
    - unfold end_group_session_automatically, update_session. simpl.
      rewrite lookup_alter_eq, Hs. simpl. unfold finish, set_tasks. simpl.
      rewrite del_if_present_delete. f_equal.
      by rewrite (alter_alter_as_insert _ _ _ _ _ Hs).
    - unfold update_session. by rewrite (alter_as_insert _ _ _ _ Hs). }
  destruct (task_coro t); [rewrite private_session_timer_as_group|]; exact Hbody.
Qed.

Lemma sound_wake (now : Z) (i : nat) (w : World) :
  sound_world w → sound_world (wake now i w).
Proof.
  intros Hw. destruct (tasks w !! i) as [t|] eqn:Hi; [|by unfold wake; rewrite Hi].
  destruct (task_done t) eqn:Hlive; [by unfold wake; rewrite Hi, Hlive|].
  destruct (wake_live now i w t Hw Hi Hlive) as (s & Hs & Ht & Ha & ->). cbv zeta.
  destruct (sessions_ok w Hw (task_arg t) s Hs) as [(Hid & Hnd & k & Hk & Hrange & Hpos) Htm].
  specialize (Hpos Ha).
  destruct (time_left s - 60 <=? 0) eqn:Hz.
  - apply Z.leb_le in Hz.
    apply (sound_terminate w (task_arg t) s); try done.
    + split; [done|]. split; [done|]. exists (k - 1). simpl. lia.
    + right. by exists i.
  - apply Z.leb_gt in Hz.
    apply (sound_update_session w (task_arg t) s); try done.
    split; [|done]. split; [done|]. split; [done|]. exists (k - 1). simpl. lia.
Qed.

(** Every handler and every wake-up keeps a sound world sound. *)
Lemma sound_handle (get_chat : Z → option User) (int : string → option Z) (e : Event)
    (w : World) :
  sound_world w → draws_unused_id e w → sound_world (handle get_chat int e w).
Proof.
  intros Hw Hnew. destruct e; simpl.
  - by apply sound_start_session_group.
  - by apply sound_start_session_info.
  - by apply sound_join_session.
  - by apply sound_extend_session.
  - by rewrite end_session_user_changes_nothing.
  - by apply sound_end_session_callback.
  - by apply sound_get_user_profile.
  - by apply sound_wake.
Qed.

Lemma reaches_sound (get_chat : Z → option User) (int : string → option Z) (w0 w : World) :
  sound_world w0 → reaches get_chat int w0 w → sound_world w.
Proof. intros Hw0 Hr. induction Hr as [|w e Hr IH Hnew]; [done|]. by apply sound_handle. Qed.

Lemma reachable_sound (get_chat : Z → option User) (int : string → option Z) (w : World) :
  reachable get_chat int w → sound_world w.
Proof. apply reaches_sound, sound_initial_world. Qed.

(** ** What a step can do to a record and to the tasks *)

Lemma record_evolves_refl (w' : World) (sid : string) (s : StudySession) :
  record_evolves w' sid s s.
Proof. split_and!; try done; [by exists []; rewrite app_nil_r|by left]. Qed.

Lemma tasks_evolve_refl (w w' : World) : tasks w' = tasks w → tasks_evolve w w'.
Proof. intros Ht i t Hi. exists t. by rewrite Ht. Qed.

Lemma tasks_evolve_snoc (w w' : World) (t0 : Task) :
  tasks w' = tasks w ++ [t0] → tasks_evolve w w'.
Proof. intros Ht i t Hi. exists t. rewrite Ht. split; [by apply lookup_app_l_Some|done]. Qed.

Lemma tasks_evolve_done (w w' : World) (i0 : nat) :
  tasks w' = alter mark_done i0 (tasks w) → tasks_evolve w w'.
Proof.
  intros Ht i t Hi. rewrite Ht. destruct (decide (i0 = i)) as [->|Hne].
  - exists (mark_done t). by rewrite list_lookup_alter_eq, Hi.
  - exists t. by rewrite list_lookup_alter_ne.
Qed.

Lemma join_session_evolves (now : Z) (data : string) (user : User) (w : World) (sid : string)
    (s : StudySession) :
  group_sessions w !! sid = Some s →
  let w' := (join_session now data user w).2 in
  tasks_evolve w w' ∧
  ∃ s', group_sessions w' !! sid = Some s' ∧ record_evolves w' sid s s'.
Proof.
  intros Hs w'. subst w'.
  assert (Hsame : ∀ o, join_session now data user w = (o, w) →
            tasks_evolve w (join_session now data user w).2 ∧
            ∃ s', group_sessions (join_session now data user w).2 !! sid = Some s' ∧
                  record_evolves (join_session now data user w).2 sid s s').
  { intros o ->. split; [by apply tasks_evolve_refl|].
    exists s. split; [done|apply record_evolves_refl]. }
  destruct (split underscore (Some 1%nat) data !! 1%nat) as [sid0|] eqn:Hd;
    [|apply (Hsame JoinError); by unfold join_session; rewrite Hd].
  destruct (group_sessions w !! sid0) as [s0|] eqn:Hs0;
    [|by apply (Hsame SessionNotFound), join_session_unknown with sid0].
  destruct (is_active s0) eqn:Ha;
    [|by apply (Hsame SessionEnded), join_session_ended with sid0 s0].
  destruct (decide (tg_id user ∈ keys (participants s0))) as [Hin|Hin];
    [by apply (Hsame AlreadyJoined), join_session_already with sid0 s0|].
  rewrite (join_session_joined now data user w sid0 s0 Hd Hs0 Ha Hin). cbn [snd].
  split.
  - destruct (spawns_timer _ _ _); [by eapply tasks_evolve_snoc|by apply tasks_evolve_refl].
  - simpl. destruct (decide (sid0 = sid)) as [->|Hne].
    + rewrite lookup_insert_eq. assert (s0 = s) as -> by congruence.
      eexists. split; [done|]. unfold joined_record.
      split_and!; try done; [by eexists|]. simpl.
      destruct (spawns_timer _ _ _); [|by left].
      right. eexists. split; [done|]. by apply list_lookup_middle.
    + rewrite lookup_insert_ne by done. exists s. split; [done|apply record_evolves_refl].
Qed.

Lemma handle_evolves (get_chat : Z → option User) (int : string → option Z) (e : Event)
    (w : World) (sid : string) (s : StudySession) :
  sound_world w → draws_unused_id e w →
  group_sessions w !! sid = Some s →
  tasks_evolve w (handle get_chat int e w) ∧
  ∃ s', group_sessions (handle get_chat int e w) !! sid = Some s' ∧
        record_evolves (handle get_chat int e w) sid s s'.
Proof.
  intros Hw Hnew Hs.
  assert (Hsame : ∀ w', tasks w' = tasks w → group_sessions w' !! sid = Some s →
            tasks_evolve w w' ∧
            ∃ s', group_sessions w' !! sid = Some s' ∧ record_evolves w' sid s s').
  { intros w' Ht Hl. split; [by apply tasks_evolve_refl|].
    exists s. split; [done|apply record_evolves_refl]. }
  destruct e; simpl in *.
  - (* /startsession *)
    assert (Hne : generate_session_id now rnd chat ≠ sid) by (intros Heq; rewrite Heq in Hnew; congruence).
    unfold start_session_group.
    destruct member as [st|]; [|by apply Hsame].
    destruct (negb (is_admin st)); [by apply Hsame|].
    destruct (get_active_session chat w); [by apply Hsame|].
    unfold create_study_session. cbv zeta. simpl.
    destruct sent as [mid|]; simpl.
    + destruct pin_ok; apply Hsame; try done; simpl;
        by rewrite ?lookup_alter_ne, lookup_insert_ne.
    + apply Hsame; [done|]. simpl. by rewrite lookup_insert_ne.
  - (* the private start button *)
    assert (Hne : generate_session_id now rnd chat ≠ sid) by (intros Heq; rewrite Heq in Hnew; congruence).
    unfold start_session_info.
    destruct (bool_decide (chat_type ∈ ["group"; "supergroup"])); [by apply Hsame|].
    cbv zeta. destruct edit_ok.
    + split; [by eapply tasks_evolve_snoc|].
      exists s. split; [|apply record_evolves_refl].
      simpl. by rewrite lookup_alter_ne, lookup_insert_ne.
    + apply Hsame; [done|]. simpl. by rewrite lookup_insert_ne.
  - (* join *)
    by apply join_session_evolves.
  - (* extend *)
    unfold extend_session. cbv zeta.
    destruct (split underscore None data !! 2%nat) as [sid0|]; [|by apply Hsame].
    destruct (split underscore None data !! 3%nat ≫= int) as [uid|]; [|by apply Hsame].
    destruct (negb (tg_id from_user =? uid)); [by apply Hsame|].
    destruct (negb (py_in sid0 (group_sessions w))); [by apply Hsame|].
    split; [by apply tasks_evolve_refl|]. simpl.
    destruct (decide (sid0 = sid)) as [->|Hne].
    + rewrite !lookup_alter_eq, Hs. simpl. eexists. split; [done|].
      split_and!; try done; [by exists []; rewrite app_nil_r|by left].
    + rewrite !lookup_alter_ne by done. exists s. split; [done|apply record_evolves_refl].
  - (* end my session *)
    rewrite end_session_user_changes_nothing. by apply Hsame.
  - (* end *)
    unfold end_session_callback.
    destruct (split underscore (Some 2%nat) data !! 2%nat) as [sid0|]; [|by apply Hsame].
    destruct member as [st|]; [|by apply Hsame].
    destruct (negb (is_admin st)); [by apply Hsame|].
    assert (Hend : tasks_evolve w (end_session get_chat now sid0 w).2 ∧
              ∃ s', group_sessions (end_session get_chat now sid0 w).2 !! sid = Some s' ∧
                    record_evolves (end_session get_chat now sid0 w).2 sid s s').
    { destruct (group_sessions w !! sid0) as [s0|] eqn:Hs0;
        [|rewrite (end_session_unknown get_chat now sid0 w Hs0); by apply Hsame].
      destruct (end_session_found get_chat now sid0 w s0 Hs0)
        as (w3 & -> & Hg & _ & _ & _ & Ht). cbn [snd].
      destruct (rollup_frame get_chat now (55 * 60 - time_left s0)
                  (keys (participants s0)) w3) as (Hrg & _ & Hrt).
      split.
      - destruct (timer_task s0) as [i|]; [|apply tasks_evolve_refl; congruence].
        destruct (timer_live (Some i) w);
          [apply (tasks_evolve_done _ _ i)|apply tasks_evolve_refl]; congruence.
      - rewrite Hrg, Hg. destruct (decide (sid0 = sid)) as [->|Hne].
        + rewrite lookup_alter_eq, Hs. simpl. eexists. split; [done|].
          split_and!; try done; [by exists []; rewrite app_nil_r|by left].
        + rewrite lookup_alter_ne by done. exists s. split; [done|apply record_evolves_refl]. }
    by destruct (end_session get_chat now sid0 w) as [[session|] w1].
  - (* a profile look-up *)
    unfold get_user_profile.
    destruct (negb (py_in uid (user_profiles w))); [|by apply Hsame].
    destruct (get_chat uid); by apply Hsame.
  - (* a timer wakes *)
    destruct (tasks w !! i) as [t|] eqn:Hi; [|unfold wake; rewrite Hi; by apply Hsame].
    destruct (task_done t) eqn:Hlive; [unfold wake; rewrite Hi, Hlive; by apply Hsame|].
    destruct (wake_live now i w t Hw Hi Hlive) as (s0 & Hs0 & Ht0 & Ha0 & ->). cbv zeta.
    destruct (time_left s0 - 60 <=? 0).
    + split; [by eapply tasks_evolve_done|]. simpl.
      destruct (decide (task_arg t = sid)) as [Heq|Hne].
      * rewrite Heq in *. rewrite lookup_insert_eq. assert (s0 = s) as -> by congruence.
        eexists. split; [done|].
        split_and!; try done; [by exists []; rewrite app_nil_r|by left].
      * rewrite lookup_insert_ne by done. exists s. split; [done|apply record_evolves_refl].
    + split; [by apply tasks_evolve_refl|]. simpl.
      destruct (decide (task_arg t = sid)) as [Heq|Hne].
      * rewrite Heq in *. rewrite lookup_insert_eq. assert (s0 = s) as -> by congruence.
        eexists. split; [done|].
        split_and!; try done; [by exists []; rewrite app_nil_r|by left].
      * rewrite lookup_insert_ne by done. exists s. split; [done|apply record_evolves_refl].
Qed.

Lemma group_timed_step (get_chat : Z → option User) (int : string → option Z) (e : Event)
    (w : World) (sid : string) :
  sound_world w → draws_unused_id e w →
  group_timed w sid → group_timed (handle get_chat int e w) sid.
Proof.
  intros Hw Hnew (s & Hs & Hq).
  destruct (handle_evolves get_chat int e w sid s Hw Hnew Hs)
    as (Htasks & s' & Hs' & _ & _ & _ & _ & _ & _ & Htimer).
  exists s'. split; [done|]. intros i t' Hi Hti.
  destruct Htimer as [Hold|(j & Hj & Htj)].
  - rewrite Hold in Hi. destruct (sessions_ok w Hw sid s Hs) as [_ Htm].
    destruct (Htm i Hi) as (t & Ht & _). destruct (Htasks i t Ht) as (t2 & Ht2 & Hco & _).
    assert (t2 = t') as -> by congruence. rewrite Hco. by apply (Hq i).
  - assert (j = i) as -> by congruence.
    assert (t' = mkTask GroupTimer sid false) as -> by congruence. done.
Qed.

Lemma reaches_group_timed (get_chat : Z → option User) (int : string → option Z)
    (w0 w : World) (sid : string) :
  sound_world w0 → group_timed w0 sid → reaches get_chat int w0 w → group_timed w sid.
Proof.
  intros Hw0 Hq Hr. induction Hr as [|w e Hr IH Hnew]; [done|].
  apply group_timed_step; [|done|done]. by apply (reaches_sound get_chat int w0).
Qed.

(** What the group command leaves when it opens a session. *)
Lemma start_session_group_started (now loop_time rnd chat : Z) (from_user : User)
    (member : option ChatMemberStatus) (sent : option Z) (pin_ok : bool) (w0 w1 : World)
    (sid : string) :
  start_session_group now loop_time rnd chat from_user member sent pin_ok w0
    = (Started sid, w1) →
  sid = generate_session_id now rnd chat ∧
  get_active_session chat w0 = None ∧
  tasks w1 = tasks w0 ∧
  active_sessions w1 !! chat = Some sid ∧
  ∃ s, group_sessions w1 !! sid = Some s ∧
       participants s = [] ∧ timer_task s = None ∧ is_active s = true ∧
       time_left s = 55 * 60 ∧ chat_id s = chat ∧ creator_id s = tg_id from_user ∧
       stats s = mkSessionStats 0 0 0 0 ∧ message_id s = sent ∧
       is_pinned s = (bool_decide (is_Some sent) && pin_ok).
Proof.
  unfold start_session_group.
  destruct member as [st|]; [|done].
  destruct (negb (is_admin st)); [done|].
  destruct (get_active_session chat w0); [done|].
  unfold create_study_session. cbv zeta. simpl.
  destruct sent as [mid|]; simpl.
  - destruct pin_ok; intros [= <- <-]; simpl;
      (split_and!; [done|done|done|by rewrite lookup_insert_eq|]);
      rewrite ?lookup_alter_eq, lookup_insert_eq; simpl; eexists; (split; [done|]);
      by split_and!.
  - intros [= <- <-]. simpl.
    split_and!; [done|done|done|by rewrite lookup_insert_eq|].
    rewrite lookup_insert_eq. eexists. split; [done|]. by split_and!.
Qed.

(** A wake-up does not touch a session without a timer. *)
Lemma wake_keeps_untimed (now : Z) (i : nat) (w : World) (sid : string) (s : StudySession) :
  sound_world w →
  group_sessions w !! sid = Some s → timer_task s = None →
  group_sessions (wake now i w) !! sid = Some s.
Proof.
  intros Hw Hs Hnone.
  destruct (tasks w !! i) as [t|] eqn:Hi; [|by unfold wake; rewrite Hi].
  destruct (task_done t) eqn:Hlive; [by unfold wake; rewrite Hi, Hlive|].
  destruct (wake_live now i w t Hw Hi Hlive) as (s0 & Hs0 & Ht0 & _ & ->). cbv zeta.
  assert (Hne : task_arg t ≠ sid) by (intros Heq; rewrite Heq in Hs0; congruence).
  destruct (time_left s0 - 60 <=? 0); simpl; by rewrite lookup_insert_ne.
Qed.

Lemma tick_keeps_untimed (now : Z) (w : World) (sid : string) (s : StudySession) :
  sound_world w →
  group_sessions w !! sid = Some s → timer_task s = None →
  group_sessions (tick now w) !! sid = Some s.
Proof.
  intros Hw Hs Hnone. unfold tick. generalize (seq 0 (length (tasks w))). intros l.
  revert w Hw Hs. induction l as [|i l IH]; intros w Hw Hs; [done|].
  simpl. apply IH; [by apply sound_wake|by apply wake_keeps_untimed].
Qed.

(** The join that makes the count three starts a group timer exactly when
    the session has no live timer. *)
Lemma third_join_starts_timer (now : Z) (data : string) (user : User) (w : World)
    (sid : string) (s : StudySession) :
  split underscore (Some 1%nat) data !! 1%nat = Some sid →
  group_sessions w !! sid = Some s →
  is_active s = true →
  tg_id user ∉ keys (participants s) →
  length (participants s) = 2%nat →
  let w' := (join_session now data user w).2 in
  ∃ s', group_sessions w' !! sid = Some s' ∧ length (participants s') = 3%nat ∧
        if timer_live (timer_task s) w
        then tasks w' = tasks w ∧ timer_task s' = timer_task s
        else tasks w' = tasks w ++ [mkTask GroupTimer sid false] ∧
             timer_task s' = Some (length (tasks w)) ∧
             timer_live (timer_task s') w' = true.
Proof.
  intros Hd Hs Ha Hin Hlen w'. subst w'.
  rewrite (join_session_joined now data user w sid s Hd Hs Ha Hin). cbn [snd]. simpl.
  rewrite lookup_insert_eq. eexists. split; [done|].
  unfold joined_record, spawns_timer. simpl. rewrite length_app, Hlen. simpl.
  split; [done|].
  destruct (timer_live (timer_task s) w); simpl; [done|].
  split_and!; [done|done|]. by rewrite list_lookup_middle.
Qed.

(** C7.  Take a session opened by the group command in a run of the bot
    (with session ids that are not reused) and any later state of the run.
    While the session has fewer than three participants it has no timer
    task, and a tick interval in which every task of the loop is woken
    leaves its record, so its [time_left], as it is.  The join that makes
    the count three starts a group timer for the session; and in any state
    whatever, that join starts one if and only if the session has no live
    timer task, a live one being kept as the only timer. *)
Theorem quorum_gates_the_group_timer
    (get_chat : Z → option User) (int : string → option Z)
    (now loop_time rnd chat : Z) (from_user : User) (member : option ChatMemberStatus)
    (sent : option Z) (pin_ok : bool) (w0 w1 w : World) (sid : string) :
  reachable get_chat int w0 →
  group_sessions w0 !! generate_session_id now rnd chat = None →
  start_session_group now loop_time rnd chat from_user member sent pin_ok w0
    = (Started sid, w1) →
  reaches get_chat int w1 w →
  (∃ s, group_sessions w !! sid = Some s ∧
        ((length (participants s) < 3)%nat →
         timer_task s = None ∧
         ∀ now', group_sessions (tick now' w) !! sid = Some s) ∧
        (∀ now' data user,
           split underscore (Some 1%nat) data !! 1%nat = Some sid →
           is_active s = true → tg_id user ∉ keys (participants s) →
           length (participants s) = 2%nat →
           ∃ s', group_sessions (join_session now' data user w).2 !! sid = Some s' ∧
                 length (participants s') = 3%nat ∧
                 tasks (join_session now' data user w).2
                   = tasks w ++ [mkTask GroupTimer sid false] ∧
                 timer_task s' = Some (length (tasks w)) ∧
                 timer_live (timer_task s') (join_session now' data user w).2 = true)) ∧
  (∀ w2 s2 now' data user,
     split underscore (Some 1%nat) data !! 1%nat = Some sid →
     group_sessions w2 !! sid = Some s2 →
     is_active s2 = true → tg_id user ∉ keys (participants s2) →
     length (participants s2) = 2%nat →
     (tasks (join_session now' data user w2).2 = tasks w2 ++ [mkTask GroupTimer sid false]
      ↔ timer_live (timer_task s2) w2 = false) ∧
     (timer_live (timer_task s2) w2 = true →
      tasks (join_session now' data user w2).2 = tasks w2)).
Proof.
  intros Hr0 Hnew Hstart Hr.
  pose proof (reachable_sound get_chat int w0 Hr0) as Hw0.
  assert (Hw1 : sound_world w1).
  { replace w1 with (handle get_chat int
                       (StartCommand now loop_time rnd chat from_user member sent pin_ok) w0)
      by (simpl; by rewrite Hstart).
    by apply sound_handle. }
  pose proof (reaches_sound get_chat int w1 w Hw1 Hr) as Hw.
  destruct (start_session_group_started _ _ _ _ _ _ _ _ _ _ _ Hstart)
    as (_ & _ & _ & _ & s1 & Hs1 & _ & Hnone1 & _).
  assert (Hq1 : group_timed w1 sid).
  { exists s1. split; [done|]. intros i t Hi. congruence. }
  destruct (reaches_group_timed get_chat int w1 w sid Hw1 Hq1 Hr) as (s & Hs & Hq).
  split.
  - exists s. split; [done|].
    assert (Hbelow : (length (participants s) < 3)%nat → timer_task s = None).
    { intros Hlt. destruct (timer_task s) as [i|] eqn:Hi; [|done]. exfalso.
      destruct (sessions_ok w Hw sid s Hs) as [_ Htm].
      destruct (Htm i Hi) as (t & Hti & _ & Hco).
      specialize (Hco (Hq i t eq_refl Hti)). lia. }
    split.
    + intros Hlt. split; [by apply Hbelow|].
      intros now'. apply tick_keeps_untimed; [done|done|by apply Hbelow].
    + intros now' data user Hd Ha Hin Hlen.
      destruct (third_join_starts_timer now' data user w sid s Hd Hs Ha Hin Hlen)
        as (s' & Hs' & Hlen' & Hif).
      assert (Hnone : timer_task s = None) by (apply Hbelow; lia).
      rewrite Hnone in Hif. simpl in Hif. destruct Hif as (Ht1 & Ht2 & Ht3).
      exists s'. by split_and!.
  - intros w2 s2 now' data user Hd Hs2 Ha Hin Hlen.
    destruct (third_join_starts_timer now' data user w2 sid s2 Hd Hs2 Ha Hin Hlen)
      as (s' & _ & _ & Hif).
    destruct (timer_live (timer_task s2) w2).
    + destruct Hif as [Ht _]. split; [|done]. split; [|done].
      intros Happ. rewrite Ht in Happ. apply (f_equal length) in Happ.
      rewrite length_app in Happ. simpl in Happ. lia.
    + destruct Hif as (Ht & _). split; [|done]. done.
Qed.

Lemma quorum_gates_the_group_timer_witness :
  ∃ s, group_sessions world_joined2 !! room_sid = Some s ∧
       ((length (participants s) < 3)%nat →
        timer_task s = None ∧
        ∀ now', group_sessions (tick now' world_joined2) !! room_sid = Some s).
Proof.
  assert (Hr0 : reachable directory decimal initial_world) by apply reaches_refl.
  assert (Hnew : group_sessions initial_world !! generate_session_id 1000 1234 room = None)
    by reflexivity.
  assert (Hstart : start_session_group 1000 0 1234 room alice (Some ADMINISTRATOR) (Some 55)
                     true initial_world = (Started room_sid, world_opened))
    by (vm_compute; reflexivity).
  assert (Hr : reaches directory decimal world_opened world_joined2).
  { apply (reaches_step directory decimal world_opened world_joined1
             (JoinButton 1020 ("join_" +:+ room_sid) bob)); [|exact I].
    apply (reaches_step directory decimal world_opened world_opened
             (JoinButton 1010 ("join_" +:+ room_sid) alice)); [|exact I].
    apply reaches_refl. }
  destruct (quorum_gates_the_group_timer directory decimal 1000 0 1234 room alice
              (Some ADMINISTRATOR) (Some 55) true initial_world world_opened world_joined2
              room_sid Hr0 Hnew Hstart Hr) as [(s & Hs & Hbelow & _) _].
  exists s. by split.
Defined.

(** ** Consequences for the runs of the bot *)

(** The sample worlds are states of runs. *)
Lemma reaches_world_joined3 (get_chat : Z → option User) (int : string → option Z) :
  reaches get_chat int world_opened world_joined3.
Proof.
  apply (reaches_step get_chat int world_opened world_joined2
           (JoinButton 1030 ("join_" +:+ room_sid) carol)); [|exact I].
  apply (reaches_step get_chat int world_opened world_joined1
           (JoinButton 1020 ("join_" +:+ room_sid) bob)); [|exact I].
  apply (reaches_step get_chat int world_opened world_opened
           (JoinButton 1010 ("join_" +:+ room_sid) alice)); [|exact I].
  apply reaches_refl.
Qed.

Lemma reachable_world_opened (get_chat : Z → option User) (int : string → option Z) :
  reachable get_chat int world_opened.
Proof.
  apply (reaches_step get_chat int initial_world initial_world
           (StartCommand 1000 0 1234 room alice (Some ADMINISTRATOR) (Some 55) true));
    [apply reaches_refl|reflexivity].
Qed.

Lemma reaches_trans (get_chat : Z → option User) (int : string → option Z) (w0 w1 w2 : World) :
  reaches get_chat int w0 w1 → reaches get_chat int w1 w2 → reaches get_chat int w0 w2.
Proof. intros H01 H12. induction H12 as [|w e H12 IH Hnew]; [done|]. by apply reaches_step. Qed.

Lemma reachable_world_joined3 (get_chat : Z → option User) (int : string → option Z) :
  reachable get_chat int world_joined3.
Proof.
  apply (reaches_trans get_chat int initial_world world_opened);
    [apply reachable_world_opened|apply reaches_world_joined3].
Qed.

Lemma reachable_world_private2 (get_chat : Z → option User) (int : string → option Z) :
  reachable get_chat int world_private2.
Proof.
  apply (reaches_step get_chat int initial_world world_private
           (StartButton 5060 60 8765 "private" 42 dana true)); [|by vm_compute].
  apply (reaches_step get_chat int initial_world initial_world
           (StartButton 5000 0 4321 "private" 42 dana true)); [|reflexivity].
  apply reaches_refl.
Qed.

(** X1.  In a run of the bot, what [get_active_session] returns for a chat
    is an active session of that chat, stored under its own id. *)
Theorem get_active_session_is_active
    (get_chat : Z → option User) (int : string → option Z) (w : World) (chat : Z)
    (s : StudySession) :
  reachable get_chat int w →
  get_active_session chat w = Some s →
  is_active s = true ∧ chat_id s = chat ∧ group_sessions w !! session_id s = Some s.
Proof.
  intros Hr Hget. pose proof (reachable_sound get_chat int w Hr) as Hw.
  unfold get_active_session in Hget.
  destruct (active_sessions w !! chat) as [sid|] eqn:Hc; [|done].
  destruct (indexes_ok w Hw chat sid Hc) as (s0 & Hs0 & Hch & Ha).
  assert (s0 = s) as -> by congruence.
  destruct (sessions_ok w Hw sid s Hs0) as [(Hid & _) _].
  by rewrite Hid.
Qed.

Lemma get_active_session_is_active_witness :
  is_active session_joined3 = true ∧ chat_id session_joined3 = room ∧
  group_sessions world_joined3 !! session_id session_joined3 = Some session_joined3.
Proof.
  apply (get_active_session_is_active directory decimal world_joined3 room session_joined3).
  - apply reachable_world_joined3.
  - vm_compute; reflexivity.
Defined.

(** X2.  In a run of the bot the countdown of every session is a whole
    number of minutes between 0 and 55, and it is positive as long as the
    session is active; so the time a manual end rolls up,
    [55 * 60 - time_left], lies between 0 and 3300 seconds. *)
Theorem time_left_stays_in_range
    (get_chat : Z → option User) (int : string → option Z) (w : World) (sid : string)
    (s : StudySession) :
  reachable get_chat int w →
  group_sessions w !! sid = Some s →
  (∃ k, time_left s = 60 * k ∧ 0 ≤ k ≤ 55) ∧
  (is_active s = true → 60 ≤ time_left s) ∧
  0 ≤ 55 * 60 - time_left s ≤ 3300.
Proof.
  intros Hr Hs. pose proof (reachable_sound get_chat int w Hr) as Hw.
  destruct (sessions_ok w Hw sid s Hs) as [(_ & _ & k & Hk & Hrange & Hpos) _].
  split_and!; [by exists k| |lia|lia].
  intros Ha. specialize (Hpos Ha). lia.
Qed.

Lemma time_left_stays_in_range_witness :
  (∃ k, time_left session_joined3 = 60 * k ∧ 0 ≤ k ≤ 55) ∧
  (is_active session_joined3 = true → 60 ≤ time_left session_joined3) ∧
  0 ≤ 55 * 60 - time_left session_joined3 ≤ 3300.
Proof.
  apply (time_left_stays_in_range directory decimal world_joined3 room_sid).
  - apply reachable_world_joined3.
  - vm_compute; reflexivity.
Defined.

(** X3.  In a run of the bot a session has at most one timer task that is
    not done: two live tasks with the same session id are one task, and it
    is the one the record's [timer_task] names. *)
Theorem one_live_timer_per_session
    (get_chat : Z → option User) (int : string → option Z) (w : World) (i j : nat)
    (t t' : Task) :
  reachable get_chat int w →
  tasks w !! i = Some t → task_done t = false →
  tasks w !! j = Some t' → task_done t' = false →
  task_arg t = task_arg t' →
  i = j ∧ ∃ s, group_sessions w !! task_arg t = Some s ∧ timer_task s = Some i.
Proof.
  intros Hr Hi Hlive Hj Hlive' Harg. pose proof (reachable_sound get_chat int w Hr) as Hw.
  destruct (tasks_ok w Hw i t Hi Hlive) as (s & Hs & Ht & _).
  destruct (tasks_ok w Hw j t' Hj Hlive') as (s' & Hs' & Ht' & _).
  rewrite <- Harg in Hs'. assert (s' = s) as -> by congruence.
  split; [congruence|]. by exists s.
Qed.

Lemma one_live_timer_per_session_witness :
  (0 = 0)%nat ∧
  ∃ s, group_sessions world_joined3 !! room_sid = Some s ∧ timer_task s = Some 0%nat.
Proof.
  apply (one_live_timer_per_session directory decimal world_joined3 0 0
           (mkTask GroupTimer room_sid false) (mkTask GroupTimer room_sid false));
    try reflexivity.
  apply reachable_world_joined3.
Defined.

(** X4.  In a run of the bot no timer outlives its session: every task that
    counts down an ended session is done, and a task that is not done
    belongs to an active session. *)
Theorem no_timer_outlives_its_session
    (get_chat : Z → option User) (int : string → option Z) (w : World) (sid : string)
    (s : StudySession) (i : nat) (t : Task) :
  reachable get_chat int w →
  group_sessions w !! sid = Some s →
  tasks w !! i = Some t → task_arg t = sid →
  (is_active s = false → task_done t = true) ∧
  (task_done t = false → is_active s = true ∧ timer_task s = Some i).
Proof.
  intros Hr Hs Hi Harg. pose proof (reachable_sound get_chat int w Hr) as Hw.
  assert (Hlive : task_done t = false → is_active s = true ∧ timer_task s = Some i).
  { intros Hnd. destruct (tasks_ok w Hw i t Hi Hnd) as (s0 & Hs0 & Ht0 & Ha0).
    rewrite Harg in Hs0. assert (s0 = s) as -> by congruence. done. }
  split; [|done]. intros Ha. destruct (task_done t); [done|].
  destruct (Hlive eq_refl) as [Ha' _]. congruence.
Qed.

Lemma reachable_world_closed : reachable directory decimal world_closed.
Proof. apply reaches_step; [apply reachable_world_joined3|exact I]. Qed.

Lemma no_timer_outlives_its_session_witness :
  (is_active session_closed = false → task_done (mkTask GroupTimer room_sid true) = true) ∧
  (task_done (mkTask GroupTimer room_sid true) = false →
   is_active session_closed = true ∧ timer_task session_closed = Some 0%nat).
Proof.
  apply (no_timer_outlives_its_session directory decimal world_closed room_sid
           session_closed 0 (mkTask GroupTimer room_sid true)).
  - apply reachable_world_closed.
  - vm_compute; reflexivity.
  - vm_compute; reflexivity.
  - reflexivity.
Defined.

(** X5.  Along a run of the bot a record is never removed or replaced: its
    id, chat and creator stay, participants are only appended, and a
    session that has ended stays ended. *)
Theorem records_persist_along_runs
    (get_chat : Z → option User) (int : string → option Z) (w0 w : World) (sid : string)
    (s : StudySession) :
  reachable get_chat int w0 →
  reaches get_chat int w0 w →
  group_sessions w0 !! sid = Some s →
  ∃ s', group_sessions w !! sid = Some s' ∧
        session_id s' = session_id s ∧ chat_id s' = chat_id s ∧
        creator_id s' = creator_id s ∧ creator_name s' = creator_name s ∧
        (∃ more, participants s' = participants s ++ more) ∧
        (is_active s = false → is_active s' = false).
Proof.
  intros Hr0 Hr Hs. pose proof (reachable_sound get_chat int w0 Hr0) as Hw0.
  induction Hr as [|w e Hr IH Hnew].
  - exists s. split_and!; try done. exists []. by rewrite app_nil_r.
  - destruct IH as (s1 & Hs1 & Hid & Hch & Hcr & Hcn & (more & Hp) & Ha).
    pose proof (reaches_sound get_chat int w0 w Hw0 Hr) as Hw.
    destruct (handle_evolves get_chat int e w sid s1 Hw Hnew Hs1)
      as (_ & s' & Hs' & Hid' & Hch' & Hcr' & Hcn' & (more' & Hp') & Ha' & _).
    exists s'. split_and!; try congruence.
    + exists (more ++ more'). by rewrite Hp', Hp, app_assoc.
    + intros Hs0. apply Ha'. by apply Ha.
Qed.

Lemma records_persist_along_runs_witness :
  ∃ s', group_sessions world_closed !! room_sid = Some s' ∧
        session_id s' = room_sid ∧ chat_id s' = room ∧
        (∃ more, participants s' = [] ++ more).
Proof.
  assert (Hs : group_sessions world_opened !! room_sid =
               Some (mkStudySession room_sid room 11 "@alice" [] (Some 55) 0 3300 true true
                       1000 (mkSessionStats 0 0 0 0) None))
    by (vm_compute; reflexivity).
  destruct (records_persist_along_runs directory decimal world_opened world_closed room_sid _
              (reachable_world_opened directory decimal)
              (reaches_step directory decimal world_opened world_joined3
                 (EndButton 4330 ("end_session_" +:+ room_sid) (Some ADMINISTRATOR))
                 (reaches_world_joined3 directory decimal) I)
              Hs) as (s' & Hs' & Hid & Hch & _ & _ & Hp & _).
  exists s'. by split_and!.
Defined.

(** ** Callback data *)

(** X7.  The buttons of a session address it: whatever the session id,
    underscores included, the handlers of the join, end and status buttons
    recover the id from the callback data the keyboards are built with. *)
Theorem session_buttons_round_trip (sid : string) :
  split underscore (Some 1%nat) ("join_" +:+ sid) !! 1%nat = Some sid ∧
  split underscore (Some 2%nat) ("end_session_" +:+ sid) !! 2%nat = Some sid ∧
  split underscore (Some 2%nat) ("session_status_" +:+ sid) !! 2%nat = Some sid ∧
  (∀ w, session_status ("session_status_" +:+ sid) w =
        (λ s, mkStatusView (time_left s) (length (participants s)) (is_active s)
                (last_update s) (name <$> (participants s).*2)) <$> group_sessions w !! sid).
Proof.
  split_and!.
  - apply split_join_data.
  - apply split_end_session_data.
  - apply split_session_status_data.
  - intros w. unfold session_status. rewrite split_session_status_data. simpl.
    by destruct (group_sessions w !! sid).
Qed.

(** ** Every change of a record *)

Lemma handle_records (get_chat : Z → option User) (int : string → option Z) (e : Event)
    (w : World) (sid : string) (s' : StudySession) :
  sound_world w → draws_unused_id e w →
  group_sessions (handle get_chat int e w) !! sid = Some s' →
  (∃ s, group_sessions w !! sid = Some s ∧ record_step w s s') ∨
  (group_sessions w !! sid = None ∧ born sid s').
Proof.
  intros Hw Hnew.
  assert (Hsame : ∀ w', group_sessions w' = group_sessions w →
            group_sessions w' !! sid = Some s' →
            (∃ s, group_sessions w !! sid = Some s ∧ record_step w s s') ∨
            (group_sessions w !! sid = None ∧ born sid s')).
  { intros w' -> Hl. left. exists s'. split; [done|constructor]. }
  destruct e; simpl in *.
  - (* /startsession *)
    unfold start_session_group.
    destruct member as [st|]; [|by apply Hsame].
    destruct (negb (is_admin st)); [by apply Hsame|].
    destruct (get_active_session chat w); [by apply Hsame|].
    unfold create_study_session. cbv zeta. simpl.
    destruct (decide (generate_session_id now rnd chat = sid)) as [<-|Hne].
    + destruct sent as [mid|]; [destruct pin_ok|]; simpl;
        rewrite ?lookup_alter_eq, lookup_insert_eq; simpl; intros [= <-];
        right; (split; [done|]); by eapply born_in_group.
    + destruct sent as [mid|]; [destruct pin_ok|]; simpl;
        rewrite ?lookup_alter_ne, lookup_insert_ne by done; by apply Hsame.
  - (* the private start button *)
    unfold start_session_info.
    destruct (bool_decide (chat_type ∈ ["group"; "supergroup"])); [by apply Hsame|].
    cbv zeta.
    destruct (decide (generate_session_id now rnd chat = sid)) as [<-|Hne].
    + destruct edit_ok; simpl; rewrite ?lookup_alter_eq, lookup_insert_eq; simpl;
        intros [= <-]; right; (split; [done|]); by eapply born_in_private.
    + destruct edit_ok; simpl; rewrite ?lookup_alter_ne, lookup_insert_ne by done;
        by apply Hsame.
  - (* join *)
    destruct (split underscore (Some 1%nat) data !! 1%nat) as [sid0|] eqn:Hd;
      [|apply Hsame; by unfold join_session; rewrite Hd].
    destruct (group_sessions w !! sid0) as [s0|] eqn:Hs0;
      [|rewrite (join_session_unknown now data user w sid0 Hd Hs0); by apply Hsame].
    destruct (is_active s0) eqn:Ha;
      [|rewrite (join_session_ended now data user w sid0 s0 Hd Hs0 Ha); by apply Hsame].
    destruct (decide (tg_id user ∈ keys (participants s0))) as [Hin|Hin];
      [rewrite (join_session_already now data user w sid0 s0 Hd Hs0 Ha Hin); by apply Hsame|].
    rewrite (join_session_joined now data user w sid0 s0 Hd Hs0 Ha Hin). simpl.
    destruct (decide (sid0 = sid)) as [->|Hne].
    + rewrite lookup_insert_eq. intros [= <-]. left. exists s0. split; [done|].
      by apply step_join.
    + rewrite lookup_insert_ne by done. by apply Hsame.
  - (* extend *)
    unfold extend_session. cbv zeta.
    destruct (split underscore None data !! 2%nat) as [sid0|]; [|by apply Hsame].
    destruct (split underscore None data !! 3%nat ≫= int) as [uid|]; [|by apply Hsame].
    destruct (negb (tg_id from_user =? uid)); [by apply Hsame|].
    destruct (negb (py_in sid0 (group_sessions w))); [by apply Hsame|]. simpl.
    destruct (decide (sid0 = sid)) as [->|Hne].
    + rewrite !lookup_alter_eq. destruct (group_sessions w !! sid) as [s|]; [|done].
      simpl. intros [= <-]. left. exists s. split; [done|]. apply step_extend.
    + rewrite !lookup_alter_ne by done. by apply Hsame.
  - (* end my session *)
    rewrite end_session_user_changes_nothing. by apply Hsame.
  - (* end *)
    unfold end_session_callback.
    destruct (split underscore (Some 2%nat) data !! 2%nat) as [sid0|]; [|by apply Hsame].
    destruct member as [st|]; [|by apply Hsame].
    destruct (negb (is_admin st)); [by apply Hsame|].
    assert (Hend : group_sessions (end_session get_chat now sid0 w).2 !! sid = Some s' →
              (∃ s, group_sessions w !! sid = Some s ∧ record_step w s s') ∨
              (group_sessions w !! sid = None ∧ born sid s')).
    { destruct (group_sessions w !! sid0) as [s0|] eqn:Hs0;
        [|rewrite (end_session_unknown get_chat now sid0 w Hs0); by apply Hsame].
      destruct (end_session_found get_chat now sid0 w s0 Hs0) as (w3 & -> & Hg & _).
      cbn [snd].
      destruct (rollup_frame get_chat now (55 * 60 - time_left s0)
                  (keys (participants s0)) w3) as (-> & _ & _).
      rewrite Hg. destruct (decide (sid0 = sid)) as [->|Hne].
      - rewrite lookup_alter_eq, Hs0. simpl. intros [= <-]. left. exists s0.
        split; [done|]. apply step_end.
      - rewrite lookup_alter_ne by done. intros Hl. left. exists s'.
        split; [done|]. apply step_same. }
    by destruct (end_session get_chat now sid0 w) as [[session|] w1].
  - (* a profile look-up *)
    unfold get_user_profile.
    destruct (negb (py_in uid (user_profiles w))); [|by apply Hsame].
    destruct (get_chat uid); by apply Hsame.
  - (* a timer wakes *)
    destruct (tasks w !! i) as [t|] eqn:Hi; [|unfold wake; rewrite Hi; by apply Hsame].
    destruct (task_done t) eqn:Hlive; [unfold wake; rewrite Hi, Hlive; by apply Hsame|].
    destruct (wake_live now i w t Hw Hi Hlive) as (s0 & Hs0 & Ht0 & Ha0 & ->). cbv zeta.
    destruct (time_left s0 - 60 <=? 0) eqn:Hz; simpl.
    + apply Z.leb_le in Hz. destruct (decide (task_arg t = sid)) as [Heq|Hne].
      * rewrite Heq in *. rewrite lookup_insert_eq. intros [= <-]. left. exists s0.
        split; [done|]. by apply step_timeout.
      * rewrite lookup_insert_ne by done. by apply Hsame.
    + apply Z.leb_gt in Hz. destruct (decide (task_arg t = sid)) as [Heq|Hne].
      * rewrite Heq in *. rewrite lookup_insert_eq. intros [= <-]. left. exists s0.
        split; [done|]. apply step_tick; [done|lia].
      * rewrite lookup_insert_ne by done. by apply Hsame.
Qed.

(** A property that holds of the records the start handlers make and is
    kept by every change of a record holds of every record of a run. *)
Lemma records_invariant (P : string → StudySession → Prop)
    (get_chat : Z → option User) (int : string → option Z) :
  (∀ sid s, born sid s → P sid s) →
  (∀ w sid s s', sound_world w → group_sessions w !! sid = Some s →
                 P sid s → record_step w s s' → P sid s') →
  ∀ w, reachable get_chat int w →
  ∀ sid s, group_sessions w !! sid = Some s → P sid s.
Proof.
  intros Hborn Hstep w Hr. induction Hr as [|w e Hr IH Hnew]; [done|].
  intros sid s' Hs'.
  pose proof (reachable_sound get_chat int w Hr) as Hw.
  destruct (handle_records get_chat int e w sid s' Hw Hnew Hs') as [(s & Hs & Hst)|[_ Hb]].
  - apply (Hstep w sid s s'); [done|done|by apply IH|done].
  - by apply Hborn.
Qed.

(** X8.  In a run of the bot [stats.joins] of a session is the number of
    its participants, [stats.leaves] and [stats.completions] are 0 (nothing
    ever increments them), and [stats.extensions] is not negative. *)
Theorem session_stats_count_the_participants
    (get_chat : Z → option User) (int : string → option Z) (w : World) (sid : string)
    (s : StudySession) :
  reachable get_chat int w →
  group_sessions w !! sid = Some s →
  joins (stats s) = Z.of_nat (length (participants s)) ∧
  leaves (stats s) = 0 ∧ completions (stats s) = 0 ∧ 0 ≤ extensions (stats s).
Proof.
  intros Hr. revert sid s.
  apply (records_invariant
           (λ _ s, joins (stats s) = Z.of_nat (length (participants s)) ∧
                   leaves (stats s) = 0 ∧ completions (stats s) = 0 ∧
                   0 ≤ extensions (stats s)) get_chat int); [| |done].
  - intros sid s Hb. by destruct Hb.
  - intros w' sid s s' _ _ (Hj & Hl & Hc & He) Hst.
    destruct Hst; simpl; try done.
    + rewrite length_app. simpl. split_and!; try done. lia.
    + split_and!; try done. lia.
Qed.

Lemma session_stats_count_the_participants_witness :
  joins (stats session_joined3) = Z.of_nat (length (participants session_joined3)) ∧
  leaves (stats session_joined3) = 0 ∧ completions (stats session_joined3) = 0 ∧
  0 ≤ extensions (stats session_joined3).
Proof.
  apply (session_stats_count_the_participants directory decimal world_joined3 room_sid).
  - apply reachable_world_joined3.
  - vm_compute; reflexivity.
Defined.

Lemma stored_ids_are_generated
    (get_chat : Z → option User) (int : string → option Z) (w : World) (sid : string)
    (s : StudySession) :
  reachable get_chat int w →
  group_sessions w !! sid = Some s →
  ∃ now rnd, sid = generate_session_id now rnd (chat_id s).
Proof.
  intros Hr. revert sid s.
  apply (records_invariant
           (λ sid s, ∃ now rnd, sid = generate_session_id now rnd (chat_id s))
           get_chat int); [| |done].
  - intros sid s Hb. destruct Hb as [now ? rnd chat ? ? ? ->|now ? rnd chat ? ? ->];
      by exists now, rnd.
  - intros w' sid s s' _ _ (now & rnd & Hid) Hst. exists now, rnd.
    by destruct Hst.
Qed.

(** X9.  In a run of the bot every session is stored under an id drawn by
    [generate_session_id] for the chat of the session: the id is
    [session_<chat_id>_<time>_<number>]. *)
Theorem session_ids_embed_the_chat
    (get_chat : Z → option User) (int : string → option Z) (w : World) (sid : string)
    (s : StudySession) :
  reachable get_chat int w →
  group_sessions w !! sid = Some s →
  ∃ now rnd, sid = generate_session_id now rnd (chat_id s) ∧
             sid = "session_" +:+ pretty (chat_id s) +:+ "_" +:+ pretty now +:+ "_"
                   +:+ pretty rnd.
Proof.
  intros Hr Hs.
  destruct (stored_ids_are_generated get_chat int w sid s Hr Hs) as (now & rnd & Hid).
  by exists now, rnd.
Qed.

Lemma session_ids_embed_the_chat_witness :
  ∃ now rnd, room_sid = generate_session_id now rnd (chat_id session_joined3) ∧
             room_sid = "session_" +:+ pretty (chat_id session_joined3) +:+ "_"
                        +:+ pretty now +:+ "_" +:+ pretty rnd.
Proof.
  apply (session_ids_embed_the_chat directory decimal world_joined3 room_sid).
  - apply reachable_world_joined3.
  - vm_compute; reflexivity.
Defined.

(** ** The extend button and the ids of the sessions *)

Lemma contains_rev_app (c : ascii) (a b : string) :
  contains c (String.rev_app a b) = contains c a || contains c b.
Proof.
  revert b. induction a as [|x a IH]; intros b; simpl; [done|].
  rewrite IH. simpl. destruct (Ascii.eqb x c), (contains c a), (contains c b); done.
Qed.

(** No field of [s.split(sep)] holds the separator. *)
Lemma split_from_fields (sep : ascii) (acc s p : string) :
  contains sep acc = false →
  p ∈ split_from sep None acc s → contains sep p = false.
Proof.
  revert acc. induction s as [|c s IH]; intros acc Hacc Hp; simpl in Hp.
  - apply list_elem_of_singleton in Hp as ->. unfold String.rev.
    by rewrite contains_rev_app, Hacc.
  - destruct (Ascii.eqb c sep) eqn:Hc.
    + apply elem_of_cons in Hp as [->|Hp].
      * unfold String.rev. by rewrite contains_rev_app, Hacc.
      * by apply (IH EmptyString).
    + apply (IH (String c acc)); [|done]. simpl. by rewrite Hc.
Qed.

Lemma generate_session_id_has_underscore (now rnd chat : Z) :
  contains underscore (generate_session_id now rnd chat) = true.
Proof. reflexivity. Qed.

(** X10.  In a run of the bot the extend button never changes the state
    and never answers [Extended]: it takes the third field of the callback
    data split at every underscore as the session id, a field without
    underscore, while every stored id begins with [session_]. *)
Theorem extend_session_never_finds_a_session
    (get_chat : Z → option User) (int : string → option Z) (w : World) (data : string)
    (from_user : User) :
  reachable get_chat int w →
  (extend_session int data from_user w).2 = w ∧
  (extend_session int data from_user w).1 ≠ Extended.
Proof.
  intros Hr. unfold extend_session. cbv zeta.
  destruct (split underscore None data !! 2%nat) as [sid|] eqn:Hsid; [|done].
  destruct (split underscore None data !! 3%nat ≫= int) as [uid|]; [|done].
  destruct (negb (tg_id from_user =? uid)); [done|].
  destruct (group_sessions w !! sid) as [s|] eqn:Hs;
    [|by rewrite (py_in_false _ _ Hs)].
  exfalso.
  destruct (stored_ids_are_generated get_chat int w sid s Hr Hs) as (now & rnd & ->).
  assert (Hno : contains underscore (generate_session_id now rnd (chat_id s)) = false).
  { apply (split_from_fields underscore EmptyString data); [done|].
    apply list_elem_of_lookup. by exists 2%nat. }
  by rewrite generate_session_id_has_underscore in Hno.
Qed.

Lemma extend_session_never_finds_a_session_witness :
  (extend_session decimal ("extend_session_" +:+ private_sid2 +:+ "_42") dana
     world_private2).2 = world_private2 ∧
  (extend_session decimal ("extend_session_" +:+ private_sid2 +:+ "_42") dana
     world_private2).1 ≠ Extended.
Proof.
  apply (extend_session_never_finds_a_session directory decimal).
  apply reachable_world_private2.
Defined.

(** ** The rollup of a manual end *)

Lemma update_user_stats_self (get_chat : Z → option User) (now u e : Z) (w : World) :
  answers_for_the_id_asked get_chat →
  user_profiles (update_user_stats get_chat now u e w) !! u =
  record_participation now e <$> stored_profile get_chat now u w.
Proof.
  intros Hsound. unfold stored_profile.
  destruct (user_profiles w !! u) as [p|] eqn:Hu.
  - rewrite (update_user_stats_known _ _ _ _ _ _ Hu). simpl. apply lookup_insert_eq.
  - unfold update_user_stats, update_user_stats_ref, get_user_profile.
    rewrite (py_in_false _ _ Hu). simpl.
    destruct (get_chat u) as [usr|] eqn:Hc; simpl; [|done].
    rewrite (Hsound _ _ Hc). by rewrite lookup_alter_eq, lookup_insert_eq.
Qed.

Lemma stored_profile_other (get_chat : Z → option User) (now now' u' e : Z) (w : World)
    (u : Z) :
  answers_for_the_id_asked get_chat → u' ≠ u →
  stored_profile get_chat now u (update_user_stats get_chat now' u' e w) =
  stored_profile get_chat now u w.
Proof.
  intros Hsound Hne. unfold stored_profile.
  by rewrite (update_user_stats_other get_chat now' u' e w u Hsound Hne).
Qed.

(** C8.  Every call [update_user_stats(u, e)] works on the stored profile
    of [u], the one in the table or the one [get_user_profile] makes from
    the answer of [bot.get_chat], and leaves it in the table under [u] with
    one more in [total_sessions], [e] more in [total_time] and
    [last_session] stamped; [completed_sessions] grows by one exactly when
    [e >= 3000], and in that case alone [first_completion] is appended,
    and only if it is not there yet, so a duplicate-free achievement list
    stays duplicate-free; nothing else of the profile and no entry of
    another user changes.  For a user met for the first time a call with
    [e = 3000] leaves [completed_sessions = 1] and the achievements
    [first_completion] alone.  (An unknown user for whom [bot.get_chat]
    raises has no stored profile, before or after the call.) *)
Theorem update_user_stats_records_participation
    (get_chat : Z → option User) (now u e : Z) (w : World) :
  answers_for_the_id_asked get_chat →
  let w' := update_user_stats get_chat now u e w in
  (match stored_profile get_chat now u w with
   | Some p =>
       ∃ p', user_profiles w' !! u = Some p' ∧
         total_sessions (study_stats p') = total_sessions (study_stats p) + 1 ∧
         total_time (study_stats p') = total_time (study_stats p) + e ∧
         last_session (study_stats p') = Some now ∧
         completed_sessions (study_stats p') =
           completed_sessions (study_stats p) + (if 3000 <=? e then 1 else 0) ∧
         achievements p' =
           (if (3000 <=? e) && negb (bool_decide ("first_completion" ∈ achievements p))
            then achievements p ++ ["first_completion"]
            else achievements p) ∧
         (NoDup (achievements p) → NoDup (achievements p')) ∧
         user_id p' = user_id p ∧ username p' = username p ∧
         first_name p' = first_name p ∧ last_name p' = last_name p ∧
         join_date p' = join_date p ∧ status p' = status p ∧
         preferences p' = preferences p
   | None => user_profiles w' !! u = None
   end) ∧
  (∀ v, v ≠ u → user_profiles w' !! v = user_profiles w !! v) ∧
  (user_profiles w !! u = None → is_Some (get_chat u) → e = 3000 →
   ∃ p', user_profiles w' !! u = Some p' ∧
         study_stats p' = mkStudyStats 1 3000 1 (Some now) ∧
         achievements p' = ["first_completion"]).
Proof.
  intros Hsound w'.
  pose proof (update_user_stats_self get_chat now u e w Hsound) as Hself.
  fold w' in Hself. split_and!.
  - destruct (stored_profile get_chat now u w) as [p|]; [|done].
    exists (record_participation now e p). split; [done|].
    rewrite record_participation_stats, record_participation_achievements.
    unfold bump_study_stats. simpl. change (50 * 60) with 3000.
    split_and!; try done.
    + destruct (3000 <=? e); lia.
    + unfold award_first_completion.
      destruct (3000 <=? e); simpl; [|done]. by case_bool_decide.
    + intros Hnd. destruct (3000 <=? e); [|done]. by apply award_first_completion_NoDup.
    + unfold record_participation. by destruct (50 * 60 <=? e).
    + unfold record_participation. by destruct (50 * 60 <=? e).
    + unfold record_participation. by destruct (50 * 60 <=? e).
    + unfold record_participation. by destruct (50 * 60 <=? e).
    + unfold record_participation. by destruct (50 * 60 <=? e).
    + unfold record_participation. by destruct (50 * 60 <=? e).
    + unfold record_participation. by destruct (50 * 60 <=? e).
  - intros v Hne. by apply update_user_stats_other.
  - intros Hu [usr Hc] ->. rewrite Hself. unfold stored_profile. rewrite Hu, Hc.
    eexists. split; [done|]. by split.
Qed.

Lemma update_user_stats_records_participation_witness :
  ∃ p', user_profiles (update_user_stats directory 500 11 3000 initial_world) !! 11 = Some p' ∧
        study_stats p' = mkStudyStats 1 3000 1 (Some 500) ∧
        achievements p' = ["first_completion"].
Proof.
  assert (Hu : user_profiles initial_world !! 11 = None) by reflexivity.
  assert (Hc : is_Some (directory 11)) by (eexists; reflexivity).
  exact (proj2 (proj2 (update_user_stats_records_participation directory 500 11 3000
                         initial_world directory_answers_for_the_id_asked))
           Hu Hc eq_refl).
Defined.

Lemma rollup_member_stored (get_chat : Z → option User) (now e : Z) (users : list Z)
    (w : World) (u : Z) :
  answers_for_the_id_asked get_chat → NoDup users → u ∈ users →
  user_profiles (rollup get_chat now e users w) !! u =
  record_participation now e <$> stored_profile get_chat now u w.
Proof.
  intros Hsound Hnd. revert w. induction Hnd as [|u' users Hnin Hnd IH]; intros w Hin.
  - by apply elem_of_nil in Hin.
  - rewrite rollup_cons. apply elem_of_cons in Hin as [->|Hin].
    + rewrite rollup_other by done. by apply update_user_stats_self.
    + rewrite IH by done. f_equal. apply stored_profile_other; [done|].
      intros ->. by apply Hnin.
Qed.

(** X11.  A manual end in a run of the bot counts every participant once:
    the participant's stored profile (made on the spot when [bot.get_chat]
    answers for a user seen for the first time) gets one session and the
    elapsed time [55 * 60 - time_left], which lies between 0 and 3300
    seconds; the profiles of all other users are left alone. *)
Theorem end_session_counts_each_participant_once
    (get_chat : Z → option User) (int : string → option Z) (now : Z) (sid : string)
    (w : World) (s : StudySession) :
  reachable get_chat int w →
  answers_for_the_id_asked get_chat →
  group_sessions w !! sid = Some s →
  let w' := (end_session get_chat now sid w).2 in
  let elapsed := 55 * 60 - time_left s in
  0 ≤ elapsed ≤ 3300 ∧
  (∀ u, u ∈ keys (participants s) →
        user_profiles w' !! u =
        record_participation now elapsed <$> stored_profile get_chat now u w) ∧
  (∀ u, u ∉ keys (participants s) → user_profiles w' !! u = user_profiles w !! u).
Proof.
  intros Hr Hsound Hs w' elapsed. subst w' elapsed.
  pose proof (reachable_sound get_chat int w Hr) as Hw.
  destruct (sessions_ok w Hw sid s Hs) as [(_ & Hnd & k & Hk & Hrange & _) _].
  destruct (end_session_found get_chat now sid w s Hs) as (w3 & -> & _ & _ & Hp & _).
  cbn [snd]. split; [lia|]. split.
  - intros u Hu. rewrite rollup_member_stored by done.
    unfold stored_profile. by rewrite Hp.
  - intros u Hu. rewrite rollup_other by done. by rewrite Hp.
Qed.

Lemma end_session_counts_each_participant_once_witness :
  user_profiles (end_session directory 4330 room_sid world_joined3).2 !! 12 =
  record_participation 4330 (55 * 60 - time_left session_joined3)
    <$> stored_profile directory 4330 12 world_joined3.
Proof.
  assert (Hs : group_sessions world_joined3 !! room_sid = Some session_joined3)
    by (vm_compute; reflexivity).
  destruct (end_session_counts_each_participant_once directory decimal 4330 room_sid
              world_joined3 session_joined3 (reachable_world_joined3 directory decimal)
              directory_answers_for_the_id_asked Hs) as (_ & Hin & _).
  apply Hin. apply (bool_decide_unpack _). vm_compute. exact I.
Defined.

(** ** The countdown *)

Lemma wakes_snoc (now : Z) (i : nat) (n : nat) (w : World) :
  wakes now i (S n) w = wake (now + 60 * Z.of_nat n) i (wakes now i n w).
Proof.
  revert now w. induction n as [|n IH]; intros now w.
  - simpl. by rewrite Z.add_0_r.
  - change (wakes now i (S (S n)) w) with (wakes (now + 60) i (S n) (wake now i w)).
    rewrite IH. simpl wakes. f_equal. lia.
Qed.

Lemma wakes_count_down (now : Z) (i : nat) (t : Task) (n : nat) (w : World)
    (s : StudySession) (k : Z) :
  sound_world w →
  tasks w !! i = Some t → task_done t = false →
  group_sessions w !! task_arg t = Some s →
  time_left s = 60 * k → Z.of_nat n < k →
  sound_world (wakes now i n w) ∧
  tasks (wakes now i n w) !! i = Some t ∧
  user_profiles (wakes now i n w) = user_profiles w ∧
  active_sessions (wakes now i n w) = active_sessions w ∧
  ∃ s', group_sessions (wakes now i n w) !! task_arg t = Some s' ∧
        time_left s' = 60 * (k - Z.of_nat n) ∧ is_active s' = true ∧
        participants s' = participants s ∧ chat_id s' = chat_id s.
Proof.
  revert now w s k. induction n as [|n IH]; intros now w s k Hw Hi Hlive Hs Hk Hn.
  - simpl. destruct (tasks_ok w Hw i t Hi Hlive) as (s0 & Hs0 & _ & Ha).
    assert (s0 = s) as -> by congruence.
    split_and!; try done. exists s. split_and!; try done. rewrite Hk. f_equal. lia.
  - simpl wakes.
    destruct (wake_live now i w t Hw Hi Hlive) as (s0 & Hs0 & _ & Ha & Hwake).
    assert (s0 = s) as -> by congruence. cbv zeta in Hwake.
    assert (Hz : (time_left s - 60 <=? 0) = false) by (apply Z.leb_gt; lia).
    rewrite Hz in Hwake.
    pose proof (sound_wake now i w Hw) as Hw1. rewrite Hwake in Hw1 |- *.
    set (w1 := set_group_sessions
                 (<[task_arg t := set_last_update now (set_time_left (time_left s - 60) s)]>
                    (group_sessions w)) w) in *.
    destruct (IH (now + 60) w1 (set_last_update now (set_time_left (time_left s - 60) s))
                (k - 1) Hw1) as (Hw' & Hi' & Hu' & Ha' & s' & Hs' & Ht' & Hact' & Hp' & Hc');
      try done.
    + subst w1. simpl. apply lookup_insert_eq.
    + simpl. lia.
    + lia.
    + split_and!; try done. exists s'. split_and!; try done. rewrite Ht'. f_equal. lia.
Qed.

(** X12.  In a run of the bot, a timer task that is not done counts its
    session down by itself: the session is active with a positive whole
    number of minutes left; each wake-up takes one minute off and leaves
    the session active until the last minute, and the wake-up that takes
    the last minute ends the session with [time_left = 0], removes its chat
    from the active index and finishes the task, without writing any
    profile. *)
Theorem timer_counts_the_session_down
    (get_chat : Z → option User) (int : string → option Z) (w : World) (i : nat) (t : Task) :
  reachable get_chat int w →
  tasks w !! i = Some t → task_done t = false →
  ∃ s k,
    group_sessions w !! task_arg t = Some s ∧ is_active s = true ∧
    time_left s = 60 * Z.of_nat (S k) ∧
    (∀ now n, (n ≤ k)%nat →
       ∃ s', group_sessions (wakes now i n w) !! task_arg t = Some s' ∧
             is_active s' = true ∧ time_left s' = time_left s - 60 * Z.of_nat n) ∧
    (∀ now,
       ∃ s' t', group_sessions (wakes now i (S k) w) !! task_arg t = Some s' ∧
                is_active s' = false ∧ time_left s' = 0 ∧
                participants s' = participants s ∧
                active_sessions (wakes now i (S k) w) !! chat_id s = None ∧
                tasks (wakes now i (S k) w) !! i = Some t' ∧ task_done t' = true ∧
                user_profiles (wakes now i (S k) w) = user_profiles w).
Proof.
  intros Hr Hi Hlive. pose proof (reachable_sound get_chat int w Hr) as Hw.
  destruct (tasks_ok w Hw i t Hi Hlive) as (s & Hs & _ & Ha).
  destruct (sessions_ok w Hw (task_arg t) s Hs) as [(_ & _ & k & Hk & Hrange & Hpos) _].
  specialize (Hpos Ha).
  exists s, (Z.to_nat (k - 1)).
  assert (Hk' : Z.of_nat (S (Z.to_nat (k - 1))) = k) by lia.
  split_and!; [done|done|by rewrite Hk'| |].
  - intros now n Hn.
    destruct (wakes_count_down now i t n w s k Hw Hi Hlive Hs Hk)
      as (_ & _ & _ & _ & s' & Hs' & Ht' & Ha' & _); [lia|].
    exists s'. split_and!; [done|done|]. rewrite Ht', Hk. lia.
  - intros now. rewrite wakes_snoc.
    destruct (wakes_count_down now i t (Z.to_nat (k - 1)) w s k Hw Hi Hlive Hs Hk)
      as (Hw' & Hi' & Hu' & Hact' & s' & Hs' & Ht' & Ha' & Hp' & Hc'); [lia|].
    destruct (wake_live (now + 60 * Z.of_nat (Z.to_nat (k - 1))) i _ t Hw' Hi' Hlive)
      as (s0 & Hs0 & _ & _ & ->).
    assert (s0 = s') as -> by congruence. cbv zeta.
    assert (Hz : (time_left s' - 60 <=? 0) = true) by (apply Z.leb_le; lia).
    rewrite Hz. simpl. rewrite lookup_insert_eq, list_lookup_alter_eq, Hi'. simpl.
    eexists _, _. split; [done|]. simpl.
    split_and!; [done|lia|done| |done|done|done].
    rewrite Hc'. apply lookup_delete_eq.
Qed.

Lemma timer_counts_the_session_down_witness :
  ∃ s k,
    group_sessions world_joined3 !! room_sid = Some s ∧ is_active s = true ∧
    time_left s = 60 * Z.of_nat (S k).
Proof.
  destruct (timer_counts_the_session_down directory decimal world_joined3 0
              (mkTask GroupTimer room_sid false) (reachable_world_joined3 directory decimal))
    as (s & k & Hs & Ha & Hk & _); [vm_compute; reflexivity|reflexivity|].
  exists s, k. split; [exact Hs|]. split; [exact Ha|exact Hk].
Defined.

(** ** After the end *)

(** X13.  Once a session has been ended by hand, the join button of that
    session is answered [SessionEnded] for every user and changes nothing,
    and the group command can open a new session in the chat: for an
    administrator it answers [Started] with the newly drawn id. *)
Theorem after_end_join_is_refused_and_start_succeeds
    (get_chat : Z → option User) (now : Z) (sid : string) (w : World) (s : StudySession) :
  group_sessions w !! sid = Some s →
  let w' := (end_session get_chat now sid w).2 in
  (∀ now' user, join_session now' ("join_" +:+ sid) user w' = (SessionEnded, w')) ∧
  (∀ now' loop_time rnd from_user st sent pin_ok,
     is_admin st = true →
     (start_session_group now' loop_time rnd (chat_id s) from_user (Some st) sent pin_ok w').1
     = Started (generate_session_id now' rnd (chat_id s))).
Proof.
  intros Hs w'.
  assert (Hkept : index_cleared_record_kept sid s w w').
  { subst w'. destruct (end_session_found get_chat now sid w s Hs) as (w3 & -> & Hg & Ha & _).
    destruct (rollup_frame get_chat now (55 * 60 - time_left s) (keys (participants s)) w3)
      as (Hrg & Hra & _).
    apply index_cleared_record_kept_intro; [done| |]; simpl; congruence. }
  destruct Hkept as (Hidx & Hrec & _). split.
  - intros now' user.
    by apply (join_session_ended now' _ user w' sid (set_is_active false s)
                (split_join_data sid) Hrec).
  - intros now' loop_time rnd from_user st sent pin_ok Hst.
    unfold start_session_group, get_active_session. rewrite Hst, Hidx. simpl.
    by destruct sent.
Qed.

Lemma after_end_join_is_refused_and_start_succeeds_witness :
  join_session 4400 ("join_" +:+ room_sid) dave
    (end_session directory 4330 room_sid world_joined3).2
  = (SessionEnded, (end_session directory 4330 room_sid world_joined3).2).
Proof.
  assert (Hs : group_sessions world_joined3 !! room_sid = Some session_joined3)
    by (vm_compute; reflexivity).
  exact (proj1 (after_end_join_is_refused_and_start_succeeds directory 4330 room_sid
                  world_joined3 session_joined3 Hs) 4400 dave).
Defined.

(** ** The shape of the session ids *)

Lemma pretty_N_go_underscore (x : N) (s : string) :
  contains underscore (pretty_N_go x s) = contains underscore s.
Proof.
  revert s. induction (N.lt_wf_0 x) as [x _ IH]. intros s.
  assert (x = 0 ∨ 0 < x)%N as [->|Hx] by lia.
  - by rewrite pretty_N_go_0.
  - rewrite pretty_N_go_step by done. rewrite IH by (by apply N.div_lt).
    simpl. unfold pretty_N_char. by repeat case_match.
Qed.

Lemma pretty_Z_underscore (z : Z) : contains underscore (pretty z) = false.
Proof.
  assert (Hpos : ∀ p : positive, contains underscore (pretty p) = false).
  { intros p. unfold pretty, pretty_positive, pretty, pretty_N.
    case_decide; [done|]. by rewrite pretty_N_go_underscore. }
  destruct z as [|p|p]; unfold pretty, pretty_Z; [done|apply Hpos|].
  simpl. apply Hpos.
Qed.

Lemma rev_app_rev_app (a b c : string) :
  String.rev_app (String.rev_app a b) c = String.rev_app b (a +:+ c).
Proof. revert b. induction a as [|x a IH]; intros b; simpl; [done|]. by rewrite IH. Qed.

Lemma rev_rev_app_nil (a : string) : String.rev (String.rev_app a EmptyString) = a +:+ "".
Proof. unfold String.rev. by rewrite rev_app_rev_app. Qed.

Lemma string_app_nil_r (a : string) : a +:+ "" = a.
Proof.
  induction a as [|x a IH]; [done|].
  change (String x (a +:+ "") = String x a). by rewrite IH.
Qed.

Lemma string_app_nil_l (a : string) : "" +:+ a = a.
Proof. reflexivity. Qed.

Lemma string_app_assoc (a b c : string) : (a +:+ b) +:+ c = a +:+ (b +:+ c).
Proof.
  induction a as [|x a IH]; [done|].
  change (String x ((a +:+ b) +:+ c) = String x (a +:+ (b +:+ c))). by rewrite IH.
Qed.

(** Splitting runs through a piece that has no separator. *)
Lemma split_from_piece (sep : ascii) (maxsplit : option nat) (acc a s : string) :
  contains sep a = false →
  split_from sep maxsplit acc (a +:+ s) = split_from sep maxsplit (String.rev_app a acc) s.
Proof.
  revert acc. induction a as [|x a IH]; intros acc Ha; simpl in *; [done|].
  apply orb_false_iff in Ha as [Hx Ha]. rewrite Hx. by apply IH.
Qed.

Lemma split_from_last_piece (sep : ascii) (acc a : string) :
  contains sep a = false →
  split_from sep None acc a = [String.rev (String.rev_app a acc)].
Proof.
  intros Ha. pose proof (split_from_piece sep None acc a EmptyString Ha) as Hp.
  rewrite string_app_nil_r in Hp. by rewrite Hp.
Qed.

Lemma split_generated_id (now rnd chat : Z) :
  split underscore None (generate_session_id now rnd chat)
  = ["session"; pretty chat; pretty now; pretty rnd].
Proof.
  unfold split, generate_session_id. simpl. rewrite string_app_nil_l.
  rewrite (split_from_piece _ _ _ (pretty chat)) by apply pretty_Z_underscore. simpl.
  rewrite string_app_nil_l.
  rewrite (split_from_piece _ _ _ (pretty now)) by apply pretty_Z_underscore. simpl.
  rewrite string_app_nil_l.
  rewrite (split_from_last_piece _ _ (pretty rnd)) by apply pretty_Z_underscore.
  by rewrite !rev_rev_app_nil, !string_app_nil_r.
Qed.

(** X14.  An id drawn by [generate_session_id] splits at its underscores
    into exactly the four fields [session], chat id, time and number;
    hence two draws give the same id only for the same chat, the same
    second and the same number, and the extend button, which reads the
    third and fourth field of its callback data, takes [session] for the
    session id and the chat id for the user id. *)
Theorem generated_ids_have_four_fields (now rnd chat : Z) :
  split underscore None (generate_session_id now rnd chat)
    = ["session"; pretty chat; pretty now; pretty rnd] ∧
  (∀ now' rnd' chat',
     generate_session_id now rnd chat = generate_session_id now' rnd' chat' →
     now = now' ∧ rnd = rnd' ∧ chat = chat') ∧
  (∀ u, split underscore None
          ("extend_session_" +:+ generate_session_id now rnd chat +:+ "_" +:+ u) !! 2%nat
        = Some "session" ∧
        split underscore None
          ("extend_session_" +:+ generate_session_id now rnd chat +:+ "_" +:+ u) !! 3%nat
        = Some (pretty chat)).
Proof.
  split_and!.
  - apply split_generated_id.
  - intros now' rnd' chat' Heq. apply (f_equal (split underscore None)) in Heq.
    rewrite !split_generated_id in Heq. injection Heq as Hc Hn Hr.
    split_and!; by apply (inj pretty).
  - intros u. unfold split, generate_session_id. simpl. rewrite string_app_nil_l.
    split; [done|]. rewrite string_app_assoc.
    rewrite (split_from_piece _ _ _ (pretty chat)) by apply pretty_Z_underscore. simpl.
    by rewrite rev_rev_app_nil, string_app_nil_r.
Qed.

(** C5.  In a run of the bot (with session ids that are not reused), take
    a session that has ended.  Whatever the callback data and whoever
    presses, the extend button does not answer [Extended] and leaves the
    state as it is, so the record keeps its [time_left] and its
    [stats.extensions]; and the button of this very session, pressed by
    the user the chat belongs to, is answered with [ExtendNotFound], whose
    text reads that the session does not exist or has ended. *)
Theorem extend_session_refuses_an_ended_session
    (get_chat : Z → option User) (int : string → option Z) (w : World) (sid : string)
    (s : StudySession) :
  reachable get_chat int w →
  group_sessions w !! sid = Some s →
  is_active s = false →
  (∀ data from_user,
     (extend_session int data from_user w).1 ≠ Extended ∧
     (extend_session int data from_user w).2 = w ∧
     ∃ s', group_sessions (extend_session int data from_user w).2 !! sid = Some s' ∧
           is_active s' = false ∧ time_left s' = time_left s ∧
           extensions (stats s') = extensions (stats s)) ∧
  (∀ from_user,
     tg_id from_user = chat_id s → int (pretty (chat_id s)) = Some (chat_id s) →
     extend_session int ("extend_session_" +:+ sid +:+ "_" +:+ pretty (tg_id from_user))
       from_user w
     = (ExtendNotFound, w)).
Proof.
  intros Hr Hs Ha.
  assert (Hmiss : ∀ data k, split underscore None data !! 2%nat = Some k →
                            group_sessions w !! k = None).
  { intros data k Hk. destruct (group_sessions w !! k) as [s0|] eqn:Hs0; [|done]. exfalso.
    destruct (stored_ids_are_generated get_chat int w k s0 Hr Hs0) as (now & rnd & ->).
    assert (Hno : contains underscore (generate_session_id now rnd (chat_id s0)) = false).
    { apply (split_from_fields underscore EmptyString data); [done|].
      apply list_elem_of_lookup. by exists 2%nat. }
    by rewrite generate_session_id_has_underscore in Hno. }
  split.
  - intros data from_user.
    assert (Hsame : (extend_session int data from_user w).1 ≠ Extended ∧
                    (extend_session int data from_user w).2 = w).
    { unfold extend_session. cbv zeta.
      destruct (split underscore None data !! 2%nat) as [k|] eqn:Hk; [|done].
      destruct (split underscore None data !! 3%nat ≫= int) as [uid|]; [|done].
      destruct (negb (tg_id from_user =? uid)); [done|].
      by rewrite (py_in_false _ _ (Hmiss data k Hk)). }
    destruct Hsame as [Hout Hw]. split; [done|]. split; [done|].
    rewrite Hw. by exists s.
  - intros from_user Hu Hint.
    destruct (stored_ids_are_generated get_chat int w sid s Hr Hs) as (now & rnd & Hid).
    set (data := "extend_session_" +:+ sid +:+ "_" +:+ pretty (tg_id from_user)).
    assert (H2 : split underscore None data !! 2%nat = Some "session").
    { subst data. rewrite Hid. reflexivity. }
    assert (H3 : split underscore None data !! 3%nat = Some (pretty (chat_id s))).
    { subst data. rewrite Hid. unfold split, generate_session_id. simpl.
      rewrite string_app_nil_l, string_app_assoc.
      rewrite (split_from_piece _ _ _ (pretty (chat_id s))) by apply pretty_Z_underscore.
      simpl. by rewrite rev_rev_app_nil, string_app_nil_r. }
    unfold extend_session. cbv zeta. rewrite H2, H3. simpl. rewrite Hint, Hu, Z.eqb_refl.
    simpl. by rewrite (py_in_false _ _ (Hmiss data "session" H2)).
Qed.

Lemma extend_session_refuses_an_ended_session_witness :
  (extend_session decimal ("extend_session_" +:+ room_sid +:+ "_11") alice world_closed).1
    ≠ Extended ∧
  (extend_session decimal ("extend_session_" +:+ room_sid +:+ "_11") alice world_closed).2
    = world_closed ∧
  ∃ s', group_sessions
          (extend_session decimal ("extend_session_" +:+ room_sid +:+ "_11") alice
             world_closed).2 !! room_sid = Some s' ∧
        is_active s' = false ∧ time_left s' = time_left session_closed ∧
        extensions (stats s') = extensions (stats session_closed).
Proof.
  assert (Hs : group_sessions world_closed !! room_sid = Some session_closed)
    by (vm_compute; reflexivity).
  assert (Ha : is_active session_closed = false) by reflexivity.
  exact (proj1 (extend_session_refuses_an_ended_session directory decimal world_closed
                  room_sid session_closed reachable_world_closed Hs Ha)
           ("extend_session_" +:+ room_sid +:+ "_11") alice).
Defined.

(** The same computed on a run: Dana's private session runs out after 55
    minutes, and her extend button is answered that the session does not
    exist or has ended; nothing changes. *)
Example extend_session_after_timeout :
  is_active <$> group_sessions (ticks 5060 55 world_private) !! private_sid = Some false ∧
  extend_session decimal ("extend_session_" +:+ private_sid +:+ "_42") dana
    (ticks 5060 55 world_private)
  = (ExtendNotFound, ticks 5060 55 world_private).
Proof. split; vm_compute; reflexivity. Qed.

(** ** The profiles of a run *)

Lemma record_participation_ok (now d u : Z) (p : UserProfile) :
  0 ≤ d ≤ 3300 → profile_ok u p → profile_ok u (record_participation now d p).
Proof.
  intros Hd (Hid & Hst & Hpr & Hc & Hlo & Hhi & Hach).
  unfold profile_ok.
  rewrite record_participation_stats, record_participation_achievements.
  destruct (record_participation_identity now d p) as (-> & _ & -> & ->).
  unfold bump_study_stats. simpl. change (50 * 60) with 3000.
  destruct (3000 <=? d) eqn:Hcmp.
  - apply Z.leb_le in Hcmp. split_and!; try done; try lia.
    right. split; [lia|].
    destruct Hach as [[_ ->]|[_ ->]]; reflexivity.
  - apply Z.leb_gt in Hcmp. split_and!; try done; try lia.
Qed.

Lemma update_user_stats_profiles_ok (get_chat : Z → option User) (now u0 d : Z) (w : World) :
  answers_for_the_id_asked get_chat → 0 ≤ d ≤ 3300 →
  (∀ u p, user_profiles w !! u = Some p → profile_ok u p) →
  ∀ u p, user_profiles (update_user_stats get_chat now u0 d w) !! u = Some p → profile_ok u p.
Proof.
  intros Hsound Hd Hok u p. destruct (decide (u0 = u)) as [->|Hne].
  - rewrite update_user_stats_self by done. unfold stored_profile.
    destruct (user_profiles w !! u) as [q|] eqn:Hq; simpl.
    + intros [= <-]. apply record_participation_ok; [done|]. by apply Hok.
    + destruct (get_chat u) as [usr|] eqn:Hc; simpl; [|done].
      intros [= <-]. apply record_participation_ok; [done|].
      unfold profile_ok. simpl. rewrite (Hsound _ _ Hc). split_and!; try done. by left.
  - rewrite update_user_stats_other by done. apply Hok.
Qed.

Lemma rollup_profiles_ok (get_chat : Z → option User) (now d : Z) (users : list Z) (w : World) :
  answers_for_the_id_asked get_chat → 0 ≤ d ≤ 3300 →
  (∀ u p, user_profiles w !! u = Some p → profile_ok u p) →
  ∀ u p, user_profiles (rollup get_chat now d users w) !! u = Some p → profile_ok u p.
Proof.
  intros Hsound Hd. revert w. induction users as [|u0 users IH]; intros w Hok; [done|].
  rewrite rollup_cons. apply IH. by apply update_user_stats_profiles_ok.
Qed.

Lemma handle_profiles_ok (get_chat : Z → option User) (int : string → option Z) (e : Event)
    (w : World) :
  answers_for_the_id_asked get_chat → sound_world w →
  (∀ u p, user_profiles w !! u = Some p → profile_ok u p) →
  ∀ u p, user_profiles (handle get_chat int e w) !! u = Some p → profile_ok u p.
Proof.
  intros Hsound Hw Hok.
  assert (Hsame : ∀ w', user_profiles w' = user_profiles w →
            ∀ u p, user_profiles w' !! u = Some p → profile_ok u p).
  { intros w' ->. done. }
  destruct e; simpl.
  - apply Hsame. unfold start_session_group.
    destruct member as [st|]; [|done]. destruct (negb (is_admin st)); [done|].
    destruct (get_active_session chat w); [done|].
    unfold create_study_session. cbv zeta. simpl.
    destruct sent; [destruct pin_ok|]; done.
  - apply Hsame. unfold start_session_info.
    destruct (bool_decide (chat_type ∈ ["group"; "supergroup"])); [done|].
    cbv zeta. by destruct edit_ok.
  - apply Hsame. unfold join_session.
    destruct (split underscore (Some 1%nat) data !! 1%nat) as [sid|]; [|done].
    destruct (group_sessions w !! sid) as [s|]; [|done].
    destruct (negb (is_active s)); [done|].
    destruct (has_key (tg_id user) (participants s)); [done|]. cbv zeta.
    by destruct ((3 <=? S (length (participants s)))%nat && _).
  - apply Hsame. unfold extend_session. cbv zeta.
    destruct (split underscore None data !! 2%nat) as [sid|]; [|done].
    destruct (split underscore None data !! 3%nat ≫= int) as [uid|]; [|done].
    destruct (negb (tg_id from_user =? uid)); [done|].
    by destruct (negb (py_in sid (group_sessions w))).
  - apply Hsame. by rewrite end_session_user_changes_nothing.
  - unfold end_session_callback.
    destruct (split underscore (Some 2%nat) data !! 2%nat) as [sid|]; [|done].
    destruct member as [st|]; [|done].
    destruct (negb (is_admin st)); [done|].
    assert (Hend : ∀ u p, user_profiles (end_session get_chat now sid w).2 !! u = Some p →
              profile_ok u p).
    { destruct (group_sessions w !! sid) as [s|] eqn:Hs;
        [|by rewrite (end_session_unknown get_chat now sid w Hs)].
      destruct (end_session_found get_chat now sid w s Hs) as (w3 & -> & _ & _ & Hp & _).
      cbn [snd].
      destruct (sessions_ok w Hw sid s Hs) as [(_ & _ & k & Hk & Hrange & _) _].
      apply rollup_profiles_ok; [done|lia|]. by rewrite Hp. }
    by destruct (end_session get_chat now sid w) as [[session|] w1].
  - unfold get_user_profile.
    destruct (user_profiles w !! uid) as [q|] eqn:Hq.
    + by rewrite (py_in_true _ _ _ Hq).
    + rewrite (py_in_false _ _ Hq). simpl.
      destruct (get_chat uid) as [usr|] eqn:Hc; [|done]. simpl.
      intros u p. rewrite (Hsound _ _ Hc).
      destruct (decide (uid = u)) as [->|Hne].
      * rewrite lookup_insert_eq. intros [= <-]. unfold profile_ok. simpl.
        split_and!; try done. by left.
      * rewrite lookup_insert_ne by done. apply Hok.
  - apply Hsame. apply wake_keeps_user_profiles.
Qed.

(** X15.  In a run of the bot, with a [bot.get_chat] that answers for the
    id it is asked, every stored profile is kept under its user's id, is
    [ACTIVE] with the default preferences, and its statistics are
    consistent: the completed sessions are at most the total, each
    completed session accounts for at least 3000 seconds and each session
    for at most 3300, and [first_completion] is the only achievement,
    present once exactly when a session has been completed. *)
Theorem profiles_stay_consistent
    (get_chat : Z → option User) (int : string → option Z) (w : World) (u : Z)
    (p : UserProfile) :
  answers_for_the_id_asked get_chat →
  reachable get_chat int w →
  user_profiles w !! u = Some p →
  profile_ok u p.
Proof.
  intros Hsound Hr. revert u p. induction Hr as [|w e Hr IH Hnew]; [done|].
  apply handle_profiles_ok; [done| |done].
  by apply (reachable_sound get_chat int).
Qed.

Lemma profiles_stay_consistent_witness :
  profile_ok 12
    (mkUserProfile 12 None "Bob" (Some "Stone") 4330 ACTIVE
       (mkStudyStats 1 0 0 (Some 4330)) [] default_preferences).
Proof.
  apply (profiles_stay_consistent directory decimal world_closed 12).
  - apply directory_answers_for_the_id_asked.
  - apply reachable_world_closed.
  - vm_compute; reflexivity.
Defined.

(** ** The counters of [bot_stats] *)

Lemma size_alter `{Countable K} {V} (f : V → V) (k : K) (m : gmap K V) :
  size (alter f k m) = size m.
Proof. by rewrite <- !size_dom, dom_alter_L. Qed.

Lemma update_user_stats_counters (get_chat : Z → option User) (now u d : Z) (w : World) :
  answers_for_the_id_asked get_chat →
  active_users (bot_stats w) = Z.of_nat (size (user_profiles w)) →
  active_users (bot_stats (update_user_stats get_chat now u d w))
    = Z.of_nat (size (user_profiles (update_user_stats get_chat now u d w))) ∧
  bot_total_sessions (bot_stats (update_user_stats get_chat now u d w))
    = bot_total_sessions (bot_stats w).
Proof.
  intros Hsound Hc. unfold update_user_stats, update_user_stats_ref, get_user_profile.
  destruct (user_profiles w !! u) as [p|] eqn:Hu.
  - rewrite (py_in_true _ _ _ Hu). simpl. by rewrite size_alter.
  - rewrite (py_in_false _ _ Hu). simpl.
    destruct (get_chat u) as [usr|] eqn:Hg; simpl; [|done].
    rewrite (Hsound _ _ Hg), size_alter, map_size_insert_None by done. split; [lia|done].
Qed.

Lemma rollup_counters (get_chat : Z → option User) (now d : Z) (users : list Z) (w : World) :
  answers_for_the_id_asked get_chat →
  active_users (bot_stats w) = Z.of_nat (size (user_profiles w)) →
  active_users (bot_stats (rollup get_chat now d users w))
    = Z.of_nat (size (user_profiles (rollup get_chat now d users w))) ∧
  bot_total_sessions (bot_stats (rollup get_chat now d users w))
    = bot_total_sessions (bot_stats w).
Proof.
  intros Hsound. revert w. induction users as [|u users IH]; intros w Hc; [done|].
  rewrite rollup_cons.
  destruct (update_user_stats_counters get_chat now u d w Hsound Hc) as [Hc1 Ht1].
  destruct (IH _ Hc1) as [Hc2 Ht2]. split; [done|congruence].
Qed.

Lemma wake_counters (now : Z) (i : nat) (w : World) :
  size (group_sessions (wake now i w)) = size (group_sessions w) ∧
  bot_stats (wake now i w) = bot_stats w.
Proof.
  unfold wake. destruct (tasks w !! i) as [t|]; [|done].
  destruct (task_done t); [done|].
  assert (Hbody : size (group_sessions (group_session_timer now i (task_arg t) w))
                  = size (group_sessions w) ∧
                  bot_stats (group_session_timer now i (task_arg t) w) = bot_stats w).
  { unfold group_session_timer. destruct (group_sessions w !! task_arg t) as [s|]; [|done].
    destruct (negb (is_active s)); [done|]. cbv zeta.
    destruct (time_left s - 60 <=? 0).
    - unfold end_group_session_automatically, update_session. simpl.
      rewrite lookup_alter_eq. destruct (group_sessions w !! task_arg t); simpl;
        by rewrite ?size_alter.
    - unfold update_session. simpl. by rewrite size_alter. }
  by destruct (task_coro t).
Qed.

Lemma handle_counters (get_chat : Z → option User) (int : string → option Z) (e : Event)
    (w : World) :
  answers_for_the_id_asked get_chat → draws_unused_id e w →
  counters_ok w → counters_ok (handle get_chat int e w).
Proof.
  intros Hsound Hnew [Hs Hu]. unfold counters_ok. destruct e; simpl in *.
  - unfold start_session_group.
    destruct member as [st|]; [|done]. destruct (negb (is_admin st)); [done|].
    destruct (get_active_session chat w); [done|].
    unfold create_study_session. cbv zeta. simpl.
    destruct sent; [destruct pin_ok|]; simpl;
      rewrite ?size_alter, map_size_insert_None by done; split; [lia|done| lia|done|lia|done].
  - unfold start_session_info.
    destruct (bool_decide (chat_type ∈ ["group"; "supergroup"])); [done|].
    cbv zeta. destruct edit_ok; simpl;
      rewrite ?size_alter, map_size_insert_None by done; split; [lia|done|lia|done].
  - unfold join_session.
    destruct (split underscore (Some 1%nat) data !! 1%nat) as [sid|]; [|done].
    destruct (group_sessions w !! sid) as [s|]; [|done].
    destruct (negb (is_active s)); [done|].
    destruct (has_key (tg_id user) (participants s)); [done|]. cbv zeta.
    destruct ((3 <=? S (length (participants s)))%nat && _); simpl;
      by rewrite ?size_alter.
  - unfold extend_session. cbv zeta.
    destruct (split underscore None data !! 2%nat) as [sid|]; [|done].
    destruct (split underscore None data !! 3%nat ≫= int) as [uid|]; [|done].
    destruct (negb (tg_id from_user =? uid)); [done|].
    destruct (negb (py_in sid (group_sessions w))); [done|]. simpl.
    by rewrite !size_alter.
  - by rewrite end_session_user_changes_nothing.
  - unfold end_session_callback.
    destruct (split underscore (Some 2%nat) data !! 2%nat) as [sid|]; [|done].
    destruct member as [st|]; [|done].
    destruct (negb (is_admin st)); [done|].
    assert (Hend : counters_ok (end_session get_chat now sid w).2).
    { destruct (group_sessions w !! sid) as [s|] eqn:Hsid;
        [|by rewrite (end_session_unknown get_chat now sid w Hsid)].
      destruct (end_session_found get_chat now sid w s Hsid)
        as (w3 & -> & Hg & _ & Hp & Hb & _). cbn [snd].
      destruct (rollup_frame get_chat now (55 * 60 - time_left s) (keys (participants s)) w3)
        as (Hrg & _ & _).
      destruct (rollup_counters get_chat now (55 * 60 - time_left s) (keys (participants s))
                  w3 Hsound) as [Hc Ht]; [by rewrite Hb, Hp|].
      split; [|done]. by rewrite Ht, Hb, Hrg, Hg, size_alter. }
    by destruct (end_session get_chat now sid w) as [[session|] w1].
  - unfold get_user_profile.
    destruct (user_profiles w !! uid) as [q|] eqn:Hq.
    + by rewrite (py_in_true _ _ _ Hq).
    + rewrite (py_in_false _ _ Hq). simpl.
      destruct (get_chat uid) as [usr|] eqn:Hc; [|done]. simpl.
      rewrite (Hsound _ _ Hc), map_size_insert_None by done. split; [done|lia].
  - destruct (wake_counters now i w) as [-> ->]. by rewrite wake_keeps_user_profiles.
Qed.

(** X16.  In a run of the bot with session ids that are not reused and a
    [bot.get_chat] that answers for the id it is asked,
    [bot_stats["total_sessions"]] is the number of session records and
    [bot_stats["active_users"]] the number of stored profiles. *)
Theorem bot_stats_count_the_tables
    (get_chat : Z → option User) (int : string → option Z) (w : World) :
  answers_for_the_id_asked get_chat →
  reachable get_chat int w →
  bot_total_sessions (bot_stats w) = Z.of_nat (size (group_sessions w)) ∧
  active_users (bot_stats w) = Z.of_nat (size (user_profiles w)).
Proof.
  intros Hsound Hr. induction Hr as [|w e Hr IH Hnew]; [done|].
  by apply handle_counters.
Qed.

Lemma bot_stats_count_the_tables_witness :
  bot_total_sessions (bot_stats world_closed) = Z.of_nat (size (group_sessions world_closed)) ∧
  active_users (bot_stats world_closed) = Z.of_nat (size (user_profiles world_closed)).
Proof.
  apply (bot_stats_count_the_tables directory decimal).
  - apply directory_answers_for_the_id_asked.
  - apply reachable_world_closed.
Defined.

(** ** Displayed times *)

Lemma pad2_two_digits (n : Z) :
  0 ≤ n < 100 →
  contains ":"%char (pad2 n) = false ∧ decimal (pad2 n) = Some n ∧ String.length (pad2 n) = 2%nat.
Proof.
  intros Hn.
  assert (Hall : Forall (λ n, contains ":"%char (pad2 n) = false ∧ decimal (pad2 n) = Some n ∧
                              String.length (pad2 n) = 2%nat) (seqZ 0 100)).
  { apply (bool_decide_unpack _). vm_compute. exact I. }
  rewrite Forall_forall in Hall. apply Hall. apply elem_of_seqZ. lia.
Qed.

Lemma string_length_app (a b : string) :
  String.length (a +:+ b) = (String.length a + String.length b)%nat.
Proof.
  induction a as [|x a IH]; [done|].
  change (S (String.length (a +:+ b)) = S (String.length a + String.length b)).
  by rewrite IH.
Qed.

Lemma split_clock2 (a b : string) :
  contains ":"%char a = false → contains ":"%char b = false →
  split ":"%char None (a +:+ ":" +:+ b) = [a; b].
Proof.
  intros Ha Hb. unfold split. rewrite (split_from_piece _ _ _ a) by done. simpl.
  rewrite string_app_nil_l, (split_from_last_piece _ _ b) by done.
  by rewrite !rev_rev_app_nil, !string_app_nil_r.
Qed.

Lemma split_clock3 (a b c : string) :
  contains ":"%char a = false → contains ":"%char b = false → contains ":"%char c = false →
  split ":"%char None (a +:+ ":" +:+ b +:+ ":" +:+ c) = [a; b; c].
Proof.
  intros Ha Hb Hc. unfold split. rewrite (split_from_piece _ _ _ a) by done. simpl.
  rewrite string_app_nil_l, (split_from_piece _ _ _ b) by done. simpl.
  rewrite string_app_nil_l, (split_from_last_piece _ _ c) by done.
  by rewrite !rev_rev_app_nil, !string_app_nil_r.
Qed.

(** X17.  [format_time] loses nothing below a hundred hours: reading the
    displayed text back gives the seconds it was made from, so different
    times are displayed differently; and below one hour, which covers every
    [time_left], the text is the five characters [MM:SS]. *)
Theorem format_time_reads_back (seconds : Z) :
  0 ≤ seconds < 360000 →
  read_time (format_time seconds) = Some seconds ∧
  (seconds < 3600 → String.length (format_time seconds) = 5%nat).
Proof.
  intros Hs. unfold format_time. cbv zeta.
  pose proof (Z.div_mod seconds 60 ltac:(lia)) as Hdm.
  pose proof (Z.mod_pos_bound seconds 60 ltac:(lia)) as Hsec.
  assert (Hmin : 0 ≤ seconds `div` 60 < 6000).
  { split; [apply Z.div_pos; lia|apply Z.div_lt_upper_bound; lia]. }
  destruct (pad2_two_digits (seconds `mod` 60)) as (Hc3 & Hd3 & Hl3); [lia|].
  destruct (60 <=? seconds `div` 60) eqn:Hh.
  - apply Z.leb_le in Hh.
    pose proof (Z.div_mod (seconds `div` 60) 60 ltac:(lia)) as Hdm2.
    pose proof (Z.mod_pos_bound (seconds `div` 60) 60 ltac:(lia)) as Hmm.
    assert (Hhr : 0 ≤ (seconds `div` 60) `div` 60 < 100).
    { split; [apply Z.div_pos; lia|apply Z.div_lt_upper_bound; lia]. }
    destruct (pad2_two_digits ((seconds `div` 60) `div` 60)) as (Hc1 & Hd1 & _); [lia|].
    destruct (pad2_two_digits ((seconds `div` 60) `mod` 60)) as (Hc2 & Hd2 & _); [lia|].
    split; [|intros Hlt; exfalso; lia].
    unfold read_time. rewrite split_clock3 by done. rewrite Hd1, Hd2, Hd3. simpl.
    f_equal. lia.
  - apply Z.leb_gt in Hh.
    destruct (pad2_two_digits (seconds `div` 60)) as (Hc1 & Hd1 & Hl1); [lia|].
    split.
    + unfold read_time. rewrite split_clock2 by done. rewrite Hd1, Hd3. simpl.
      f_equal. lia.
    + intros _. rewrite !string_length_app, Hl1, Hl3. done.
Qed.

Lemma format_time_reads_back_witness :
  read_time (format_time 3300) = Some 3300 ∧
  (3300 < 3600 → String.length (format_time 3300) = 5%nat).
Proof. apply format_time_reads_back. lia. Defined.

(** ** One tick *)

Lemma wake_tasks (now : Z) (j : nat) (w : World) :
  tasks (wake now j w) = tasks w ∨ tasks (wake now j w) = alter mark_done j (tasks w).
Proof.
  unfold wake. destruct (tasks w !! j) as [t|]; [|by left].
  destruct (task_done t); [by left|].
  assert (Hbody : tasks (group_session_timer now j (task_arg t) w) = tasks w ∨
                  tasks (group_session_timer now j (task_arg t) w)
                  = alter mark_done j (tasks w)).
  { unfold group_session_timer. destruct (group_sessions w !! task_arg t) as [s|]; [|by right].
    destruct (negb (is_active s)); [by right|]. cbv zeta.
    destruct (time_left s - 60 <=? 0); [|by left].
    right. unfold end_group_session_automatically, update_session. simpl.
    rewrite lookup_alter_eq. by destruct (group_sessions w !! task_arg t). }
  by destruct (task_coro t).
Qed.

Lemma wake_other_task (now : Z) (i j : nat) (w : World) :
  j ≠ i → tasks (wake now j w) !! i = tasks w !! i.
Proof.
  intros Hne. destruct (wake_tasks now j w) as [->| ->]; [done|].
  by apply list_lookup_alter_ne.
Qed.

(** A wake-up of another task leaves the record of a session alone. *)
Lemma wake_other_record (now : Z) (i j : nat) (w : World) (sid : string) (s : StudySession) :
  sound_world w →
  group_sessions w !! sid = Some s → timer_task s = Some i → j ≠ i →
  group_sessions (wake now j w) !! sid = Some s.
Proof.
  intros Hw Hs Ht Hne.
  destruct (tasks w !! j) as [t|] eqn:Hj; [|by unfold wake; rewrite Hj].
  destruct (task_done t) eqn:Hlive; [by unfold wake; rewrite Hj, Hlive|].
  destruct (wake_live now j w t Hw Hj Hlive) as (s0 & Hs0 & Ht0 & _ & ->). cbv zeta.
  assert (Hsid : task_arg t ≠ sid).
  { intros Heq. rewrite Heq in Hs0. assert (s0 = s) as -> by congruence. congruence. }
  destruct (time_left s0 - 60 <=? 0); simpl; by rewrite lookup_insert_ne.
Qed.

Lemma wakes_of_others (now : Z) (i : nat) (l : list nat) (w : World) (sid : string)
    (s : StudySession) :
  sound_world w →
  group_sessions w !! sid = Some s → timer_task s = Some i → i ∉ l →
  sound_world (foldl (λ acc j, wake now j acc) w l) ∧
  group_sessions (foldl (λ acc j, wake now j acc) w l) !! sid = Some s ∧
  tasks (foldl (λ acc j, wake now j acc) w l) !! i = tasks w !! i.
Proof.
  revert w. induction l as [|j l IH]; intros w Hw Hs Ht Hnin; [done|].
  simpl. assert (Hne : j ≠ i) by (intros ->; apply Hnin; by left).
  destruct (IH (wake now j w)) as (Hw' & Hs' & Ht'); [by apply sound_wake| |done| |].
  - by apply (wake_other_record now i j).
  - intros Hin. apply Hnin. by right.
  - split_and!; [done|done|]. rewrite Ht'. by apply wake_other_task.
Qed.

(** X18.  One tick interval in a run of the bot, every task of the loop
    being woken once: a session whose timer is live and that has more than
    a minute left loses exactly one minute and stays active; one with its
    last minute left (it never has less) is ended with [time_left = 0];
    and nothing else of these records changes but [last_update]. *)
Theorem tick_takes_one_minute_off
    (get_chat : Z → option User) (int : string → option Z) (now : Z) (w : World)
    (sid : string) (s : StudySession) :
  reachable get_chat int w →
  group_sessions w !! sid = Some s →
  timer_live (timer_task s) w = true →
  group_sessions (tick now w) !! sid =
  Some (if 60 <? time_left s then ticked_record now s
        else set_is_active false (ticked_record now s)) ∧
  60 ≤ time_left s.
Proof.
  intros Hr Hs Hlive. pose proof (reachable_sound get_chat int w Hr) as Hw.
  unfold timer_live in Hlive.
  destruct (timer_task s) as [i|] eqn:Ht; [|done].
  destruct (tasks w !! i) as [t|] eqn:Hi; [|done].
  apply negb_true_iff in Hlive.
  destruct (sessions_ok w Hw sid s Hs) as [(_ & _ & k & Hk & Hrange & Hpos) Htm].
  destruct (Htm i Ht) as (t0 & Hi0 & Harg & _). assert (t0 = t) as -> by congruence.
  assert (Hge : 60 ≤ time_left s).
  { destruct (tasks_ok w Hw i t Hi Hlive) as (s' & Hs' & _ & Ha').
    rewrite Harg in Hs'. assert (s' = s) as -> by congruence.
    specialize (Hpos Ha'). lia. }
  split; [|exact Hge].
  assert (Hin : i ∈ seq 0 (length (tasks w))).
  { apply elem_of_seq. apply lookup_lt_Some in Hi. lia. }
  apply list_elem_of_split in Hin as (l1 & l2 & Hl).
  assert (Hnd : NoDup (l1 ++ i :: l2)) by (rewrite <- Hl; apply NoDup_seq).
  apply NoDup_app in Hnd as (_ & Hl1 & Hnd2). apply NoDup_cons in Hnd2 as [Hl2 _].
  assert (Hnin1 : i ∉ l1) by (intros Hin; apply (Hl1 i Hin); by left).
  unfold tick. rewrite Hl, foldl_app. simpl.
  destruct (wakes_of_others now i l1 w sid s Hw Hs Ht Hnin1) as (Hw1 & Hs1 & Hi1).
  set (w1 := foldl (λ acc j, wake now j acc) w l1) in *.
  rewrite Hi in Hi1.
  destruct (wake_live now i w1 t Hw1 Hi1 Hlive) as (s0 & Hs0 & _ & Ha0 & Hwake).
  rewrite Harg in Hs0. assert (s0 = s) as -> by congruence.
  pose proof (sound_wake now i w1 Hw1) as Hw2. cbv zeta in Hwake.
  assert (Hcmp : (time_left s - 60 <=? 0) = negb (60 <? time_left s)).
  { destruct (60 <? time_left s) eqn:Hlt; simpl.
    - apply Z.ltb_lt in Hlt. apply Z.leb_gt. lia.
    - apply Z.ltb_ge in Hlt. apply Z.leb_le. lia. }
  rewrite Hcmp in Hwake.
  set (s2 := if 60 <? time_left s then ticked_record now s
             else set_is_active false (ticked_record now s)).
  assert (Hs2 : group_sessions (wake now i w1) !! sid = Some s2).
  { rewrite Hwake, Harg. subst s2. destruct (60 <? time_left s); simpl;
      apply lookup_insert_eq. }
  assert (Ht2 : timer_task s2 = Some i).
  { subst s2. by destruct (60 <? time_left s). }
  by destruct (wakes_of_others now i l2 (wake now i w1) sid s2 Hw2 Hs2 Ht2 Hl2)
    as (_ & Hs3 & _).
Qed.

Lemma tick_takes_one_minute_off_witness :
  group_sessions (tick 1090 world_joined3) !! room_sid =
  Some (if 60 <? time_left session_joined3 then ticked_record 1090 session_joined3
        else set_is_active false (ticked_record 1090 session_joined3)) ∧
  60 ≤ time_left session_joined3.
Proof.
  apply (tick_takes_one_minute_off directory decimal).
  - apply reachable_world_joined3.
  - vm_compute; reflexivity.
  - reflexivity.
Defined.

(** ** Profiles that are stored *)

(** X19.  When the user is known already, or [bot.get_chat] answers for
    the id it is asked, [get_user_profile] returns the profile stored under
    the user's id; statistics recorded on it are kept, and the next
    [get_user_profile] returns the same stored profile and changes
    nothing. *)
Theorem stored_profiles_persist
    (get_chat : Z → option User) (now now' now'' u e : Z) (w : World) (p : UserProfile) :
  answers_for_the_id_asked get_chat →
  stored_profile get_chat now u w = Some p →
  let w1 := (get_user_profile get_chat now u w).2 in
  let w2 := update_user_stats get_chat now' u e w1 in
  (get_user_profile get_chat now u w).1 = Stored u ∧
  user_profiles w1 !! u = Some p ∧
  user_profiles w2 !! u = Some (record_participation now' e p) ∧
  get_user_profile get_chat now'' u w2 = (Stored u, w2).
Proof.
  intros Hsound Hp w1 w2.
  assert (H1 : (get_user_profile get_chat now u w).1 = Stored u ∧
               user_profiles w1 !! u = Some p).
  { subst w1 w2. unfold stored_profile in Hp. unfold get_user_profile.
    destruct (user_profiles w !! u) as [q|] eqn:Hq.
    - rewrite (py_in_true _ _ _ Hq). simpl. split; [done|congruence].
    - rewrite (py_in_false _ _ Hq). simpl.
      destruct (get_chat u) as [usr|] eqn:Hc; [|done]. simpl in *.
      rewrite (Hsound _ _ Hc) in *. rewrite lookup_insert_eq. split; [done|congruence]. }
  destruct H1 as [Hr Hu1].
  assert (Hu2 : user_profiles w2 !! u = Some (record_participation now' e p)).
  { subst w2. rewrite (update_user_stats_known _ _ _ _ _ _ Hu1). simpl.
    apply lookup_insert_eq. }
  split_and!; [done|done|done|].
  by apply (get_user_profile_known get_chat now'' u w2 _ Hu2).
Qed.

Lemma stored_profiles_persist_witness :
  user_profiles
    (update_user_stats directory 200 11 3000 (get_user_profile directory 100 11 initial_world).2)
    !! 11
  = Some (record_participation 200 3000
            (mkUserProfile 11 (Some "alice") "Alice" None 100 ACTIVE fresh_study_stats []
               default_preferences)).
Proof.
  destruct (stored_profiles_persist directory 100 200 300 11 3000 initial_world
              (mkUserProfile 11 (Some "alice") "Alice" None 100 ACTIVE fresh_study_stats []
                 default_preferences)
              directory_answers_for_the_id_asked eq_refl) as (_ & _ & H & _).
  exact H.
Defined.

Lemma wake_keeps_unwatched (now : Z) (j : nat) (w : World) (sid : string) (s : StudySession) :
  sound_world w →
  group_sessions w !! sid = Some s → timer_live (timer_task s) w = false →
  group_sessions (wake now j w) !! sid = Some s ∧
  timer_live (timer_task s) (wake now j w) = false.
Proof.
  intros Hw Hs Hdead. split.
  - destruct (tasks w !! j) as [t|] eqn:Hj; [|by unfold wake; rewrite Hj].
    destruct (task_done t) eqn:Hlive; [by unfold wake; rewrite Hj, Hlive|].
    destruct (wake_live now j w t Hw Hj Hlive) as (s0 & Hs0 & Ht0 & _ & ->). cbv zeta.
    assert (Hsid : task_arg t ≠ sid).
    { intros Heq. rewrite Heq in Hs0. assert (s0 = s) as -> by congruence.
      unfold timer_live in Hdead. by rewrite Ht0, Hj, Hlive in Hdead. }
    destruct (time_left s0 - 60 <=? 0); simpl; by rewrite lookup_insert_ne.
  - unfold timer_live in *. destruct (timer_task s) as [i|]; [|done].
    destruct (wake_tasks now j w) as [->| ->]; [done|].
    destruct (decide (j = i)) as [->|Hne].
    + rewrite list_lookup_alter_eq. by destruct (tasks w !! i).
    + by rewrite list_lookup_alter_ne.
Qed.

(** X20.  One tick interval in a run of the bot leaves every session
    without a live timer as it is: a group session still waiting for its
    third participant, or a session that has ended. *)
Theorem tick_leaves_unwatched_sessions
    (get_chat : Z → option User) (int : string → option Z) (now : Z) (w : World)
    (sid : string) (s : StudySession) :
  reachable get_chat int w →
  group_sessions w !! sid = Some s →
  timer_live (timer_task s) w = false →
  group_sessions (tick now w) !! sid = Some s.
Proof.
  intros Hr Hs Hdead. pose proof (reachable_sound get_chat int w Hr) as Hw.
  unfold tick. generalize (seq 0 (length (tasks w))). intros l.
  clear Hr. revert w Hw Hs Hdead. induction l as [|j l IH]; intros w Hw Hs Hdead; [done|].
  simpl. destruct (wake_keeps_unwatched now j w sid s Hw Hs Hdead) as [Hs' Hdead'].
  apply IH; [by apply sound_wake|done|done].
Qed.

Lemma tick_leaves_unwatched_sessions_witness :
  group_sessions (tick 5000 world_closed) !! room_sid = Some session_closed.
Proof.
  apply (tick_leaves_unwatched_sessions directory decimal).
  - apply reachable_world_closed.
  - vm_compute; reflexivity.
  - reflexivity.
Defined.
